(** * TOC user-management API: authorization core

    A shallow embedding of the authentication / authorization middlewares
    ([src/middlewares/auth.middleware.js]), of the controllers that
    manage credentials, grants, roles and services, and of what loading
    the audit middleware ([src/middlewares/audit.middleware.js]) does,
    together with the properties the specification states about them.

    Conventions of the embedding.
    - A Mongo collection is the list of its documents, in insertion order
      ([findOne] returns the first match).
    - Every handler is a function from the database (and the request) to
      the new database and an [Outcome]: [next()], [next(err)] or a JSON
      response.
    - The clock ([new Date()]) is an integer argument [now].
    - Library functions whose code is not part of the repository
      ([jwt.verify], [jwt.sign], [bcrypt], [ObjectId.isValid], the
      casts Mongoose applies to a filter, the calendar arithmetic of
      [Date]) are function arguments.
    - [package.json] declares [mongoose ^7.5.3]: a document has
      [save] and [deleteOne] but no [delete] method.
    - A call to the store returns: what a lost connection or an id
      that cannot be cast would throw is not part of the embedding. *)

From Stdlib Require Import List String Ascii ZArith Bool Lia.
From Stdlib Require Import DecimalString.
Import ListNotations.
Open Scope string_scope.

Set Implicit Arguments.
Set Warnings "-register-all".

(* ================================================================== *)
(** ** JavaScript values *)
(* ================================================================== *)

Module Js.

(** JSON-like values. An object keeps its fields in insertion order. *)
Inductive value : Type :=
| Null
| Bool (b : bool)
| Num (z : Z)
| Str (s : string)
| Arr (items : list value)
| Obj (fields : list (string * value)).

Definition object := list (string * value).

(** [v ? a : b] on a value. *)
Definition truthy (v : value) : bool :=
  match v with
  | Null => false
  | Bool b => b
  | Num z => negb (z =? 0)%Z
  | Str s => negb (s =? "")
  | Arr _ => true
  | Obj _ => true
  end.

(** [o[k]]; [None] is [undefined]. *)
Fixpoint get (k : string) (o : object) : option value :=
  match o with
  | [] => None
  | (k', v) :: rest => if k' =? k then Some v else get k rest
  end.

(** [o[k] = v]: overwrite in place, or append a new field. *)
Fixpoint set (k : string) (v : value) (o : object) : object :=
  match o with
  | [] => [(k, v)]
  | (k', v') :: rest =>
      if k' =? k then (k, v) :: rest else (k', v') :: set k v rest
  end.

Definition index_key (n : nat) : string :=
  NilEmpty.string_of_uint (Nat.to_uint n).

Fixpoint indexed (n : nat) (l : list value) : object :=
  match l with
  | [] => []
  | v :: rest => (index_key n, v) :: indexed (S n) rest
  end.

(** [{ ...v }] for a value with [typeof v === 'object'] (and not null):
    the own enumerable properties, one level deep. *)
Definition spread (v : value) : object :=
  match v with
  | Obj fields => fields
  | Arr items => indexed 0 items
  | _ => []
  end.

End Js.

(* ================================================================== *)
(** ** Data model (the Mongoose schemas) *)
(* ================================================================== *)

Definition ObjectId := string.

(** [a === b] on two nullable ids. *)
Definition oid_eqb (a b : option ObjectId) : bool :=
  match a, b with
  | None, None => true
  | Some x, Some y => x =? y
  | _, _ => false
  end.

Definition mem_id (i : ObjectId) (l : list ObjectId) : bool :=
  existsb (String.eqb i) l.

(** models/user.model.js *)
Record User := mkUser {
  u_id : ObjectId;
  username : string;
  email : string;
  password : string;            (* the stored hash *)
  displayName : string;
  profileImage : option string;
  isEmailVerified : bool;
  u_status : string;            (* 'active' | 'suspended' | 'pending' *)
  lastLoginAt : option Z
}.

(** models/service.model.js *)
Record Service := mkService {
  s_id : ObjectId;
  s_name : string;
  apiKey : string;
  apiSecret : string;
  active : bool
}.

(** models/role.model.js *)
Record Role := mkRole {
  r_id : ObjectId;
  r_name : string;
  isGlobal : bool;
  r_serviceId : option ObjectId;   (* null for global roles *)
  permissions : list string
}.

(** models/userService.model.js *)
Record UserService := mkUserService {
  us_id : ObjectId;
  us_userId : ObjectId;
  us_serviceId : option ObjectId;  (* null: the global relationship *)
  us_roles : list ObjectId;
  us_status : string;              (* 'active' | 'suspended' *)
  customData : Js.object
}.

(** models/token.model.js *)
Record Token := mkToken {
  t_id : ObjectId;
  t_userId : ObjectId;
  t_token : string;
  t_type : string;      (* 'refresh' | 'verification' | 'password_reset' *)
  expiresAt : Z;
  t_serviceId : option ObjectId    (* metadata.serviceId *)
}.

(** models/auditLog.model.js *)
Record AuditLog := mkAuditLog {
  a_userId : option ObjectId;
  a_serviceId : option ObjectId;
  a_action : string;
  a_details : Js.object;
  a_ipAddress : string;
  a_userAgent : string;
  a_timestamp : Z
}.

(** The six collections. *)
Record DB := mkDB {
  users : list User;
  services : list Service;
  roles : list Role;
  userServices : list UserService;
  tokens : list Token;
  auditLogs : list AuditLog
}.

Definition set_users (db : DB) (l : list User) : DB :=
  mkDB l (services db) (roles db) (userServices db) (tokens db) (auditLogs db).
Definition set_roles (db : DB) (l : list Role) : DB :=
  mkDB (users db) (services db) l (userServices db) (tokens db) (auditLogs db).
Definition set_userServices (db : DB) (l : list UserService) : DB :=
  mkDB (users db) (services db) (roles db) l (tokens db) (auditLogs db).
Definition set_tokens (db : DB) (l : list Token) : DB :=
  mkDB (users db) (services db) (roles db) (userServices db) l (auditLogs db).

(* ================================================================== *)
(** ** Errors, requests and outcomes *)
(* ================================================================== *)

(** utils/error.handler.js: [APIError] carries a message and a status
    code; the other errors are told apart by their [name] (or, for the
    duplicate-key error of a unique index, by [code === 11000]). *)
Inductive Error : Type :=
| APIError (message : string) (statusCode : Z)
| NamedError (name : string) (message : string)
| DuplicateKey (field : string).

Definition TypeError (m : string) : Error := NamedError "TypeError" m.

(** The status the global [errorHandler] answers with. *)
Definition errorHandler_status (e : Error) : Z :=
  match e with
  | APIError _ c => if Z.eqb c 0 then 500%Z else c
  | DuplicateKey _ => 400%Z
  | NamedError n _ =>
      if n =? "ValidationError" then 400%Z
      else if n =? "CastError" then 400%Z
      else if n =? "JsonWebTokenError" then 401%Z
      else if n =? "TokenExpiredError" then 401%Z
      else 500%Z
  end.

(** A grant whose [roles] path has been populated. *)
Definition PopulatedUserService := (UserService * list Role)%type.

(** The parts of the Express request the middlewares read or attach. *)
Record Request := mkRequest {
  authorization : option string;     (* req.headers.authorization *)
  xForwardedFor : option string;     (* req.headers['x-forwarded-for'] *)
  userAgent : option string;         (* req.headers['user-agent'] *)
  remoteAddress : option string;     (* req.connection.remoteAddress *)
  method : string;
  path : string;
  params : list (string * string);
  query : list (string * string);
  body : Js.object;
  req_user : option User;
  req_service : option Service;
  req_userService : option PopulatedUserService;
  req_userRoles : option (list Role);
  req_token : option Token
}.

Definition with_user (r : Request) (u : User) : Request :=
  mkRequest (authorization r) (xForwardedFor r) (userAgent r)
    (remoteAddress r) (method r) (path r) (params r) (query r) (body r)
    (Some u) (req_service r) (req_userService r) (req_userRoles r)
    (req_token r).
Definition with_service (r : Request) (s : Service) : Request :=
  mkRequest (authorization r) (xForwardedFor r) (userAgent r)
    (remoteAddress r) (method r) (path r) (params r) (query r) (body r)
    (req_user r) (Some s) (req_userService r) (req_userRoles r)
    (req_token r).
Definition with_userService (r : Request) (us : PopulatedUserService)
  : Request :=
  mkRequest (authorization r) (xForwardedFor r) (userAgent r)
    (remoteAddress r) (method r) (path r) (params r) (query r) (body r)
    (req_user r) (req_service r) (Some us) (req_userRoles r)
    (req_token r).
Definition with_userRoles (r : Request) (rs : list Role) : Request :=
  mkRequest (authorization r) (xForwardedFor r) (userAgent r)
    (remoteAddress r) (method r) (path r) (params r) (query r) (body r)
    (req_user r) (req_service r) (req_userService r) (Some rs)
    (req_token r).
Definition with_token (r : Request) (t : Token) : Request :=
  mkRequest (authorization r) (xForwardedFor r) (userAgent r)
    (remoteAddress r) (method r) (path r) (params r) (query r) (body r)
    (req_user r) (req_service r) (req_userService r) (req_userRoles r)
    (Some t).

(** How a middleware or a controller ends. *)
Inductive Outcome : Type :=
| Next (req : Request)                      (* next() *)
| NextErr (e : Error)                       (* next(err) *)
| Json (statusCode : Z) (data : Js.value).  (* res.status(c).json(data) *)

(* ================================================================== *)
(** ** Queries on the collections *)
(* ================================================================== *)

Module Query.

Definition User_findById (i : ObjectId) (db : DB) : option User :=
  find (fun u => u_id u =? i) (users db).

Definition Service_findById (i : ObjectId) (db : DB) : option Service :=
  find (fun s => s_id s =? i) (services db).

Definition Role_findById (i : ObjectId) (db : DB) : option Role :=
  find (fun r => r_id r =? i) (roles db).

(** [UserService.findOne({ userId, serviceId })] *)
Definition UserService_findOne (uid : ObjectId) (sid : option ObjectId)
    (db : DB) : option UserService :=
  find (fun g => (us_userId g =? uid) && oid_eqb (us_serviceId g) sid)
       (userServices db).

(** [.populate('roles')]: each id is replaced by its document; ids
    that resolve to nothing are dropped. *)
Definition populate_roles (ids : list ObjectId) (db : DB) : list Role :=
  flat_map (fun i => match Role_findById i db with
                     | Some r => [r]
                     | None => []
                     end) ids.

Fixpoint distinct (l : list ObjectId) : list ObjectId :=
  match l with
  | [] => []
  | x :: rest => if mem_id x rest then distinct rest else x :: distinct rest
  end.

(** [UserService.distinct('roles', { userId })] *)
Definition UserService_distinct_roles (uid : ObjectId) (db : DB)
  : list ObjectId :=
  distinct (flat_map us_roles
              (filter (fun g => us_userId g =? uid) (userServices db))).

(** [Role.find({ _id: { $in: ids }, isGlobal: true })] *)
Definition Role_find_global_in (ids : list ObjectId) (db : DB)
  : list Role :=
  filter (fun r => mem_id (r_id r) ids && isGlobal r) (roles db).

(** [Role.find({ _id: { $in: ids },
                 $or: [{ serviceId }, { isGlobal: true }] })] *)
Definition Role_find_valid_for (ids : list ObjectId)
    (sid : option ObjectId) (db : DB) : list Role :=
  filter (fun r => mem_id (r_id r) ids
                   && (oid_eqb (r_serviceId r) sid || isGlobal r))
         (roles db).

(** [UserService.countDocuments({ roles: roleId })]: the grants whose
    [roles] array contains the id. *)
Definition UserService_count_with_role (rid : ObjectId) (db : DB) : nat :=
  List.length
    (filter (fun g => mem_id rid (us_roles g)) (userServices db)).

(** [Token.findOne({ token, type })] *)
Definition Token_findOne (tok ty : string) (db : DB) : option Token :=
  find (fun t => (t_token t =? tok) && (t_type t =? ty)) (tokens db).

(** [Token.findOne({ token: <condition>, type })], the condition on
    [token] given as a test of the stored string. *)
Definition Token_findOne_where (p : string -> bool) (ty : string) (db : DB)
  : option Token :=
  find (fun t => p (t_token t) && (t_type t =? ty)) (tokens db).

(** [Token.deleteMany({ userId, type })] *)
Definition Token_deleteMany (uid : ObjectId) (ty : string) (db : DB) : DB :=
  set_tokens db
    (filter (fun t => negb ((t_userId t =? uid) && (t_type t =? ty)))
            (tokens db)).

(** [role.deleteOne()] *)
Definition Role_deleteOne (r : Role) (db : DB) : DB :=
  set_roles db (filter (fun r' => negb (r_id r' =? r_id r)) (roles db)).

(** [tokenSchema.methods.isExpired]: [this.expiresAt < new Date()]. *)
Definition isExpired (t : Token) (now : Z) : bool :=
  (expiresAt t <? now)%Z.

End Query.

(* ================================================================== *)
(** ** middlewares/auth.middleware.js *)
(* ================================================================== *)

(** The payload [generateToken] signs into an access token. *)
Record Decoded := mkDecoded {
  d_id : ObjectId;
  d_username : string;
  d_serviceId : option ObjectId
}.

(** What [jwt.verify(token, secret)] does: it returns the payload or
    throws; its errors are named JsonWebTokenError, TokenExpiredError
    and NotBeforeError. *)
Inductive Verified : Type :=
| Payload (d : Decoded)
| Throw (e : Error).

(** [s.split(' ')] *)
Fixpoint split_space_aux (cur : string) (s : string) : list string :=
  match s with
  | EmptyString => [cur]
  | String c rest =>
      if Ascii.eqb c " "%char
      then cur :: split_space_aux "" rest
      else split_space_aux (cur ++ String c "") rest
  end.

Definition split_space (s : string) : list string := split_space_aux "" s.

(** [authHeader.split(' ')[1]]; [None] is [undefined]. *)
Definition bearer_token (authHeader : string) : option string :=
  nth_error (split_space authHeader) 1.

(** [if (decoded.serviceId)]: null and the empty string are falsy. *)
Definition truthy_id (i : option ObjectId) : option ObjectId :=
  match i with
  | Some s => if s =? "" then None else Some s
  | None => None
  end.

Section Authenticate.

Variable jwt_verify : string -> Verified.

(** The part of [authenticate] after [jwt.verify] returned [decoded]. *)
Definition authenticate_decoded (db : DB) (req : Request) (decoded : Decoded)
  : Outcome :=
  match Query.User_findById (d_id decoded) db with
  | None => NextErr (APIError "User not found or token is invalid." 401)
  | Some user =>
      if negb (u_status user =? "active")
      then NextErr (APIError "User account is not active." 403)
      else
        let req := with_user req user in
        match truthy_id (d_serviceId decoded) with
        | Some serviceId =>
            match Query.Service_findById serviceId db with
            | None =>
                NextErr (APIError "Service not found or token is invalid." 401)
            | Some service =>
                if negb (active service)
                then NextErr (APIError "Service is not active." 403)
                else
                  let req := with_service req service in
                  match Query.UserService_findOne (u_id user)
                          (Some (s_id service)) db with
                  | None =>
                      NextErr (APIError
                        "User does not have access to this service." 403)
                  | Some userService =>
                      if negb (us_status userService =? "active")
                      then NextErr (APIError
                        "User access to this service is not active." 403)
                      else
                        let rs :=
                          Query.populate_roles (us_roles userService) db in
                        Next (with_userRoles
                                (with_userService req (userService, rs)) rs)
                  end
            end
        | None =>
            let globalRoles :=
              Query.Role_find_global_in
                (Query.UserService_distinct_roles (u_id user) db) db in
            Next (with_userRoles req globalRoles)
        end
  end.

(** The [catch] of [authenticate]. *)
Definition authenticate_catch (error : Error) : Outcome :=
  match error with
  | NamedError name _ =>
      if name =? "JsonWebTokenError"
      then NextErr (APIError "Invalid token." 401)
      else if name =? "TokenExpiredError"
      then NextErr (APIError "Token expired." 401)
      else NextErr error
  | _ => NextErr error
  end.

(** [exports.authenticate]. The database is only read. *)
Definition authenticate (db : DB) (req : Request) : Outcome :=
  match authorization req with
  | None =>
      NextErr (APIError
        "Authentication required. Please provide a valid token." 401)
  | Some authHeader =>
      if negb (prefix "Bearer " authHeader)
      then NextErr (APIError
        "Authentication required. Please provide a valid token." 401)
      else
        match bearer_token authHeader with
        | None | Some "" =>
            NextErr (APIError
              "Authentication required. Please provide a valid token." 401)
        | Some token =>
            match jwt_verify token with
            | Payload decoded => authenticate_decoded db req decoded
            | Throw error => authenticate_catch error
            end
        end
  end.

End Authenticate.

(** [exports.hasPermission(permission)] *)
Definition hasPermission (permission : string) (req : Request) : Outcome :=
  match req_userRoles req with
  | None => NextErr (APIError "User roles not found." 500)
  | Some userRoles =>
      let isAdmin := existsb (fun role => r_name role =? "admin") userRoles in
      if isAdmin then Next req
      else
        let hasPermission :=
          existsb (fun role =>
                     existsb (String.eqb permission) (permissions role))
                  userRoles in
        if negb hasPermission
        then NextErr (APIError
               ("Access denied. Missing permission: " ++ permission) 403)
        else Next req
  end.

(** [exports.hasRole(roleName)] *)
Definition hasRole (roleName : string) (req : Request) : Outcome :=
  match req_userRoles req with
  | None => NextErr (APIError "User roles not found." 500)
  | Some userRoles =>
      if negb (existsb (fun role => r_name role =? roleName) userRoles)
      then NextErr (APIError
             ("Access denied. Missing role: " ++ roleName) 403)
      else Next req
  end.

(** [req.body.refreshToken], when it is a non-empty string. *)
Definition body_string (k : string) (o : Js.object) : option string :=
  match Js.get k o with
  | Some (Js.Str s) => if s =? "" then None else Some s
  | _ => None
  end.

(** [await tokenDoc.delete()]: a document of Mongoose 7 has no
    [delete] method, so the call throws before anything is deleted. *)
Definition delete_is_not_a_function : Error :=
  TypeError "tokenDoc.delete is not a function".

(** [exports.authenticateRefreshToken] from the answer of
    [Token.findOne] on. *)
Definition authenticateRefreshToken_found (now : Z) (db : DB)
    (req : Request) (found : option Token) : DB * Outcome :=
  match found with
  | None => (db, NextErr (APIError "Invalid refresh token." 401))
  | Some tokenDoc =>
      if Query.isExpired tokenDoc now
      then (db, NextErr delete_is_not_a_function)
      else
        match Query.User_findById (t_userId tokenDoc) db with
        | None => (db, NextErr delete_is_not_a_function)
        | Some user =>
            if negb (u_status user =? "active")
            then (db, NextErr (APIError
                        "User account is not active." 403))
            else
              let req := with_token (with_user req user) tokenDoc in
              let req :=
                match truthy_id (t_serviceId tokenDoc) with
                | Some sid =>
                    match Query.Service_findById sid db with
                    | Some service =>
                        if active service
                        then with_service req service
                        else req
                    | None => req
                    end
                | None => req
                end in
              (db, Next req)
        end
  end.

Section RefreshToken.

(** What Mongoose makes of a value that is not a string in a filter on
    a [String] path ([{ token: value }]): the test a cast value or a
    query operator (an object such as [{ $ne: '' }]) stands for, or the
    CastError it throws. The routes that reach it do not validate the
    body. *)
Variable String_filter : Js.value -> Error + (string -> bool).

(** [exports.authenticateRefreshToken] *)
Definition authenticateRefreshToken (now : Z) (db : DB) (req : Request)
  : DB * Outcome :=
  match Js.get "refreshToken" (body req) with
  | None => (db, NextErr (APIError "Refresh token is required." 400))
  | Some v =>
      if negb (Js.truthy v)
      then (db, NextErr (APIError "Refresh token is required." 400))
      else
        match v with
        | Js.Str refreshToken =>
            authenticateRefreshToken_found now db req
              (Query.Token_findOne refreshToken "refresh" db)
        | _ =>
            match String_filter v with
            | inl e => (db, NextErr e)
            | inr p =>
                authenticateRefreshToken_found now db req
                  (Query.Token_findOne_where p "refresh" db)
            end
        end
  end.

End RefreshToken.

(* ================================================================== *)
(** ** controllers/user.controller.js *)
(* ================================================================== *)

Definition msg (success : bool) (message : string) : Js.object :=
  [("success", Js.Bool success); ("message", Js.Str message)].

Section UserController.

Variable jwt_sign : Decoded -> string.
Variable bcrypt_hash : string -> string.
Variable bcrypt_compare : string -> string -> bool.

(** [generateToken(user, serviceId)] *)
Definition generateToken (user : User) (serviceId : option ObjectId)
  : string :=
  jwt_sign (mkDecoded (u_id user) (username user) serviceId).

(** [exports.refreshToken]: runs after [authenticateRefreshToken]. It
    reads [req.token] but does nothing with it. *)
Definition refreshToken (db : DB) (req : Request) : DB * Outcome :=
  match req_user req with
  | None => (db, NextErr (TypeError "Cannot read properties of undefined"))
  | Some user =>
      let newAccessToken :=
        generateToken user
          (match req_service req with
           | Some service => Some (s_id service)
           | None => None
           end) in
      (db, Json 200 (Js.Obj
         [("success", Js.Bool true);
          ("token", Js.Str newAccessToken);
          ("user", Js.Obj [("_id", Js.Str (u_id user));
                           ("username", Js.Str (username user));
                           ("email", Js.Str (email user));
                           ("displayName", Js.Str (displayName user))])]))
  end.

(** [user.save()] of an already stored user: the document with that
    [_id] is replaced. *)
Definition User_save (u : User) (db : DB) : DB :=
  set_users db (map (fun u' => if u_id u' =? u_id u then u else u')
                    (users db)).

Definition with_password (u : User) (hash : string) : User :=
  mkUser (u_id u) (username u) (email u) hash (displayName u)
         (profileImage u) (isEmailVerified u) (u_status u) (lastLoginAt u).

(** [exports.changePassword]. The route runs [authenticate] and
    [validateRequest(schemas.changePassword)] first, so both passwords
    are strings when present, and the new password is made of ASCII
    characters, of which [String.length] is the JavaScript length.
    Saving validates the schema's [minlength: 8] on the new password
    before the pre-save hook hashes it. *)
Definition changePassword (db : DB) (req : Request) : DB * Outcome :=
  match req_user req with
  | None => (db, NextErr (TypeError "Cannot read properties of undefined"))
  | Some ru =>
      match Query.User_findById (u_id ru) db with
      | None => (db, NextErr (APIError "User not found" 404))
      | Some user =>
          match Js.get "currentPassword" (body req) with
          | Some (Js.Str currentPassword) =>
              if negb (bcrypt_compare currentPassword (password user))
              then (db, NextErr (APIError
                          "Current password is incorrect" 401))
              else
                match Js.get "newPassword" (body req) with
                | Some (Js.Str newPassword) =>
                    if (String.length newPassword <? 8)%nat
                    then (db, NextErr (NamedError "ValidationError"
                           "Password must be at least 8 characters long"))
                    else
                      let db1 :=
                        User_save
                          (with_password user (bcrypt_hash newPassword))
                          db in
                      (* Invalidate all refresh tokens *)
                      let db2 :=
                        Query.Token_deleteMany (u_id user) "refresh" db1 in
                      (db2, Json 200 (Js.Obj
                         (msg true "Password changed successfully")))
                | _ => (db, NextErr (NamedError "ValidationError"
                                       "Password is required"))
                end
          | _ => (db, NextErr (NamedError "Error" "Illegal arguments"))
          end
      end
  end.

End UserController.

(** [Token.deleteOne({ token, type })]: removes the first match. *)
Fixpoint Token_deleteOne_in (tok ty : string) (l : list Token)
  : list Token :=
  match l with
  | [] => []
  | t :: rest =>
      if (t_token t =? tok) && (t_type t =? ty) then rest
      else t :: Token_deleteOne_in tok ty rest
  end.

(** [Token.deleteOne({ token: <condition>, type })] *)
Fixpoint Token_deleteOne_where (p : string -> bool) (ty : string)
    (l : list Token) : list Token :=
  match l with
  | [] => []
  | t :: rest =>
      if p (t_token t) && (t_type t =? ty) then rest
      else t :: Token_deleteOne_where p ty rest
  end.

Section Logout.

Variable String_filter : Js.value -> Error + (string -> bool).

(** [exports.logoutUser]. The route does not validate the body. *)
Definition logoutUser (db : DB) (req : Request) : DB * Outcome :=
  let done (db' : DB) :=
    (db', Json 200 (Js.Obj (msg true "Logged out successfully"))) in
  match Js.get "refreshToken" (body req) with
  | None => done db
  | Some v =>
      if negb (Js.truthy v) then done db
      else
        (* Delete refresh token *)
        match v with
        | Js.Str refreshToken =>
            done (set_tokens db
                    (Token_deleteOne_in refreshToken "refresh" (tokens db)))
        | _ =>
            match String_filter v with
            | inl e => (db, NextErr e)
            | inr p =>
                done (set_tokens db
                        (Token_deleteOne_where p "refresh" (tokens db)))
            end
        end
  end.

End Logout.

(* ================================================================== *)
(** ** models/userService.model.js and
       controllers/userService.controller.js *)
(* ================================================================== *)

(** The unique compound index [{ userId: 1, serviceId: 1 }]: is the
    pair already taken? A null [serviceId] is a value like any other. *)
Definition grant_exists (uid : ObjectId) (sid : option ObjectId) (db : DB)
  : bool :=
  existsb (fun g => (us_userId g =? uid) && oid_eqb (us_serviceId g) sid)
          (userServices db).

(** [new UserService(doc).save()] / [UserService.create(doc)]: the
    schema's [enum] on [status] is validated, then the insert goes
    through the unique index. *)
Definition UserService_insert (g : UserService) (db : DB) : Error + DB :=
  if negb ((us_status g =? "active") || (us_status g =? "suspended"))
  then inl (NamedError "ValidationError" "status")
  else if grant_exists (us_userId g) (us_serviceId g) db
  then inl (DuplicateKey "userId")
  else inr (set_userServices db (userServices db ++ [g])).

(** The ids of a [roles] array of the body. *)
Fixpoint ids_of (l : list Js.value) : list ObjectId :=
  match l with
  | [] => []
  | Js.Str s :: rest => s :: ids_of rest
  | _ :: rest => ids_of rest
  end.

Definition body_roles (o : Js.object) : list ObjectId :=
  match Js.get "roles" o with
  | Some (Js.Arr l) => ids_of l
  | _ => []
  end.

Definition body_object (k : string) (o : Js.object) : Js.object :=
  match Js.get k o with
  | Some (Js.Obj f) => f
  | _ => []
  end.

Definition UserService_json (g : UserService) (rs : list Role) : Js.value :=
  Js.Obj [("_id", Js.Str (us_id g));
          ("userId", Js.Str (us_userId g));
          ("serviceId", match us_serviceId g with
                        | Some s => Js.Str s
                        | None => Js.Null
                        end);
          ("roles", Js.Arr (map (fun r => Js.Str (r_name r)) rs));
          ("status", Js.Str (us_status g));
          ("customData", Js.Obj (customData g))].

Section UserServiceController.

(** [mongoose.Types.ObjectId.isValid] on a string. On [null] and
    [undefined] it answers [false]. *)
Variable ObjectId_isValid : string -> bool.

Definition isValid (v : option Js.value) : bool :=
  match v with
  | Some (Js.Str s) => ObjectId_isValid s
  | _ => false
  end.

Definition as_id (v : option Js.value) : ObjectId :=
  match v with
  | Some (Js.Str s) => s
  | _ => ""
  end.

(** [exports.assignUserToService]; [newId] is the [_id] Mongoose gives
    the new document. The route validates the body with
    [schemas.userService] first, so ids are strings when present. *)
Definition assignUserToService (newId : ObjectId) (db : DB) (req : Request)
  : DB * Outcome :=
  let b := body req in
  if negb (isValid (Js.get "userId" b))
  then (db, NextErr (APIError "Invalid user ID" 400))
  else if negb (isValid (Js.get "serviceId" b))
  then (db, NextErr (APIError "Invalid service ID" 400))
  else
    let userId := as_id (Js.get "userId" b) in
    let serviceId := as_id (Js.get "serviceId" b) in
    match Query.User_findById userId db with
    | None => (db, NextErr (APIError "User not found" 404))
    | Some user =>
        match Query.Service_findById serviceId db with
        | None => (db, NextErr (APIError "Service not found" 404))
        | Some service =>
            match Query.UserService_findOne userId (Some serviceId) db with
            | Some existingAssignment =>
                (db, NextErr (APIError
                   "User is already assigned to this service" 400))
            | None =>
                let rs := body_roles b in
                let validRoles :=
                  Query.Role_find_valid_for rs (Some serviceId) db in
                if (0 <? List.length rs)%nat
                   && negb (List.length validRoles =? List.length rs)%nat
                then (db, NextErr (APIError
                  "One or more roles are invalid or do not belong to this service"
                  400))
                else
                  let userService :=
                    mkUserService newId userId (Some serviceId) rs
                      (match body_string "status" b with
                       | Some s => s
                       | None => "active"
                       end)
                      (body_object "customData" b) in
                  match UserService_insert userService db with
                  | inl e => (db, NextErr e)
                  | inr db' =>
                      (db', Json 201 (Js.Obj
                         [("success", Js.Bool true);
                          ("message",
                           Js.Str "User assigned to service successfully");
                          ("userService",
                           UserService_json userService
                             (Query.populate_roles rs db'))]))
                  end
            end
        end
    end.

End UserServiceController.

(* ================================================================== *)
(** ** controllers/role.controller.js *)
(* ================================================================== *)

(** [req.params[k]] *)
Fixpoint param (k : string) (l : list (string * string)) : option string :=
  match l with
  | [] => None
  | (k', v) :: rest => if k' =? k then Some v else param k rest
  end.

Definition nat_to_string (n : nat) : string :=
  NilEmpty.string_of_uint (Nat.to_uint n).

(** [exports.deleteRole] *)
Definition deleteRole (db : DB) (req : Request) : DB * Outcome :=
  match
    match param "id" (params req) with
    | Some i => Query.Role_findById i db
    | None => None
    end
  with
  | None => (db, NextErr (APIError "Role not found" 404))
  | Some role =>
      (* Prevent deleting protected roles *)
      if (r_name role =? "admin") && isGlobal role
      then (db, NextErr (APIError "Cannot delete the global admin role" 403))
      else if (r_name role =? "user") && isGlobal role
      then (db, NextErr (APIError "Cannot delete the global user role" 403))
      else
        let usersWithRole :=
          Query.UserService_count_with_role (r_id role) db in
        if (0 <? usersWithRole)%nat
        then (db, NextErr (APIError
               ("Cannot delete role '" ++ r_name role
                ++ "' because it is assigned to "
                ++ nat_to_string usersWithRole ++ " users") 400))
        else (Query.Role_deleteOne role db,
              Json 200 (Js.Obj (msg true "Role deleted successfully")))
  end.

(** [a || b] on two optional strings. *)
Definition or_else (a b : option string) : option string :=
  match a with
  | Some s => if s =? "" then b else Some s
  | None => b
  end.

(* ================================================================== *)
(** ** Loading middlewares/audit.middleware.js *)
(* ================================================================== *)

(** A function of a source file is declared [async] or it is not. *)
Inductive FunctionKind : Type :=
| PlainFunction
| AsyncFunction.


(** In a CommonJS module [await e] is an expression only when the
    innermost function around it is async; elsewhere the file does not
    compile. *)
Definition await_compiles (enclosing : list FunctionKind) : bool :=
  match enclosing with
  | AsyncFunction :: _ => true
  | _ => false
  end.







(* ================================================================== *)
(** ** Vocabulary of the specification *)
(* ================================================================== *)

(** The request carries a bearer token that [jwt.verify] accepts. *)

Definition verified_request (jwt_verify : string -> Verified)
    (req : Request) (d : Decoded) : Prop :=
  exists h tok,
    authorization req = Some h /\
    prefix "Bearer " h = true /\
    bearer_token h = Some tok /\
    tok <> "" /\
    jwt_verify tok = Payload d.

(** The errors of [authenticate], under the names of the specification. *)
Definition PrincipalNotFound : Error :=
  APIError "User not found or token is invalid." 401.
Definition PrincipalInactive : Error :=
  APIError "User account is not active." 403.
Definition TenantNotFound : Error :=
  APIError "Service not found or token is invalid." 401.
Definition TenantInactive : Error :=
  APIError "Service is not active." 403.
Definition NoAccess : Error :=
  APIError "User does not have access to this service." 403.
Definition GrantSuspended : Error :=
  APIError "User access to this service is not active." 403.

(** No two stored grants share their (userId, serviceId) pair. *)
Fixpoint grants_unique (l : list UserService) : Prop :=
  match l with
  | [] => True
  | g :: rest =>
      (forall g', In g' rest ->
         ~ (us_userId g' = us_userId g /\ us_serviceId g' = us_serviceId g))
      /\ grants_unique rest
  end.

(** The two roles [deleteRole] never deletes. *)
Definition protected_role (role : Role) : bool :=
  ((r_name role =? "admin") && isGlobal role)
  || ((r_name role =? "user") && isGlobal role).
(* ================================================================== *)
(** ** Sample data *)
(* ================================================================== *)

Module Sample.

Definition alice : User :=
  mkUser "u-alice" "alice" "alice@x.com" "hash(old-secret)" "Alice" None
         true "active" None.

Definition bob : User :=
  mkUser "u-bob" "bob" "bob@x.com" "hash(bobs-secret)" "Bob" None true
         "active" (Some 40%Z).

Definition billing : Service :=
  mkService "s-billing" "billing" "toc_billing_1" "toc_secret_1" true.

Definition admin_role : Role :=
  mkRole "r-admin" "admin" true None
         ["user:read"; "user:write"; "user:delete"; "role:read";
          "role:write"; "service:read"; "service:write"].

Definition user_role : Role :=
  mkRole "r-user" "user" true None ["user:read"].

(** A role of the billing service that is merely called admin. *)
Definition billing_admin_role : Role :=
  mkRole "r-billing-admin" "admin" false (Some "s-billing")
         ["invoice:read"].

Definition clerk_role : Role :=
  mkRole "r-clerk" "clerk" false (Some "s-billing") ["invoice:read"].

Definition auditor_role : Role :=
  mkRole "r-auditor" "auditor" true None ["audit:read"].

(** A role no grant refers to. *)
Definition intern_role : Role :=
  mkRole "r-intern" "intern" false (Some "s-billing") [].

Definition alice_global : UserService :=
  mkUserService "g-1" "u-alice" None ["r-user"] "active" [].

Definition alice_billing : UserService :=
  mkUserService "g-2" "u-alice" (Some "s-billing")
                ["r-clerk"; "r-auditor"] "active" [].

Definition bob_billing : UserService :=
  mkUserService "g-3" "u-bob" (Some "s-billing") ["r-billing-admin"]
                "active" [].

Definition alice_refresh : Token :=
  mkToken "t-1" "u-alice" "refresh-alice-1" "refresh" 1000 None.

Definition alice_refresh2 : Token :=
  mkToken "t-2" "u-alice" "refresh-alice-2" "refresh" 2000
          (Some "s-billing").

Definition alice_reset : Token :=
  mkToken "t-3" "u-alice" "reset-alice" "password_reset" 500 None.

Definition bob_refresh : Token :=
  mkToken "t-4" "u-bob" "refresh-bob" "refresh" 1000 None.

Definition db0 : DB :=
  mkDB [alice; bob] [billing]
       [admin_role; user_role; billing_admin_role; clerk_role; auditor_role;
        intern_role]
       [alice_global; alice_billing; bob_billing]
       [alice_refresh; alice_refresh2; alice_reset; bob_refresh]
       [].

(** A verifier that knows four tokens. *)
Definition jwt_verify (token : string) : Verified :=
  if token =? "jwt-alice" then Payload (mkDecoded "u-alice" "alice" None)
  else if token =? "jwt-alice-billing"
  then Payload (mkDecoded "u-alice" "alice" (Some "s-billing"))
  else if token =? "jwt-alice-payroll"
  then Payload (mkDecoded "u-alice" "alice" (Some "s-payroll"))
  else if token =? "jwt-bob-billing"
  then Payload (mkDecoded "u-bob" "bob" (Some "s-billing"))
  else if token =? "jwt-old"
  then Throw (NamedError "TokenExpiredError" "jwt expired")
  else Throw (NamedError "JsonWebTokenError" "jwt malformed").

Definition jwt_sign (d : Decoded) : string :=
  "jwt(" ++ d_id d ++ ")".

Definition bcrypt_hash (plain : string) : string :=
  "hash(" ++ plain ++ ")".

Definition bcrypt_compare (plain hash : string) : bool :=
  bcrypt_hash plain =? hash.

Definition ObjectId_isValid (s : string) : bool :=
  negb (s =? "").

(** A bare request with the given [Authorization] header and body. *)
Definition request (auth : option string) (b : Js.object) : Request :=
  mkRequest auth None (Some "curl/8") (Some "10.0.0.7") "POST" "/"
            [] [] b None None None None None.

Definition request_with (auth : option string) (ps : list (string * string))
    (b : Js.object) : Request :=
  mkRequest auth None (Some "curl/8") (Some "10.0.0.7") "POST" "/"
            ps [] b None None None None None.

End Sample.

Module SampleRuns.

(** Alice changes her password. *)
Definition change_request : Request :=
  with_user
    (Sample.request (Some "Bearer jwt-alice")
       [("currentPassword", Js.Str "old-secret");
        ("newPassword", Js.Str "new-secret-9")])
    Sample.alice.

Definition after_change : DB :=
  fst (changePassword Sample.bcrypt_hash Sample.bcrypt_compare
         Sample.db0 change_request).

Definition changed_response : Js.value :=
  Js.Obj (msg true "Password changed successfully").

End SampleRuns.

Module SampleGrants.

(** Alice is assigned to billing a second time. *)
Definition again : Request :=
  Sample.request (Some "Bearer jwt-admin")
    [("userId", Js.Str "u-alice"); ("serviceId", Js.Str "s-billing");
     ("roles", Js.Arr [Js.Str "r-clerk"])].

(** A second global relationship for Alice. *)
Definition second_global : UserService :=
  mkUserService "g-9" "u-alice" None ["r-auditor"] "active" [].

(** A request for a global relationship through the endpoint. *)
Definition global_request : Request :=
  Sample.request (Some "Bearer jwt-admin")
    [("userId", Js.Str "u-alice"); ("serviceId", Js.Null)].

End SampleGrants.

Module SampleTokens.

(** What a Mongoose of the sample runs makes of a filter value that is
    not a string: it reads the operator [{ $ne: s }] and refuses every
    other value. *)
Definition String_filter (v : Js.value) : Error + (string -> bool) :=
  match v with
  | Js.Obj [(op, Js.Str s)] =>
      if op =? "$ne" then inr (fun stored => negb (stored =? s))
      else inl (NamedError "CastError" "token")
  | _ => inl (NamedError "CastError" "token")
  end.

(** Alice exchanges her refresh token. *)
Definition exchange : Request :=
  Sample.request None [("refreshToken", Js.Str "refresh-alice-1")].

(** A body that carries a query operator in the place of the token. *)
Definition any_token : Request :=
  Sample.request None [("refreshToken", Js.Obj [("$ne", Js.Str "")])].

End SampleTokens.

(* ================================================================== *)
(** ** Further middlewares and controllers *)
(* ================================================================== *)



(** [exports.authenticateService]; the two arguments are
    [req.headers['x-api-key']] and [req.headers['x-api-secret']]. *)
Definition authenticateService (x_api_key x_api_secret : option string)
    (db : DB) (req : Request) : Outcome :=
  match or_else x_api_key None, or_else x_api_secret None with
  | Some key, Some secret =>
      match find (fun s => apiKey s =? key) (services db) with
      | None => NextErr (APIError "Invalid API key." 401)
      | Some service =>
          let isValidSecret := apiSecret service =? secret in
          if negb isValidSecret
          then NextErr (APIError "Invalid API secret." 401)
          else if negb (active service)
          then NextErr (APIError "Service is not active." 403)
          else Next (with_service req service)
      end
  | _, _ =>
      NextErr (APIError
        "Service authentication required. Please provide API key and secret."
        401)
  end.

(** How Mongoose casts a value assigned to a [String] path; [None] is a
    cast error. [Js.Num] stands for an integer below 10^21, which
    JavaScript prints in decimal. *)
Definition castString (v : Js.value) : option string :=
  match v with
  | Js.Str s => Some s
  | Js.Num z => Some (NilZero.string_of_int (Z.to_int z))
  | Js.Bool true => Some "true"
  | Js.Bool false => Some "false"
  | Js.Null => None
  | Js.Arr _ => None
  | Js.Obj o =>
      (* a document in the place of a string is read as its [_id] *)
      match Js.get "_id" o with
      | Some (Js.Str i) => if i =? "" then None else Some i
      | _ => None
      end
  end.



(** [s.length] of JavaScript, the number of UTF-16 code units, of a
    string given by its UTF-8 bytes: the first byte of a character of
    one to three bytes counts one, the first byte of a character of
    four bytes counts two, and a continuation byte counts nothing. *)
Fixpoint js_length (s : string) : nat :=
  match s with
  | EmptyString => 0
  | String c rest =>
      let byte := nat_of_ascii c in
      ((if (byte <? 128)%nat then 1
        else if (byte <? 192)%nat then 0
        else if (byte <? 240)%nat then 1
        else 2) + js_length rest)%nat
  end.

Section PasswordReset.

Variable bcrypt_hash : string -> string.

(** [exports.resetPassword]. The route does not validate the body.
    Saving validates [minlength: 8] on the new password; when the save
    throws, nothing after it runs. After the save,
    [await tokenDoc.delete()] throws, and [Token.deleteMany] is not
    reached. *)
Definition resetPassword (now : Z) (db : DB) (req : Request)
  : DB * Outcome :=
  match Js.get "password" (body req) with
  | None => (db, NextErr (APIError "Password is required" 400))
  | Some pv =>
      if negb (Js.truthy pv)
      then (db, NextErr (APIError "Password is required" 400))
      else
        match
          match param "token" (params req) with
          | Some token => Query.Token_findOne token "password_reset" db
          | None => None
          end
        with
        | None =>
            (db, NextErr (APIError "Invalid or expired reset token" 400))
        | Some tokenDoc =>
            if Query.isExpired tokenDoc now
            then (db, NextErr delete_is_not_a_function)
            else
              match Query.User_findById (t_userId tokenDoc) db with
              | None => (db, NextErr delete_is_not_a_function)
              | Some user =>
                  match castString pv with
                  | None =>
                      (db, NextErr (NamedError "ValidationError"
                                      "Cast to string failed"))
                  | Some p =>
                      if (js_length p <? 8)%nat
                      then (db, NextErr (NamedError "ValidationError"
                             "Password must be at least 8 characters long"))
                      else
                        (* Update password *)
                        let db1 :=
                          User_save (with_password user (bcrypt_hash p)) db in
                        (* Delete token *)
                        (db1, NextErr delete_is_not_a_function)
                  end
              end
        end
  end.

End PasswordReset.

(** [exports.deleteUser]; [ADMIN_USERNAME] is
    [process.env.ADMIN_USERNAME]. *)
Definition deleteUser (ADMIN_USERNAME : option string) (db : DB)
    (req : Request) : DB * Outcome :=
  match
    match param "id" (params req) with
    | Some i => Query.User_findById i db
    | None => None
    end
  with
  | None => (db, NextErr (APIError "User not found" 404))
  | Some user =>
      if match ADMIN_USERNAME with
         | Some a => username user =? a
         | None => false
         end
      then (db, NextErr (APIError "Cannot delete admin user" 403))
      else
        (* Delete user services *)
        let db1 :=
          set_userServices db
            (filter (fun g => negb (us_userId g =? u_id user))
                    (userServices db)) in
        (* Delete user tokens *)
        let db2 :=
          set_tokens db1
            (filter (fun t => negb (t_userId t =? u_id user)) (tokens db1)) in
        (* Delete user *)
        let db3 :=
          set_users db2
            (filter (fun u => negb (u_id u =? u_id user)) (users db2)) in
        (db3, Json 200 (Js.Obj (msg true "User deleted successfully")))
  end.

Definition with_lastLoginAt (u : User) (instant : Z) : User :=
  mkUser (u_id u) (username u) (email u) (password u) (displayName u)
         (profileImage u) (isEmailVerified u) (u_status u) (Some instant).

(** A nullable string as a JSON value. *)
Definition nullable (s : option string) : Js.value :=
  match s with
  | Some v => Js.Str v
  | None => Js.Null
  end.

Section Login.

Variable jwt_sign : Decoded -> string.
Variable bcrypt_compare : string -> string -> bool.

(** What Mongoose makes of a string in a filter on [username] before it
    queries (the setters of the path). *)
Variable username_in_filter : string -> string.

(** [d.setDate(d.getDate() + n)] on the instant [d]: the same time of
    day [n] calendar days later, in the time zone of the server. *)
Variable Date_plus_days : Z -> Z -> Z.

(** [exports.loginUser] with [Token.generateRefreshToken]: [random] is
    the hex string of [crypto.randomBytes(40)], [newId] the [_id] of
    the new token document, [now] the instant [user.lastLoginAt] is
    given and [issuedAt] the later one at which the refresh token is
    made. The route validates the body with [schemas.userLogin] first:
    [username] and [password] are strings, [serviceId] is an id, null
    or empty. In the response a date is given by its instant. *)
Definition loginUser (random : string) (newId : ObjectId)
    (now issuedAt : Z) (db : DB) (req : Request) : DB * Outcome :=
  match
    match Js.get "username" (body req) with
    | Some (Js.Str u) =>
        find (fun x => username x =? username_in_filter u) (users db)
    | _ => None
    end
  with
  | None => (db, NextErr (APIError "Invalid credentials" 401))
  | Some user =>
      match Js.get "password" (body req) with
      | Some (Js.Str p) =>
          if negb (bcrypt_compare p (password user))
          then (db, NextErr (APIError "Invalid credentials" 401))
          else if negb (u_status user =? "active")
          then (db, NextErr (APIError
                 "Your account is not active. Please contact administrator."
                 403))
          else
            let issue (service : option ObjectId) : DB * Outcome :=
              (* Update last login time *)
              let user := with_lastLoginAt user now in
              let db1 := User_save user db in
              let token := generateToken jwt_sign user service in
              let refreshToken :=
                mkToken newId (u_id user) random "refresh"
                        (Date_plus_days issuedAt 7%Z) service in
              (set_tokens db1 (tokens db1 ++ [refreshToken]),
               Json 200 (Js.Obj
                 [("success", Js.Bool true);
                  ("message", Js.Str "Login successful");
                  ("token", Js.Str token);
                  ("refreshToken", Js.Str (t_token refreshToken));
                  ("user", Js.Obj
                     [("_id", Js.Str (u_id user));
                      ("username", Js.Str (username user));
                      ("email", Js.Str (email user));
                      ("displayName", Js.Str (displayName user));
                      ("profileImage", nullable (profileImage user));
                      ("status", Js.Str (u_status user));
                      ("isEmailVerified", Js.Bool (isEmailVerified user));
                      ("lastLoginAt", Js.Num now)])]))
            in
            match body_string "serviceId" (body req) with
            | Some serviceId =>
                match Query.UserService_findOne (u_id user) (Some serviceId)
                        db with
                | None => (db, NextErr (APIError
                             "You do not have access to this service" 403))
                | Some userService =>
                    if negb (us_status userService =? "active")
                    then (db, NextErr (APIError
                           "Your access to this service is suspended" 403))
                    else issue (Some serviceId)
                end
            | None => issue None
            end
      | _ => (db, NextErr (NamedError "Error" "Illegal arguments"))
      end
  end.

End Login.

(* ------------------------------------------------------------------ *)
(** *** controllers/role.controller.js, continued *)

Definition systemPermissions : list string :=
  ["user:read"; "user:write"; "user:delete";
   "role:read"; "role:write"; "role:delete";
   "service:read"; "service:write"; "service:delete";
   "audit:read"].

Definition includes (l : list string) (s : string) : bool :=
  existsb (String.eqb s) l.

(** The body of the [forEach] in [getPermissions]. *)
Definition push_custom (perms : list string) (perm : string)
  : list string :=
  if negb (includes systemPermissions perm) && negb (includes perms perm)
  then (perms ++ [perm])%list
  else perms.

(** The [reduce] over the roles of the service. *)
Definition customPermissions_of (serviceRoles : list Role) : list string :=
  fold_left (fun perms role => fold_left push_custom (permissions role) perms)
            serviceRoles [].

Definition strings_json (l : list string) : Js.value :=
  Js.Arr (map Js.Str l).

Section RoleController.

(** [mongoose.Types.ObjectId.isValid] on a string; the cast of a filter
    value to an ObjectId fails exactly on the strings it refuses. *)
Variable ObjectId_isValid : string -> bool.

(** [exports.getPermissions] *)
Definition getPermissions (db : DB) (req : Request) : DB * Outcome :=
  match or_else (param "serviceId" (query req)) None with
  | Some serviceId =>
      if negb (ObjectId_isValid serviceId)
      then (db, NextErr (NamedError "CastError" "serviceId"))
      else
        let serviceRoles :=
          filter (fun r => oid_eqb (r_serviceId r) (Some serviceId))
                 (roles db) in
        (db, Json 200 (Js.Obj
           [("success", Js.Bool true);
            ("systemPermissions", strings_json systemPermissions);
            ("customPermissions",
             strings_json (customPermissions_of serviceRoles))]))
  | None =>
      (db, Json 200 (Js.Obj
         [("success", Js.Bool true);
          ("systemPermissions", strings_json systemPermissions);
          ("customPermissions", strings_json [])]))
  end.

(** The setter of the schema's [trim: true] on [name]
    ([String.prototype.trim]), and what Mongoose makes of a string in a
    filter on [name] before it queries. *)
Variable trim : string -> string.
Variable name_in_filter : string -> string.

Definition role_name_taken (n : string) (sid : option ObjectId)
    (self : ObjectId) (db : DB) : bool :=
  existsb (fun r => (r_name r =? n) && oid_eqb (r_serviceId r) sid
                    && negb (r_id r =? self))
          (roles db).

(** [role.save()] of a stored role. A modified name is validated
    ([required], [maxlength: 50]) and goes through the unique index
    [{ name: 1, serviceId: 1 }]. *)
Definition Role_save (nameModified : bool) (r : Role) (db : DB)
  : Error + DB :=
  if nameModified && (r_name r =? "")
  then inl (NamedError "ValidationError" "Role name is required")
  else if nameModified && (50 <? String.length (r_name r))%nat
  then inl (NamedError "ValidationError"
              "Role name must be at most 50 characters long")
  else if nameModified
          && role_name_taken (r_name r) (r_serviceId r) (r_id r) db
  then inl (DuplicateKey "name")
  else inr (set_roles db
              (map (fun r' => if r_id r' =? r_id r then r else r')
                   (roles db))).

(** A truthy [permissions] of the body, cast to the [[String]] path:
    an array is cast element by element, any other value as a
    one-element array. *)
Fixpoint castStrings (l : list Js.value) : option (list string) :=
  match l with
  | [] => Some []
  | v :: rest =>
      match castString v, castStrings rest with
      | Some s, Some ss => Some (s :: ss)
      | _, _ => None
      end
  end.

Definition castPermissions (v : Js.value) : option (list string) :=
  match v with
  | Js.Arr l => castStrings l
  | _ => match castString v with
         | Some s => Some [s]
         | None => None
         end
  end.

(** [exports.updateRole]. The [description] of a role is not part of
    the [Role] record. *)
Definition updateRole (db : DB) (req : Request) : DB * Outcome :=
  match
    match param "id" (params req) with
    | Some i => Query.Role_findById i db
    | None => None
    end
  with
  | None => (db, NextErr (APIError "Role not found" 404))
  | Some role =>
      (* Prevent modifying global attribute *)
      match Js.get "isGlobal" (body req) with
      | Some _ => (db, NextErr (APIError
                     "Cannot modify the global attribute of a role" 400))
      | None =>
      (* Prevent modifying serviceId *)
      match Js.get "serviceId" (body req) with
      | Some _ => (db, NextErr (APIError
                     "Cannot modify the service association of a role" 400))
      | None =>
      (* Check if admin role is being modified *)
      if (r_name role =? "admin") && isGlobal role
      then (db, NextErr (APIError "Cannot modify the global admin role" 403))
      else
        let rename :=
          match Js.get "name" (body req) with
          | Some (Js.Str n) =>
              if negb (n =? "") && negb (n =? r_name role)
              then Some n else None
          | _ => None
          end in
        let collision :=
          match rename with
          | Some n =>
              role_name_taken (name_in_filter n) (r_serviceId role)
                              (r_id role) db
          | None => false
          end in
        if collision
        then (db, NextErr (APIError
               ("A role with the name '"
                ++ match rename with Some n => n | None => "" end
                ++ "' already exists for this service") 400))
        else
          let newName :=
            match rename with
            | Some n => trim n
            | None => r_name role
            end in
          let nameModified := negb (newName =? r_name role) in
          let cast :=
            match Js.get "permissions" (body req) with
            | Some v =>
                if Js.truthy v
                then match castPermissions v with
                     | Some ps => inr ps
                     | None => inl (NamedError "ValidationError"
                                      "Cast to [string] failed")
                     end
                else inr (permissions role)
            | None => inr (permissions role)
            end in
          match cast with
          | inl e => (db, NextErr e)
          | inr ps =>
              let role' :=
                mkRole (r_id role) newName (isGlobal role)
                       (r_serviceId role) ps in
              match Role_save nameModified role' db with
              | inl e => (db, NextErr e)
              | inr db' =>
                  (db', Json 200 (Js.Obj
                     (msg true "Role updated successfully"
                      ++ [("role",
                           Js.Obj [("_id", Js.Str (r_id role'));
                                   ("name", Js.Str (r_name role'));
                                   ("isGlobal", Js.Bool (isGlobal role'));
                                   ("permissions",
                                    strings_json (permissions role'))])])))
              end
          end
      end
      end
  end.


End RoleController.

(* ------------------------------------------------------------------ *)
(** *** controllers/userService.controller.js, continued *)

(** [exports.removeUserFromService]. The grant is found with its
    [userId] and [serviceId] populated and deleted; only then is the
    response built from [userService.userId.username] and
    [userService.serviceId.name], which throws when one of the two
    populated fields is null. *)
Definition removeUserFromService (db : DB) (req : Request) : DB * Outcome :=
  match
    match param "id" (params req) with
    | Some i => find (fun g => us_id g =? i) (userServices db)
    | None => None
    end
  with
  | None => (db, NextErr (APIError "User-service assignment not found" 404))
  | Some userService =>
      let user := Query.User_findById (us_userId userService) db in
      let service :=
        match us_serviceId userService with
        | Some sid => Query.Service_findById sid db
        | None => None
        end in
      let db' :=
        set_userServices db
          (filter (fun g => negb (us_id g =? us_id userService))
                  (userServices db)) in
      match user, service with
      | Some u, Some s =>
          (db', Json 200 (Js.Obj
             (msg true ("User " ++ username u ++ " removed from service "
                        ++ s_name s ++ " successfully"))))
      | _, _ =>
          (db', NextErr (TypeError "Cannot read properties of null"))
      end
  end.

Fixpoint chars_of (s : string) : list Js.value :=
  match s with
  | EmptyString => []
  | String c rest => Js.Str (String c "") :: chars_of rest
  end.

(** The own enumerable properties [{ ...v }] copies, for any value. *)
Definition spread_value (v : Js.value) : Js.object :=
  match v with
  | Js.Obj fields => fields
  | Js.Arr items => Js.indexed 0 items
  | Js.Str s => Js.indexed 0 (chars_of s)
  | _ => []
  end.

(** [{ ...a, ...b }] *)
Definition merge (a b : Js.object) : Js.object :=
  fold_left (fun acc kv => Js.set (fst kv) (snd kv) acc) b a.

Definition with_customData (g : UserService) (d : Js.object) : UserService :=
  mkUserService (us_id g) (us_userId g) (us_serviceId g) (us_roles g)
                (us_status g) d.

(** [userService.save()] of a stored grant whose pair is unchanged. *)
Definition UserService_replace (g : UserService) (db : DB) : DB :=
  set_userServices db
    (map (fun g' => if us_id g' =? us_id g then g else g')
         (userServices db)).

(** [exports.updateCustomData] *)
Definition updateCustomData (db : DB) (req : Request) : DB * Outcome :=
  match Js.get "customData" (body req) with
  | None => (db, NextErr (APIError "Custom data is required" 400))
  | Some data =>
      if negb (Js.truthy data)
      then (db, NextErr (APIError "Custom data is required" 400))
      else
        match
          match param "userId" (params req),
                param "serviceId" (params req) with
          | Some uid, Some sid => Query.UserService_findOne uid (Some sid) db
          | _, _ => None
          end
        with
        | None => (db, NextErr (APIError
                     "User is not assigned to this service" 404))
        | Some userService =>
            let merged := merge (customData userService) (spread_value data) in
            (UserService_replace (with_customData userService merged) db,
             Json 200 (Js.Obj
               (msg true "Custom data updated successfully"
                ++ [("customData", Js.Obj merged)])))
        end
  end.

(* ------------------------------------------------------------------ *)
(** *** controllers/service.controller.js and models/service.model.js *)

(** [exports.deleteService] *)
Definition deleteService (db : DB) (req : Request) : DB * Outcome :=
  match
    match param "id" (params req) with
    | Some i => Query.Service_findById i db
    | None => None
    end
  with
  | None => (db, NextErr (APIError "Service not found" 404))
  | Some service =>
      let userCount :=
        List.length
          (filter (fun g => oid_eqb (us_serviceId g) (Some (s_id service)))
                  (userServices db)) in
      if (0 <? userCount)%nat
      then (db, NextErr (APIError
             ("Cannot delete service '" ++ s_name service
              ++ "' because it has " ++ nat_to_string userCount
              ++ " users assigned to it") 400))
      else
        let roleCount :=
          List.length
            (filter (fun r => oid_eqb (r_serviceId r) (Some (s_id service)))
                    (roles db)) in
        if (0 <? roleCount)%nat
        then (db, NextErr (APIError
               ("Cannot delete service '" ++ s_name service
                ++ "' because it has " ++ nat_to_string roleCount
                ++ " roles. Delete all roles first.") 400))
        else
          (mkDB (users db)
                (filter (fun s => negb (s_id s =? s_id service))
                        (services db))
                (roles db) (userServices db) (tokens db) (auditLogs db),
           Json 200 (Js.Obj (msg true "Service deleted successfully")))
  end.

Definition set_services (db : DB) (l : list Service) : DB :=
  mkDB (users db) l (roles db) (userServices db) (tokens db) (auditLogs db).

Section ServiceController.

(** [name.toLowerCase().replace(/[^a-z0-9]/g, '_')] *)
Variable slug : string -> string.

(** [serviceSchema.methods.regenerateCredentials]: [r8] and [r16] are
    the hex strings of [crypto.randomBytes(8)] and
    [crypto.randomBytes(16)]. *)
Definition regenerated (r8 r16 : string) (s : Service) : Service :=
  mkService (s_id s) (s_name s)
            ("toc_" ++ slug (s_name s) ++ "_" ++ r8)
            ("toc_" ++ r16)
            (active s).

(** [this.save()] after the key changed: the unique index on [apiKey]. *)
Definition Service_save (s : Service) (db : DB) : Error + DB :=
  if existsb (fun s' => (apiKey s' =? apiKey s) && negb (s_id s' =? s_id s))
             (services db)
  then inl (DuplicateKey "apiKey")
  else inr (set_services db
              (map (fun s' => if s_id s' =? s_id s then s else s')
                   (services db))).

(** [exports.regenerateCredentials] *)
Definition regenerateCredentials (r8 r16 : string) (db : DB) (req : Request)
  : DB * Outcome :=
  match
    match param "id" (params req) with
    | Some i => Query.Service_findById i db
    | None => None
    end
  with
  | None => (db, NextErr (APIError "Service not found" 404))
  | Some service =>
      match Service_save (regenerated r8 r16 service) db with
      | inl e => (db, NextErr e)
      | inr db' =>
          match Query.Service_findById (s_id service) db' with
          | None => (db', NextErr (TypeError "Cannot read properties of null"))
          | Some updatedService =>
              (db', Json 200 (Js.Obj
                 (msg true "API credentials regenerated successfully"
                  ++ [("service",
                       Js.Obj [("_id", Js.Str (s_id updatedService));
                               ("name", Js.Str (s_name updatedService));
                               ("apiKey", Js.Str (apiKey updatedService));
                               ("apiSecret",
                                Js.Str (apiSecret updatedService))])])))
          end
      end
  end.

End ServiceController.

(* ================================================================== *)
(** ** Further vocabulary *)
(* ================================================================== *)

(** The string holds no space. *)
Fixpoint no_space (s : string) : bool :=
  match s with
  | EmptyString => true
  | String c rest => negb (Ascii.eqb c " "%char) && no_space rest
  end.

(** The same database but for the token collection. *)
Definition same_but_tokens (a b : DB) : Prop :=
  users a = users b /\ services a = services b /\ roles a = roles b /\
  userServices a = userServices b /\ auditLogs a = auditLogs b.

(** The tenant an exchanged access token is scoped to. *)
Definition exchange_scope (tokenDoc : Token) (db : DB) : option ObjectId :=
  match truthy_id (t_serviceId tokenDoc) with
  | Some sid =>
      match Query.Service_findById sid db with
      | Some service => if active service then Some (s_id service) else None
      | None => None
      end
  | None => None
  end.

(* ================================================================== *)
(** ** More sample data *)
(* ================================================================== *)

Module Sample2.

(** Carol registered and has not followed her link yet; Dave did, and
    was suspended afterwards, and asked for a second link. *)
Definition carol : User :=
  mkUser "u-carol" "carol" "carol@x.com" "hash(carols-secret)" "Carol"
         None false "pending" None.

Definition dave : User :=
  mkUser "u-dave" "dave" "dave@x.com" "hash(daves-secret)" "Dave"
         (Some "dave.png") true "suspended" (Some 30%Z).

Definition carol_verify : Token :=
  mkToken "t-10" "u-carol" "verify-carol" "verification" 800 None.

Definition dave_verify : Token :=
  mkToken "t-11" "u-dave" "verify-dave" "verification" 800 None.

Definition dave_refresh : Token :=
  mkToken "t-12" "u-dave" "refresh-dave" "refresh" 800 None.

Definition dave_global : UserService :=
  mkUserService "g-4" "u-dave" None ["r-user"] "active"
                [("theme", Js.Str "dark"); ("seats", Js.Num 2)].

Definition dave_billing : UserService :=
  mkUserService "g-5" "u-dave" (Some "s-billing") ["r-intern"] "active"
                [("theme", Js.Str "dark"); ("seats", Js.Num 2)].

(** A service nobody uses. *)
Definition payroll : Service :=
  mkService "s-payroll" "payroll" "toc_payroll_1" "toc_secret_2" true.

Definition db1 : DB :=
  mkDB (users Sample.db0 ++ [carol; dave])
       (services Sample.db0 ++ [payroll])
       (roles Sample.db0)
       (userServices Sample.db0 ++ [dave_global; dave_billing])
       (tokens Sample.db0 ++ [carol_verify; dave_verify; dave_refresh])
       [].

(** The calendar of a server that keeps UTC: a day is 86400000 ms. *)
Definition Date_plus_days (instant days : Z) : Z :=
  (instant + days * 86400000)%Z.

Definition link (token : string) (b : Js.object) : Request :=
  Sample.request_with None [("token", token)] b.

Definition by_id (i : string) : Request :=
  Sample.request_with (Some "Bearer jwt-admin") [("id", i)] [].

(** A verifier that reads back Bob's billing token. *)
Definition jwt_verify (token : string) : Verified :=
  if token =? "jwt(u-bob)"
  then Payload (mkDecoded "u-bob" "bob" (Some "s-billing"))
  else Throw (NamedError "JsonWebTokenError" "jwt malformed").

Definition bob_login : Request :=
  Sample.request None [("username", Js.Str "bob");
                       ("password", Js.Str "bobs-secret");
                       ("serviceId", Js.Str "s-billing")].


Definition rename_clerk : Request :=
  Sample.request_with (Some "Bearer jwt-admin") [("id", "r-clerk")]
    [("name", Js.Str "cashier");
     ("permissions", Js.Arr [Js.Str "invoice:read"; Js.Str "invoice:pay"])].

(** Alice is given access to payroll as an auditor. *)
Definition assign_alice_payroll : Request :=
  Sample.request (Some "Bearer jwt-admin")
    [("userId", Js.Str "u-alice"); ("serviceId", Js.Str "s-payroll");
     ("roles", Js.Arr [Js.Str "r-auditor"])].

End Sample2.

(** The scope of a role: what [updateRole] must leave alone. *)
Definition role_scope (r : Role) : ObjectId * bool * option ObjectId :=
  (r_id r, isGlobal r, r_serviceId r).

(** The refresh credential [loginUser] stores. *)
Definition issued_refresh (Date_plus_days : Z -> Z -> Z) (random : string)
    (newId : ObjectId) (issuedAt : Z) (user : User)
    (scope : option ObjectId) : Token :=
  mkToken newId (u_id user) random "refresh" (Date_plus_days issuedAt 7%Z)
          scope.

(** The body of a successful login of [user] (as saved, with its last
    login at [now]). *)
Definition login_response (token random : string) (user : User) (now : Z)
  : Js.value :=
  Js.Obj
    [("success", Js.Bool true);
     ("message", Js.Str "Login successful");
     ("token", Js.Str token);
     ("refreshToken", Js.Str random);
     ("user", Js.Obj
        [("_id", Js.Str (u_id user));
         ("username", Js.Str (username user));
         ("email", Js.Str (email user));
         ("displayName", Js.Str (displayName user));
         ("profileImage", nullable (profileImage user));
         ("status", Js.Str (u_status user));
         ("isEmailVerified", Js.Bool (isEmailVerified user));
         ("lastLoginAt", Js.Num now)])].

(** The grant a login for [scope] asks for is stored and active. *)
Definition login_scope_ok (user : User) (scope : option ObjectId) (db : DB)
  : Prop :=
  match scope with
  | Some sid =>
      exists g, Query.UserService_findOne (u_id user) (Some sid) db = Some g
                /\ us_status g = "active"
  | None => True
  end.

(** Every reference of a grant, a role or a credential points at a
    stored document. *)
Definition refs_ok (db : DB) : Prop :=
  (forall g, In g (userServices db) ->
     (exists u, In u (users db) /\ u_id u = us_userId g) /\
     (forall sid, us_serviceId g = Some sid ->
                  exists s, In s (services db) /\ s_id s = sid) /\
     (forall rid, In rid (us_roles g) ->
                  exists r, In r (roles db) /\ r_id r = rid)) /\
  (forall r, In r (roles db) ->
     forall sid, r_serviceId r = Some sid ->
                 exists s, In s (services db) /\ s_id s = sid) /\
  (forall t, In t (tokens db) ->
     exists u, In u (users db) /\ u_id u = t_userId t).
(* ================================================================== *)
(** * Properties *)
(* ================================================================== *)

(** ** Basic facts about the queries *)

Lemma mem_id_In (i : ObjectId) (l : list ObjectId) :
  mem_id i l = true <-> In i l.
Proof.
  unfold mem_id. rewrite existsb_exists. split.
  - intros [x [Hx Heq]]. apply String.eqb_eq in Heq. now subst.
  - intros H. exists i. split; [assumption | apply String.eqb_refl].
Qed.

Lemma distinct_In (i : ObjectId) (l : list ObjectId) :
  In i (Query.distinct l) <-> In i l.
Proof.
  induction l as [|x rest IH]; simpl; [tauto|].
  destruct (mem_id x rest) eqn:Hm.
  - rewrite IH. split; [tauto|].
    intros [->|H]; [now apply mem_id_In | assumption].
  - simpl. rewrite IH. tauto.
Qed.

Lemma User_findById_id (i : ObjectId) (db : DB) (u : User) :
  Query.User_findById i db = Some u -> In u (users db) /\ u_id u = i.
Proof.
  unfold Query.User_findById. intros H. apply find_some in H.
  destruct H as [Hin Heq]. apply String.eqb_eq in Heq. now split.
Qed.

Lemma Role_findById_id (i : ObjectId) (db : DB) (r : Role) :
  Query.Role_findById i db = Some r -> In r (roles db) /\ r_id r = i.
Proof.
  unfold Query.Role_findById. intros H. apply find_some in H.
  destruct H as [Hin Heq]. apply String.eqb_eq in Heq. now split.
Qed.

Lemma status_active_dec (s : string) :
  negb (s =? "active") = false <-> s = "active".
Proof.
  rewrite negb_false_iff. apply String.eqb_eq.
Qed.

(** The union of the [roles] arrays of a user's grants. *)
Lemma UserService_distinct_roles_In (uid i : ObjectId) (db : DB) :
  In i (Query.UserService_distinct_roles uid db) <->
  exists g, In g (userServices db) /\ us_userId g = uid /\ In i (us_roles g).
Proof.
  unfold Query.UserService_distinct_roles.
  rewrite distinct_In, in_flat_map. split.
  - intros [g [Hg Hi]]. apply filter_In in Hg. destruct Hg as [Hg Hu].
    apply String.eqb_eq in Hu. now exists g.
  - intros [g [Hg [Hu Hi]]]. exists g. split; [|assumption].
    apply filter_In. split; [assumption|]. now apply String.eqb_eq.
Qed.

Lemma authenticate_verified (jwt_verify : string -> Verified)
    (db : DB) (req : Request) (d : Decoded) :
  verified_request jwt_verify req d ->
  authenticate jwt_verify db req = authenticate_decoded db req d.
Proof.
  intros [h [tok [Hh [Hp [Hb [Hne Hv]]]]]].
  unfold authenticate. rewrite Hh, Hp, Hb. simpl.
  destruct tok as [|c tok']; [congruence|]. now rewrite Hv.
Qed.

(* ================================================================== *)
(** ** Permission gate: the admin bypass *)
(* ================================================================== *)

Lemma admin_name_bypasses (p : string) (req : Request) (rs : list Role)
    (r : Role) :
  req_userRoles req = Some rs -> In r rs -> r_name r = "admin" ->
  hasPermission p req = Next req.
Proof.
  intros Hrs Hin Hname. unfold hasPermission. rewrite Hrs.
  replace (existsb (fun role => r_name role =? "admin") rs) with true;
    [reflexivity|].
  symmetry. apply existsb_exists. exists r. split; [assumption|].
  now apply String.eqb_eq.
Qed.

(** C2. A principal whose candidate role set ([req.userRoles]) contains
    the global role named admin passes [hasPermission(p)] for every
    permission string [p], whatever the permission sets of its roles
    hold. *)
Theorem global_admin_passes_every_permission :
  forall (p : string) (req : Request) (userRoles : list Role) (admin : Role),
    req_userRoles req = Some userRoles ->
    In admin userRoles ->
    r_name admin = "admin" ->
    isGlobal admin = true ->
    hasPermission p req = Next req.
Proof.
  intros p req userRoles admin Hrs Hin Hname _.
  eapply admin_name_bypasses; eassumption.
Qed.

(** Alice's grants widened by the global admin role: she passes the gate
    on a permission no role lists. *)
Lemma global_admin_passes_every_permission_witness :
  let req :=
    with_userRoles (Sample.request None [])
                   [Sample.user_role; Sample.admin_role] in
  existsb (fun role => existsb (String.eqb "billing:refund")
                               (permissions role))
          [Sample.user_role; Sample.admin_role] = false /\
  hasPermission "billing:refund" req = Next req.
Proof.
  split; [reflexivity|].
  apply (@global_admin_passes_every_permission "billing:refund" _
           [Sample.user_role; Sample.admin_role] Sample.admin_role).
  - reflexivity.
  - simpl. right. left. reflexivity.
  - reflexivity.
  - reflexivity.
Defined.

(** C10. The bypass looks at the name alone: any role called admin in
    the candidate set lets every permission string through; neither its
    [isGlobal] flag nor its [serviceId] is consulted, so a tenant-scoped
    role of that name opens the gate as well. *)
Theorem admin_bypass_tests_only_the_name :
  forall (p : string) (req : Request) (userRoles : list Role) (r : Role),
    req_userRoles req = Some userRoles ->
    In r userRoles ->
    r_name r = "admin" ->
    hasPermission p req = Next req.
Proof.
  intros p req userRoles r Hrs Hin Hname. unfold hasPermission.
  rewrite Hrs.
  assert (Hadmin : existsb (fun role => r_name role =? "admin") userRoles
                   = true).
  { apply existsb_exists. exists r. split; [exact Hin|].
    rewrite Hname. reflexivity. }
  rewrite Hadmin. reflexivity.
Qed.

(** Bob holds, in the billing service, a tenant-scoped role that is
    called admin: authenticated in that scope he passes the gate for a
    permission of another domain. *)
Lemma admin_bypass_tests_only_the_name_witness :
  exists req',
    authenticate Sample.jwt_verify Sample.db0
      (Sample.request (Some "Bearer jwt-bob-billing") []) = Next req' /\
    req_userRoles req' = Some [Sample.billing_admin_role] /\
    isGlobal Sample.billing_admin_role = false /\
    hasPermission "user:delete" req' = Next req'.
Proof.
  eexists. split; [reflexivity|]. split; [reflexivity|].
  split; [reflexivity|].
  apply (@admin_bypass_tests_only_the_name "user:delete" _
           [Sample.billing_admin_role] Sample.billing_admin_role).
  - reflexivity.
  - simpl. left. reflexivity.
  - reflexivity.
Defined.

(* ================================================================== *)
(** ** Scope resolution *)
(* ================================================================== *)

Lemma Role_find_global_in_In (ids : list ObjectId) (db : DB) (r : Role) :
  In r (Query.Role_find_global_in ids db) <->
  In r (roles db) /\ In (r_id r) ids /\ isGlobal r = true.
Proof.
  unfold Query.Role_find_global_in. rewrite filter_In, andb_true_iff.
  rewrite mem_id_In. tauto.
Qed.

(** C4. With a token that names no tenant, an active principal is let
    through and its candidate role set holds exactly the stored roles
    that are marked global and that one of its grants references; the
    tenant of the grant plays no part. *)
Theorem global_scope_candidate_roles :
  forall (jwt_verify : string -> Verified) (db : DB) (req : Request)
         (d : Decoded) (user : User),
    verified_request jwt_verify req d ->
    truthy_id (d_serviceId d) = None ->
    Query.User_findById (d_id d) db = Some user ->
    u_status user = "active" ->
    exists req' globalRoles,
      authenticate jwt_verify db req = Next req' /\
      req' = with_userRoles (with_user req user) globalRoles /\
      req_user req' = Some user /\
      req_userRoles req' = Some globalRoles /\
      req_service req' = req_service req /\
      req_userService req' = req_userService req /\
      forall r,
        In r globalRoles <->
        (In r (roles db) /\ isGlobal r = true /\
         exists g, In g (userServices db) /\
                   us_userId g = u_id user /\
                   In (r_id r) (us_roles g)).
Proof.
  intros jwt_verify db req d user Hv Hsid Hu Hact.
  exists (with_userRoles (with_user req user)
            (Query.Role_find_global_in
               (Query.UserService_distinct_roles (u_id user) db) db)).
  exists (Query.Role_find_global_in
            (Query.UserService_distinct_roles (u_id user) db) db).
  split; [|split; [reflexivity|repeat (split; [reflexivity|])]].
  - rewrite (authenticate_verified db Hv). unfold authenticate_decoded.
    rewrite Hu, Hact, Hsid. reflexivity.
  - intros r. rewrite Role_find_global_in_In.
    rewrite UserService_distinct_roles_In. tauto.
Qed.

(** Alice, without a tenant in her token: the global role of her global
    grant and the global role attached to her billing grant, and not the
    billing role of that grant. *)
Lemma global_scope_candidate_roles_witness :
  exists req' globalRoles,
    authenticate Sample.jwt_verify Sample.db0
      (Sample.request (Some "Bearer jwt-alice") []) = Next req' /\
    req' = with_userRoles
             (with_user (Sample.request (Some "Bearer jwt-alice") [])
                        Sample.alice) globalRoles /\
    req_user req' = Some Sample.alice /\
    req_userRoles req' = Some globalRoles /\
    req_service req' = None /\
    req_userService req' = None /\
    forall r,
      In r globalRoles <->
      (In r (roles Sample.db0) /\ isGlobal r = true /\
       exists g, In g (userServices Sample.db0) /\
                 us_userId g = u_id Sample.alice /\
                 In (r_id r) (us_roles g)).
Proof.
  apply (@global_scope_candidate_roles Sample.jwt_verify Sample.db0
           (Sample.request (Some "Bearer jwt-alice") [])
           (mkDecoded "u-alice" "alice" None) Sample.alice).
  - exists "Bearer jwt-alice", "jwt-alice".
    repeat split; try reflexivity. discriminate.
  - reflexivity.
  - reflexivity.
  - reflexivity.
Defined.

Example global_scope_of_alice :
  authenticate Sample.jwt_verify Sample.db0
    (Sample.request (Some "Bearer jwt-alice") [])
  = Next (with_userRoles
            (with_user (Sample.request (Some "Bearer jwt-alice") [])
                       Sample.alice)
            [Sample.user_role; Sample.auditor_role]).
Proof. reflexivity. Qed.

(* ================================================================== *)
(** ** Authentication *)
(* ================================================================== *)

Lemma Service_findById_id (i : ObjectId) (db : DB) (s : Service) :
  Query.Service_findById i db = Some s -> In s (services db) /\ s_id s = i.
Proof.
  unfold Query.Service_findById. intros H. apply find_some in H.
  destruct H as [Hin Heq]. apply String.eqb_eq in Heq. now split.
Qed.

Lemma not_active (s : string) : s <> "active" -> negb (s =? "active") = true.
Proof.
  intros H. apply negb_true_iff. now apply String.eqb_neq.
Qed.

Lemma authenticate_catch_not_Next (e : Error) (req' : Request) :
  authenticate_catch e <> Next req'.
Proof.
  destruct e as [m c|n m|f]; simpl; try discriminate.
  destruct (n =? "JsonWebTokenError"); [discriminate|].
  destruct (n =? "TokenExpiredError"); discriminate.
Qed.

(** Whoever is let through presented a bearer token that verified. *)
Lemma authenticate_Next_verified (jwt_verify : string -> Verified)
    (db : DB) (req req' : Request) :
  authenticate jwt_verify db req = Next req' ->
  exists d, verified_request jwt_verify req d.
Proof.
  unfold authenticate, verified_request.
  destruct (authorization req) as [h|]; [|discriminate].
  destruct (negb (prefix "Bearer " h)) eqn:Hp; [discriminate|].
  apply negb_false_iff in Hp.
  destruct (bearer_token h) as [[|c tok]|] eqn:Hb; try discriminate.
  destruct (jwt_verify (String c tok)) as [d|e] eqn:Hv.
  - intros _. exists d, h, (String c tok).
    repeat split; try assumption. discriminate.
  - intros H. now apply authenticate_catch_not_Next in H.
Qed.

(** C1 (as the code has it). A request is let through only if its
    bearer token verifies, the principal of the token is stored and
    active and, when the token names a tenant, the tenant is stored and
    active and the grant of the pair is stored and active. For a token
    that verifies: a missing principal is answered 401 and an inactive
    one 403; a tenant that is not stored is answered 401 ("Service not
    found or token is invalid."), an inactive tenant 403, a missing
    grant 403 and a grant that is not active 403; in every other case
    the request is let through. *)
Theorem authenticate_decision_table :
  forall (jwt_verify : string -> Verified) (db : DB) (req : Request),
    let result := authenticate jwt_verify db req in
    (forall req',
       result = Next req' ->
       exists d user,
         verified_request jwt_verify req d /\
         Query.User_findById (d_id d) db = Some user /\
         u_status user = "active" /\
         (forall sid,
            truthy_id (d_serviceId d) = Some sid ->
            exists service grant,
              Query.Service_findById sid db = Some service /\
              active service = true /\
              Query.UserService_findOne (u_id user) (Some sid) db
                = Some grant /\
              us_status grant = "active")) /\
    (forall d,
       verified_request jwt_verify req d ->
       (Query.User_findById (d_id d) db = None ->
          result = NextErr PrincipalNotFound) /\
       (forall user,
          Query.User_findById (d_id d) db = Some user ->
          (u_status user <> "active" -> result = NextErr PrincipalInactive) /\
          (u_status user = "active" ->
           (truthy_id (d_serviceId d) = None ->
              exists req', result = Next req') /\
           (forall sid,
              truthy_id (d_serviceId d) = Some sid ->
              (Query.Service_findById sid db = None ->
                 result = NextErr TenantNotFound) /\
              (forall service,
                 Query.Service_findById sid db = Some service ->
                 (active service = false ->
                    result = NextErr TenantInactive) /\
                 (active service = true ->
                  (Query.UserService_findOne (u_id user)
                     (Some (s_id service)) db = None ->
                     result = NextErr NoAccess) /\
                  (forall grant,
                     Query.UserService_findOne (u_id user)
                       (Some (s_id service)) db = Some grant ->
                     (us_status grant <> "active" ->
                        result = NextErr GrantSuspended) /\
                     (us_status grant = "active" ->
                        exists req',
                          result = Next req' /\
                          req_user req' = Some user /\
                          req_service req' = Some service /\
                          req_userRoles req'
                            = Some (Query.populate_roles
                                      (us_roles grant) db))))))))).
Proof.
  intros jwt_verify db req result. subst result. split.
  - intros req' Hres.
    destruct (authenticate_Next_verified _ _ _ Hres) as [d Hv].
    rewrite (authenticate_verified db Hv) in Hres.
    unfold authenticate_decoded in Hres. exists d.
    destruct (Query.User_findById (d_id d) db) as [user|] eqn:Hu;
      [|discriminate].
    destruct (negb (u_status user =? "active")) eqn:Hst; [discriminate|].
    apply status_active_dec in Hst.
    exists user. split; [exact Hv|]. split; [reflexivity|].
    split; [exact Hst|].
    intros sid Hsid. rewrite Hsid in Hres.
    destruct (Query.Service_findById sid db) as [service|] eqn:Hs;
      [|discriminate].
    destruct (active service) eqn:Hact; [|discriminate]. simpl in Hres.
    destruct (Service_findById_id _ _ Hs) as [_ Hid]. rewrite Hid in Hres.
    destruct (Query.UserService_findOne (u_id user) (Some sid) db)
      as [grant|] eqn:Hg; [|discriminate].
    destruct (negb (us_status grant =? "active")) eqn:Hgs; [discriminate|].
    apply status_active_dec in Hgs.
    exists service, grant. repeat split; assumption.
  - intros d Hv.
    rewrite (authenticate_verified db Hv). unfold authenticate_decoded.
    split.
    + intros Hnone. rewrite Hnone. reflexivity.
    + intros user Hu. rewrite Hu. split.
      * intros Hst. rewrite (not_active Hst). reflexivity.
      * intros Hst. rewrite Hst. simpl. split.
        -- intros Hsid. rewrite Hsid. eexists. reflexivity.
        -- intros sid Hsid. rewrite Hsid. split.
           ++ intros Hs. rewrite Hs. reflexivity.
           ++ intros service Hs. rewrite Hs. split.
              ** intros Hact. rewrite Hact. reflexivity.
              ** intros Hact. rewrite Hact. simpl. split.
                 --- intros Hg. rewrite Hg. reflexivity.
                 --- intros grant Hg. rewrite Hg. split.
                     +++ intros Hgs. rewrite (not_active Hgs). reflexivity.
                     +++ intros Hgs. rewrite Hgs. simpl. eexists.
                         split; [reflexivity|]. repeat split.
Qed.

(** Alice with a token scoped to billing: everything is in place and
    she is let through with the roles of her billing grant. *)
Lemma authenticate_decision_table_witness :
  verified_request Sample.jwt_verify
    (Sample.request (Some "Bearer jwt-alice-billing") [])
    (mkDecoded "u-alice" "alice" (Some "s-billing")) /\
  exists req',
    authenticate Sample.jwt_verify Sample.db0
      (Sample.request (Some "Bearer jwt-alice-billing") []) = Next req' /\
    req_user req' = Some Sample.alice /\
    req_service req' = Some Sample.billing /\
    req_userRoles req'
      = Some (Query.populate_roles (us_roles Sample.alice_billing)
                                   Sample.db0).
Proof.
  assert (Hv : verified_request Sample.jwt_verify
                 (Sample.request (Some "Bearer jwt-alice-billing") [])
                 (mkDecoded "u-alice" "alice" (Some "s-billing"))).
  { exists "Bearer jwt-alice-billing", "jwt-alice-billing".
    repeat split; try reflexivity. discriminate. }
  split; [exact Hv|].
  pose proof (@authenticate_decision_table Sample.jwt_verify Sample.db0
                (Sample.request (Some "Bearer jwt-alice-billing") []))
    as H.
  simpl in H. destruct H as [_ H].
  destruct (H (mkDecoded "u-alice" "alice" (Some "s-billing")) Hv)
    as [_ H0].
  destruct (H0 Sample.alice eq_refl) as [_ H1].
  destruct (H1 eq_refl) as [_ H2].
  destruct (H2 "s-billing" eq_refl) as [_ H3].
  destruct (H3 Sample.billing eq_refl) as [_ H4].
  destruct (H4 eq_refl) as [_ H5].
  destruct (H5 Sample.alice_billing eq_refl) as [_ H6].
  exact (H6 eq_refl).
Defined.

(** C1, counterexample. The claim sends every tenant that is not both
    present and active to a 403; a token that names a tenant the store
    does not hold is answered with 401. *)
Lemma authenticate_missing_tenant_is_401 :
  ~ (forall (jwt_verify : string -> Verified) (db : DB) (req : Request)
            (d : Decoded) (user : User) (sid : ObjectId),
       verified_request jwt_verify req d ->
       Query.User_findById (d_id d) db = Some user ->
       u_status user = "active" ->
       truthy_id (d_serviceId d) = Some sid ->
       (forall service,
          Query.Service_findById sid db = Some service ->
          active service = false) ->
       exists message,
         authenticate jwt_verify db req = NextErr (APIError message 403)).
Proof.
  intros H.
  destruct (H Sample.jwt_verify Sample.db0
              (Sample.request (Some "Bearer jwt-alice-payroll") [])
              (mkDecoded "u-alice" "alice" (Some "s-payroll"))
              Sample.alice "s-payroll") as [message Hm].
  - exists "Bearer jwt-alice-payroll", "jwt-alice-payroll".
    repeat split; try reflexivity. discriminate.
  - reflexivity.
  - reflexivity.
  - reflexivity.
  - intros service Hs. discriminate Hs.
  - discriminate Hm.
Qed.

(* ================================================================== *)
(** ** Refresh credentials *)
(* ================================================================== *)

Lemma Token_findOne_In (v ty : string) (db : DB) (t : Token) :
  Query.Token_findOne v ty db = Some t ->
  In t (tokens db) /\ t_token t = v /\ t_type t = ty.
Proof.
  unfold Query.Token_findOne. intros H. apply find_some in H.
  destruct H as [Hin Heq]. apply andb_true_iff in Heq.
  destruct Heq as [H1 H2]. apply String.eqb_eq in H1, H2. now repeat split.
Qed.

Lemma truthy_Str (v : string) : v <> "" -> Js.truthy (Js.Str v) = true.
Proof.
  intros H. simpl. apply negb_true_iff. now apply String.eqb_neq.
Qed.

(** A string in the body is looked up as it is. *)
Lemma authenticateRefreshToken_string
    (String_filter : Js.value -> Error + (string -> bool)) (now : Z)
    (db : DB) (req : Request) (v : string) :
  Js.get "refreshToken" (body req) = Some (Js.Str v) ->
  v <> "" ->
  authenticateRefreshToken String_filter now db req
  = authenticateRefreshToken_found now db req
      (Query.Token_findOne v "refresh" db).
Proof.
  intros Hb Hne. unfold authenticateRefreshToken.
  now rewrite Hb, (truthy_Str Hne).
Qed.

(** C3 (as the code has it). A stored, unexpired refresh credential of
    an active principal is accepted by [authenticateRefreshToken], the
    exchange answers 200 with a new access token, and neither step
    touches the database: the credential is still stored afterwards and
    the same token value, presented again at any time before its
    expiry, is accepted again. *)
Theorem refresh_exchange_keeps_the_credential :
  forall (String_filter : Js.value -> Error + (string -> bool))
         (jwt_sign : Decoded -> string) (now later : Z) (db : DB)
         (req : Request) (v : string) (tokenDoc : Token) (user : User),
    Js.get "refreshToken" (body req) = Some (Js.Str v) ->
    v <> "" ->
    Query.Token_findOne v "refresh" db = Some tokenDoc ->
    Query.isExpired tokenDoc now = false ->
    Query.isExpired tokenDoc later = false ->
    Query.User_findById (t_userId tokenDoc) db = Some user ->
    u_status user = "active" ->
    exists req' data,
      authenticateRefreshToken String_filter now db req = (db, Next req') /\
      req_user req' = Some user /\
      req_token req' = Some tokenDoc /\
      refreshToken jwt_sign db req' = (db, Json 200 data) /\
      In tokenDoc (tokens db) /\
      authenticateRefreshToken String_filter later
        (fst (refreshToken jwt_sign
                (fst (authenticateRefreshToken String_filter now db req))
                req')) req
        = (db, Next req').
Proof.
  intros F jwt_sign now later db req v tokenDoc user Hb Hne Hfind Hexp Hexp'
         Hu Hact.
  set (req0 := with_token (with_user req user) tokenDoc).
  set (req1 := match truthy_id (t_serviceId tokenDoc) with
               | Some sid =>
                   match Query.Service_findById sid db with
                   | Some service =>
                       if active service then with_service req0 service
                       else req0
                   | None => req0
                   end
               | None => req0
               end).
  assert (Hauth : forall t, Query.isExpired tokenDoc t = false ->
             authenticateRefreshToken F t db req = (db, Next req1)).
  { intros t Ht.
    rewrite (@authenticateRefreshToken_string F t db req v Hb Hne).
    unfold authenticateRefreshToken_found.
    rewrite Hfind, Ht, Hu, Hact. reflexivity. }
  assert (Hru : req_user req1 = Some user).
  { unfold req1.
    destruct (truthy_id (t_serviceId tokenDoc)) as [sid|]; [|reflexivity].
    destruct (Query.Service_findById sid db) as [service|]; [|reflexivity].
    now destruct (active service). }
  assert (Hrt : req_token req1 = Some tokenDoc).
  { unfold req1.
    destruct (truthy_id (t_serviceId tokenDoc)) as [sid|]; [|reflexivity].
    destruct (Query.Service_findById sid db) as [service|]; [|reflexivity].
    now destruct (active service). }
  assert (Hctl : exists data, refreshToken jwt_sign db req1
                              = (db, Json 200 data)).
  { unfold refreshToken. rewrite Hru. eexists. reflexivity. }
  destruct Hctl as [data Hctl].
  exists req1, data. repeat split; try assumption.
  - now apply Hauth.
  - now apply Token_findOne_In in Hfind.
  - rewrite (Hauth now Hexp). simpl. rewrite Hctl. simpl. now apply Hauth.
Qed.

(** Alice's refresh token at time 10: accepted, exchanged, and accepted
    again at time 999, just before it expires. *)
Lemma refresh_exchange_keeps_the_credential_witness :
  exists req' data,
    authenticateRefreshToken SampleTokens.String_filter 10 Sample.db0
      (Sample.request None [("refreshToken", Js.Str "refresh-alice-1")])
      = (Sample.db0, Next req') /\
    req_user req' = Some Sample.alice /\
    req_token req' = Some Sample.alice_refresh /\
    refreshToken Sample.jwt_sign Sample.db0 req'
      = (Sample.db0, Json 200 data) /\
    In Sample.alice_refresh (tokens Sample.db0) /\
    authenticateRefreshToken SampleTokens.String_filter 999
      (fst (refreshToken Sample.jwt_sign
              (fst (authenticateRefreshToken SampleTokens.String_filter 10
                      Sample.db0
                      (Sample.request None
                         [("refreshToken", Js.Str "refresh-alice-1")])))
              req'))
      (Sample.request None [("refreshToken", Js.Str "refresh-alice-1")])
      = (Sample.db0, Next req').
Proof.
  apply (@refresh_exchange_keeps_the_credential SampleTokens.String_filter
           Sample.jwt_sign 10 999
           Sample.db0
           (Sample.request None [("refreshToken", Js.Str "refresh-alice-1")])
           "refresh-alice-1" Sample.alice_refresh Sample.alice).
  - reflexivity.
  - discriminate.
  - reflexivity.
  - reflexivity.
  - reflexivity.
  - reflexivity.
  - reflexivity.
Defined.

(** C3, counterexample. After a successful exchange the same token value
    is not answered with "Invalid refresh token." (401): it is accepted
    a second time. *)
Lemma refresh_token_is_not_single_use :
  ~ (forall (String_filter : Js.value -> Error + (string -> bool))
            (jwt_sign : Decoded -> string) (now : Z) (db db1 db2 : DB)
            (req req1 : Request) (data : Js.value),
       authenticateRefreshToken String_filter now db req
         = (db1, Next req1) ->
       refreshToken jwt_sign db1 req1 = (db2, Json 200 data) ->
       authenticateRefreshToken String_filter now db2 req
         = (db2, NextErr (APIError "Invalid refresh token." 401))).
Proof.
  intros H.
  pose (req := Sample.request None
                 [("refreshToken", Js.Str "refresh-alice-1")]).
  pose (r1 := authenticateRefreshToken SampleTokens.String_filter 10
                                      Sample.db0 req).
  assert (H1 : exists req1, r1 = (Sample.db0, Next req1))
    by (eexists; reflexivity).
  destruct H1 as [req1 H1].
  assert (H2 : exists data,
             refreshToken Sample.jwt_sign Sample.db0 req1
             = (Sample.db0, Json 200 data)).
  { injection H1 as H1. rewrite <- H1. eexists. reflexivity. }
  destruct H2 as [data H2].
  specialize (H SampleTokens.String_filter Sample.jwt_sign 10%Z Sample.db0
                Sample.db0 Sample.db0 req req1 data H1 H2).
  discriminate H.
Qed.

Lemma Token_deleteMany_tokens (uid : ObjectId) (ty : string) (db : DB) :
  tokens (Query.Token_deleteMany uid ty db)
  = filter (fun t => negb ((t_userId t =? uid) && (t_type t =? ty)))
           (tokens db).
Proof. reflexivity. Qed.

Lemma Token_findOne_None (v ty : string) (db : DB) :
  (forall t, In t (tokens db) -> t_token t = v -> t_type t = ty -> False) ->
  Query.Token_findOne v ty db = None.
Proof.
  intros H. unfold Query.Token_findOne.
  destruct (find _ (tokens db)) as [t|] eqn:Hf; [|reflexivity].
  exfalso. apply find_some in Hf. destruct Hf as [Hin Heq].
  apply andb_true_iff in Heq. destruct Heq as [H1 H2].
  apply String.eqb_eq in H1, H2. exact (H t Hin H1 H2).
Qed.

(** What a successful [changePassword] did. *)
Lemma changePassword_success (bcrypt_hash : string -> string)
    (bcrypt_compare : string -> string -> bool) (db db' : DB)
    (req : Request) (data : Js.value) :
  changePassword bcrypt_hash bcrypt_compare db req = (db', Json 200 data) ->
  exists ru user newPassword,
    req_user req = Some ru /\
    Query.User_findById (u_id ru) db = Some user /\
    u_id user = u_id ru /\
    db' = Query.Token_deleteMany (u_id user) "refresh"
            (User_save (with_password user (bcrypt_hash newPassword)) db).
Proof.
  unfold changePassword. intros H.
  destruct (req_user req) as [ru|]; [|discriminate].
  destruct (Query.User_findById (u_id ru) db) as [user|] eqn:Hu;
    [|discriminate].
  destruct (Js.get "currentPassword" (body req)) as [[| | |cur| |]|];
    try discriminate.
  destruct (negb (bcrypt_compare cur (password user))); [discriminate|].
  destruct (Js.get "newPassword" (body req)) as [[| | |new| |]|];
    try discriminate.
  destruct (String.length new <? 8)%nat; [discriminate|].
  injection H as Hdb _. exists ru, user, new.
  split; [reflexivity|]. split; [exact Hu|]. split.
  - now apply User_findById_id in Hu.
  - now symmetry.
Qed.

(** C7. After a password change that answered 200, the token collection
    is the old one without the refresh credentials of that principal:
    none of them is stored any more, every credential of another kind or
    of another principal is still stored, and presenting the value of a
    revoked credential is answered "Invalid refresh token." (401). *)
Theorem changePassword_revokes_refresh_credentials :
  forall (bcrypt_hash : string -> string)
         (bcrypt_compare : string -> string -> bool)
         (db db' : DB) (req : Request) (data : Js.value) (principal : User),
    req_user req = Some principal ->
    changePassword bcrypt_hash bcrypt_compare db req = (db', Json 200 data) ->
    tokens db'
      = filter (fun t => negb ((t_userId t =? u_id principal)
                               && (t_type t =? "refresh")))
               (tokens db) /\
    (forall t, In t (tokens db) ->
               t_userId t = u_id principal -> t_type t = "refresh" ->
               ~ In t (tokens db')) /\
    (forall t, In t (tokens db) ->
               t_userId t <> u_id principal \/ t_type t <> "refresh" ->
               In t (tokens db')) /\
    (forall t, In t (tokens db') -> In t (tokens db)) /\
    (forall (String_filter : Js.value -> Error + (string -> bool))
            (now : Z) (req2 : Request) (v : string),
       Js.get "refreshToken" (body req2) = Some (Js.Str v) ->
       v <> "" ->
       (forall t, In t (tokens db) -> t_token t = v -> t_type t = "refresh" ->
                  t_userId t = u_id principal) ->
       authenticateRefreshToken String_filter now db' req2
         = (db', NextErr (APIError "Invalid refresh token." 401))).
Proof.
  intros bcrypt_hash bcrypt_compare db db' req data principal Hru Hok.
  destruct (changePassword_success _ _ _ _ Hok)
    as [ru [user [newPassword [Hru' [Hu [Hid Hdb]]]]]].
  rewrite Hru in Hru'. injection Hru' as <-.
  assert (Htok : tokens db'
                 = filter (fun t => negb ((t_userId t =? u_id principal)
                                          && (t_type t =? "refresh")))
                          (tokens db)).
  { rewrite Hdb, Token_deleteMany_tokens, Hid. reflexivity. }
  split; [exact Htok|]. split; [|split; [|split]].
  - intros t _ Hu1 Hty Hin. rewrite Htok in Hin. apply filter_In in Hin.
    destruct Hin as [_ Hneg]. rewrite Hu1, Hty in Hneg.
    rewrite !String.eqb_refl in Hneg. discriminate.
  - intros t Hin Hother. rewrite Htok. apply filter_In.
    split; [exact Hin|]. apply negb_true_iff, andb_false_iff.
    destruct Hother as [H|H]; [left|right]; now apply String.eqb_neq.
  - intros t Hin. rewrite Htok in Hin. now apply filter_In in Hin.
  - intros F now req2 v Hb Hne Hown.
    rewrite (@authenticateRefreshToken_string F now db' req2 v Hb Hne).
    rewrite Token_findOne_None; [reflexivity|].
    intros t Hin Hv Hty. rewrite Htok in Hin. apply filter_In in Hin.
    destruct Hin as [Hin Hneg].
    rewrite (Hown t Hin Hv Hty), Hty, !String.eqb_refl in Hneg.
    discriminate.
Qed.

(** Alice changes her password: her two refresh credentials are gone,
    her reset credential and Bob's refresh credential stay, and her old
    refresh token is refused. *)
Lemma changePassword_revokes_refresh_credentials_witness :
  changePassword Sample.bcrypt_hash Sample.bcrypt_compare Sample.db0
    SampleRuns.change_request
    = (SampleRuns.after_change, Json 200 SampleRuns.changed_response) /\
  tokens SampleRuns.after_change = [Sample.alice_reset; Sample.bob_refresh] /\
  ~ In Sample.alice_refresh (tokens SampleRuns.after_change) /\
  In Sample.bob_refresh (tokens SampleRuns.after_change) /\
  authenticateRefreshToken SampleTokens.String_filter 10
    SampleRuns.after_change
    (Sample.request None [("refreshToken", Js.Str "refresh-alice-1")])
    = (SampleRuns.after_change,
       NextErr (APIError "Invalid refresh token." 401)).
Proof.
  assert (Hrun : changePassword Sample.bcrypt_hash Sample.bcrypt_compare
                   Sample.db0 SampleRuns.change_request
                 = (SampleRuns.after_change,
                    Json 200 SampleRuns.changed_response))
    by reflexivity.
  destruct (@changePassword_revokes_refresh_credentials
              Sample.bcrypt_hash Sample.bcrypt_compare Sample.db0
              SampleRuns.after_change SampleRuns.change_request
              SampleRuns.changed_response Sample.alice eq_refl Hrun)
    as [Htok [Hgone [Hkept [_ Hconsume]]]].
  split; [exact Hrun|]. split; [rewrite Htok; reflexivity|].
  split; [|split].
  - apply Hgone; [simpl; tauto | reflexivity | reflexivity].
  - apply Hkept; [simpl; tauto | left; discriminate].
  - apply (Hconsume SampleTokens.String_filter 10%Z _ "refresh-alice-1");
      [reflexivity | discriminate |].
    intros t Hin Hv Hty. simpl in Hin.
    destruct Hin as [<-|[<-|[<-|[<-|[]]]]];
      try reflexivity; discriminate Hv.
Defined.

(* ================================================================== *)
(** ** Grants: one per (principal, tenant) pair *)
(* ================================================================== *)

(* ================================================================== *)
(** ** Grants: one per (principal, tenant) pair *)
(* ================================================================== *)

Lemma oid_eqb_eq (a b : option ObjectId) : oid_eqb a b = true <-> a = b.
Proof.
  destruct a as [x|], b as [y|]; simpl; try (split; congruence).
  rewrite String.eqb_eq. split; congruence.
Qed.

Lemma grant_exists_iff (uid : ObjectId) (sid : option ObjectId) (db : DB) :
  grant_exists uid sid db = true <->
  exists g, In g (userServices db) /\
            us_userId g = uid /\ us_serviceId g = sid.
Proof.
  unfold grant_exists. rewrite existsb_exists.
  split; intros [g [Hin H]]; exists g; (split; [exact Hin|]).
  - apply andb_true_iff in H. destruct H as [H1 H2].
    apply String.eqb_eq in H1. apply oid_eqb_eq in H2. now split.
  - destruct H as [H1 H2]. apply andb_true_iff.
    split; [now apply String.eqb_eq | now apply oid_eqb_eq].
Qed.

Lemma grant_exists_findOne (uid : ObjectId) (sid : option ObjectId)
    (db : DB) :
  grant_exists uid sid db = true ->
  exists g, Query.UserService_findOne uid sid db = Some g.
Proof.
  unfold grant_exists, Query.UserService_findOne. intros H.
  destruct (find _ (userServices db)) as [g|] eqn:Hf; [now exists g|].
  apply existsb_exists in H. destruct H as [g [Hin Hg]].
  pose proof (find_none _ _ Hf g Hin) as Hn. simpl in Hn. congruence.
Qed.

Lemma grants_unique_snoc (l : list UserService) (g : UserService) :
  grants_unique l ->
  (forall g', In g' l ->
     ~ (us_userId g' = us_userId g /\ us_serviceId g' = us_serviceId g)) ->
  grants_unique (l ++ [g]).
Proof.
  induction l as [|x rest IH]; simpl; intros Hu Hfresh.
  - split; [intros g' []|exact I].
  - destruct Hu as [Hx Hrest]. split.
    + intros g' Hin. apply in_app_or in Hin. destruct Hin as [Hin|Hin].
      * now apply Hx.
      * destruct Hin as [<-|[]]. intros [H1 H2].
        apply (Hfresh x (or_introl eq_refl)). now split.
    + apply IH; [exact Hrest|]. intros g' Hin. apply Hfresh. now right.
Qed.

Lemma UserService_insert_inr (g : UserService) (db db' : DB) :
  UserService_insert g db = inr db' ->
  grant_exists (us_userId g) (us_serviceId g) db = false /\
  db' = set_userServices db (userServices db ++ [g]).
Proof.
  unfold UserService_insert.
  destruct (negb _); [discriminate|].
  destruct (grant_exists _ _ db); [discriminate|].
  intros H. injection H as <-. now split.
Qed.

Lemma UserService_insert_unique (g : UserService) (db db' : DB) :
  grants_unique (userServices db) ->
  UserService_insert g db = inr db' ->
  grants_unique (userServices db').
Proof.
  intros Hu Hins. apply UserService_insert_inr in Hins.
  destruct Hins as [Hfresh ->]. simpl.
  apply grants_unique_snoc; [exact Hu|].
  intros g' Hin [H1 H2].
  assert (Hex : grant_exists (us_userId g) (us_serviceId g) db = true).
  { apply grant_exists_iff. now exists g'. }
  congruence.
Qed.

(** Every way [assignUserToService] can end: a 201 after one insert, or
    an error that leaves the database as it was. *)
Lemma assignUserToService_cases (ObjectId_isValid : string -> bool)
    (newId : ObjectId) (db : DB) (req : Request) :
  (exists e, assignUserToService ObjectId_isValid newId db req
             = (db, NextErr e)) \/
  (exists g db' data,
     UserService_insert g db = inr db' /\
     assignUserToService ObjectId_isValid newId db req
       = (db', Json 201 data)).
Proof.
  unfold assignUserToService.
  destruct (negb (isValid _ (Js.get "userId" (body req))));
    [left; eexists; reflexivity|].
  destruct (negb (isValid _ (Js.get "serviceId" (body req))));
    [left; eexists; reflexivity|].
  destruct (Query.User_findById _ db); [|left; eexists; reflexivity].
  destruct (Query.Service_findById _ db); [|left; eexists; reflexivity].
  destruct (Query.UserService_findOne _ _ db);
    [left; eexists; reflexivity|].
  destruct (_ && _); [left; eexists; reflexivity|].
  destruct (UserService_insert _ db) as [e|db'] eqn:Hins;
    [left; eexists; reflexivity|].
  right. do 3 eexists. split; [exact Hins|reflexivity].
Qed.

(** C8. A grant for a pair that already has one is refused and nothing
    is written: the endpoint answers 400 ("User is already assigned to
    this service") for a tenant, and refuses a null tenant outright;
    the unique index of the collection refuses the insert of any taken
    pair, the global pair (U, null) included, with a duplicate-key
    error (400). Every insert that goes through keeps the grants at one
    per pair. *)
Theorem duplicate_grant_is_rejected :
  forall (ObjectId_isValid : string -> bool) (newId : ObjectId) (db : DB),
    (forall (req : Request) (U S : ObjectId) (user : User)
            (service : Service),
       Js.get "userId" (body req) = Some (Js.Str U) ->
       Js.get "serviceId" (body req) = Some (Js.Str S) ->
       ObjectId_isValid U = true ->
       ObjectId_isValid S = true ->
       Query.User_findById U db = Some user ->
       Query.Service_findById S db = Some service ->
       grant_exists U (Some S) db = true ->
       assignUserToService ObjectId_isValid newId db req
         = (db, NextErr (APIError
                           "User is already assigned to this service" 400)))
    /\
    (forall (req : Request),
       Js.get "serviceId" (body req) = None \/
       Js.get "serviceId" (body req) = Some Js.Null ->
       exists message,
         assignUserToService ObjectId_isValid newId db req
           = (db, NextErr (APIError message 400)))
    /\
    (forall (g : UserService),
       grant_exists (us_userId g) (us_serviceId g) db = true ->
       exists e,
         UserService_insert g db = inl e /\ errorHandler_status e = 400%Z)
    /\
    (grants_unique (userServices db) ->
     (forall (g : UserService) (db' : DB),
        UserService_insert g db = inr db' ->
        grants_unique (userServices db')) /\
     (forall (req : Request) (db' : DB) (o : Outcome),
        assignUserToService ObjectId_isValid newId db req = (db', o) ->
        grants_unique (userServices db'))).
Proof.
  intros ObjectId_isValid newId db. split; [|split; [|split]].
  - intros req U S user service HU HS HvU HvS Hu Hs Hex.
    unfold assignUserToService. rewrite HU, HS. simpl.
    rewrite HvU, HvS. simpl. rewrite Hu, Hs.
    destruct (grant_exists_findOne _ _ _ Hex) as [g Hg]. now rewrite Hg.
  - intros req Hnull. unfold assignUserToService.
    destruct (negb (isValid _ (Js.get "userId" (body req))));
      [eexists; reflexivity|].
    destruct Hnull as [-> | ->]; simpl; eexists; reflexivity.
  - intros g Hex. unfold UserService_insert. rewrite Hex.
    destruct (negb _); eexists; split; reflexivity.
  - intros Hu. split.
    + intros g db' Hins. exact (UserService_insert_unique _ _ Hu Hins).
    + intros req db' o Hrun.
      destruct (assignUserToService_cases ObjectId_isValid newId db req)
        as [[e He] | [g [db1 [data [Hins Hok]]]]].
      * rewrite He in Hrun. injection Hrun as <- _. exact Hu.
      * rewrite Hok in Hrun. injection Hrun as <- _.
        exact (UserService_insert_unique _ _ Hu Hins).
Qed.

Lemma sample_grants_unique : grants_unique (userServices Sample.db0).
Proof.
  simpl. repeat split; try (intros g' Hin; simpl in Hin);
    try (intros [H1 H2]);
    repeat match goal with
           | H : _ \/ _ |- _ => destruct H as [<-|H]
           | H : False |- _ => destruct H
           end; discriminate.
Qed.

(** Alice already has a billing grant and a global grant: the endpoint
    answers 400 and writes nothing, a null tenant is not accepted by the
    endpoint, and the index refuses a second (alice, null). *)
Lemma duplicate_grant_is_rejected_witness :
  assignUserToService Sample.ObjectId_isValid "g-8" Sample.db0
    SampleGrants.again
    = (Sample.db0,
       NextErr (APIError "User is already assigned to this service" 400)) /\
  (exists message,
     assignUserToService Sample.ObjectId_isValid "g-8" Sample.db0
       SampleGrants.global_request
       = (Sample.db0, NextErr (APIError message 400))) /\
  (exists e,
     UserService_insert SampleGrants.second_global Sample.db0 = inl e /\
     errorHandler_status e = 400%Z) /\
  grants_unique (userServices Sample.db0).
Proof.
  destruct (@duplicate_grant_is_rejected Sample.ObjectId_isValid "g-8"
              Sample.db0) as [Hpair [Hnull [Hindex _]]].
  split; [|split; [|split]].
  - apply (Hpair SampleGrants.again "u-alice" "s-billing"
                 Sample.alice Sample.billing); reflexivity.
  - apply Hnull. right. reflexivity.
  - apply Hindex. reflexivity.
  - exact sample_grants_unique.
Defined.

(* ================================================================== *)
(** ** Roles: deletion *)
(* ================================================================== *)

Lemma Role_deleteOne_gone (role : Role) (db : DB) :
  Query.Role_findById (r_id role) (Query.Role_deleteOne role db) = None.
Proof.
  unfold Query.Role_findById, Query.Role_deleteOne. simpl.
  destruct (find _ (filter _ (roles db))) as [r|] eqn:Hf; [|reflexivity].
  apply find_some in Hf. destruct Hf as [Hin Heq].
  apply filter_In in Hin. destruct Hin as [_ Hneg].
  rewrite Heq in Hneg. discriminate.
Qed.

Lemma count_with_role_pos (rid : ObjectId) (db : DB) :
  (0 < Query.UserService_count_with_role rid db)%nat <->
  exists g, In g (userServices db) /\ In rid (us_roles g).
Proof.
  unfold Query.UserService_count_with_role. split.
  - intros H.
    destruct (filter (fun g => mem_id rid (us_roles g)) (userServices db))
      as [|g rest] eqn:Hf; [simpl in H; lia|].
    assert (Hin : In g (filter (fun g => mem_id rid (us_roles g))
                               (userServices db)))
      by (rewrite Hf; now left).
    apply filter_In in Hin. destruct Hin as [Hin Hm].
    exists g. split; [exact Hin | now apply mem_id_In].
  - intros [g [Hin Hr]].
    assert (Hf : In g (filter (fun g => mem_id rid (us_roles g))
                              (userServices db))).
    { apply filter_In. split; [exact Hin | now apply mem_id_In]. }
    destruct (filter _ (userServices db)); [destruct Hf | simpl; lia].
Qed.

(** C9 (as the code has it). The global roles admin and user are never
    deleted (403). Any other stored role: while a grant references it
    the deletion is refused with 400 ("Cannot delete role ... because
    it is assigned to n users") and the database is left as it was;
    once no grant references it the deletion answers 200 and the role
    is no longer stored. *)
Theorem deleteRole_refused_while_in_use :
  forall (db : DB) (req : Request) (i : ObjectId) (role : Role),
    param "id" (params req) = Some i ->
    Query.Role_findById i db = Some role ->
    (protected_role role = true ->
       exists message,
         deleteRole db req = (db, NextErr (APIError message 403))) /\
    (protected_role role = false ->
       ((exists g, In g (userServices db) /\ In (r_id role) (us_roles g)) ->
          exists message,
            deleteRole db req = (db, NextErr (APIError message 400))) /\
       ((forall g, In g (userServices db) -> ~ In (r_id role) (us_roles g)) ->
          deleteRole db req
            = (Query.Role_deleteOne role db,
               Json 200 (Js.Obj (msg true "Role deleted successfully"))) /\
          Query.Role_findById i (Query.Role_deleteOne role db) = None /\
          (forall r, In r (roles db) -> r_id r <> r_id role ->
                     In r (roles (Query.Role_deleteOne role db))))).
Proof.
  intros db req i role Hp Hfind.
  destruct (Role_findById_id _ _ Hfind) as [_ Hid].
  unfold deleteRole, protected_role. rewrite Hp, Hfind. split.
  - intros Hprot. apply orb_true_iff in Hprot.
    destruct ((r_name role =? "admin") && isGlobal role);
      [eexists; reflexivity|].
    destruct Hprot as [H|H]; [discriminate|]. rewrite H.
    eexists; reflexivity.
  - intros Hprot. apply orb_false_iff in Hprot.
    destruct Hprot as [-> ->]. split.
    + intros Hused. apply count_with_role_pos in Hused.
      apply Nat.ltb_lt in Hused. rewrite Hused. eexists; reflexivity.
    + intros Hfree.
      assert (Hz : (0 <? Query.UserService_count_with_role (r_id role) db)%nat
                   = false).
      { apply Nat.ltb_ge.
        destruct (Nat.eq_dec (Query.UserService_count_with_role
                                (r_id role) db) 0) as [->|Hne]; [lia|].
        exfalso.
        assert (Hpos : (0 < Query.UserService_count_with_role
                              (r_id role) db)%nat) by lia.
        apply count_with_role_pos in Hpos.
        destruct Hpos as [g [Hin Hr]]. exact (Hfree g Hin Hr). }
      rewrite Hz. split; [reflexivity|]. split.
      * rewrite <- Hid. apply Role_deleteOne_gone.
      * intros r Hin Hne. unfold Query.Role_deleteOne. simpl.
        apply filter_In. split; [exact Hin|].
        apply negb_true_iff. now apply String.eqb_neq.
Qed.

(** The clerk role is in use (400, nothing written); the intern role is
    free and goes; the global admin role is refused with 403. *)
Lemma deleteRole_refused_while_in_use_witness :
  (exists message,
     deleteRole Sample.db0 (Sample.request_with None [("id", "r-clerk")] [])
     = (Sample.db0, NextErr (APIError message 400))) /\
  (deleteRole Sample.db0 (Sample.request_with None [("id", "r-intern")] [])
   = (Query.Role_deleteOne Sample.intern_role Sample.db0,
      Json 200 (Js.Obj (msg true "Role deleted successfully"))) /\
   Query.Role_findById "r-intern"
     (Query.Role_deleteOne Sample.intern_role Sample.db0) = None) /\
  (exists message,
     deleteRole Sample.db0 (Sample.request_with None [("id", "r-admin")] [])
     = (Sample.db0, NextErr (APIError message 403))).
Proof.
  split; [|split].
  - destruct (@deleteRole_refused_while_in_use Sample.db0
                (Sample.request_with None [("id", "r-clerk")] [])
                "r-clerk" Sample.clerk_role eq_refl eq_refl) as [_ H].
    destruct (H eq_refl) as [Hused _]. apply Hused.
    exists Sample.alice_billing. split; simpl; tauto.
  - destruct (@deleteRole_refused_while_in_use Sample.db0
                (Sample.request_with None [("id", "r-intern")] [])
                "r-intern" Sample.intern_role eq_refl eq_refl) as [_ H].
    destruct (H eq_refl) as [_ Hfree].
    destruct Hfree as [H1 [H2 _]]; [|now split].
    intros g Hin Hr. simpl in Hin.
    destruct Hin as [<-|[<-|[<-|[]]]]; simpl in Hr;
      repeat (destruct Hr as [Hr|Hr]; [discriminate|]); exact Hr.
  - destruct (@deleteRole_refused_while_in_use Sample.db0
                (Sample.request_with None [("id", "r-admin")] [])
                "r-admin" Sample.admin_role eq_refl eq_refl) as [H _].
    exact (H eq_refl).
Defined.

(** C9, counterexample. No grant references the global admin role of
    the sample store, and still its deletion does not succeed. *)
Lemma deleteRole_protected_role_never_succeeds :
  ~ (forall (db : DB) (req : Request) (i : ObjectId) (role : Role),
       param "id" (params req) = Some i ->
       Query.Role_findById i db = Some role ->
       (forall g, In g (userServices db) -> ~ In (r_id role) (us_roles g)) ->
       exists data,
         deleteRole db req = (Query.Role_deleteOne role db, Json 200 data)).
Proof.
  intros H.
  destruct (H Sample.db0 (Sample.request_with None [("id", "r-admin")] [])
              "r-admin" Sample.admin_role eq_refl eq_refl) as [data Hd].
  - intros g Hin Hr. simpl in Hin.
    destruct Hin as [<-|[<-|[<-|[]]]]; simpl in Hr;
      repeat (destruct Hr as [Hr|Hr]; [discriminate|]); exact Hr.
  - discriminate Hd.
Qed.

(* ================================================================== *)
(** ** The audit middleware *)
(* ================================================================== *)



(** With [async] on the function given to [res.json] the same [await]
    would compile. *)
Example await_in_an_async_function :
  await_compiles [AsyncFunction; AsyncFunction; PlainFunction] = true.
Proof. reflexivity. Qed.

(* ================================================================== *)
(** * Further properties *)
(* ================================================================== *)

(** Membership in a list that is written out: one case per element. *)
Ltac in_cases H :=
  simpl in H;
  repeat (destruct H as [<-|H];
          [try reflexivity; try discriminate; try tauto|]);
  try (now destruct H).

(** ** The bearer header *)

Lemma append_String_assoc (a : string) (c : ascii) (b : string) :
  (a ++ String c "") ++ b = a ++ String c b.
Proof.
  induction a as [|x a IH]; simpl; [reflexivity|]. now rewrite IH.
Qed.

Lemma append_empty_r (a : string) : a ++ "" = a.
Proof.
  induction a as [|x a IH]; simpl; [reflexivity|]. now rewrite IH.
Qed.

Lemma split_space_aux_word (tok cur rest : string) :
  no_space tok = true ->
  split_space_aux cur (tok ++ rest) = split_space_aux (cur ++ tok) rest.
Proof.
  revert cur. induction tok as [|c tok IH]; intros cur Hns; simpl.
  - now rewrite append_empty_r.
  - simpl in Hns. apply andb_true_iff in Hns. destruct Hns as [Hc Hns].
    apply negb_true_iff in Hc. rewrite Hc.
    rewrite (IH _ Hns). now rewrite append_String_assoc.
Qed.

Lemma bearer_token_second_word (tok rest : string) :
  no_space tok = true ->
  rest = "" \/ (exists junk, rest = " " ++ junk) ->
  bearer_token ("Bearer " ++ tok ++ rest) = Some tok.
Proof.
  intros Hns Hrest. unfold bearer_token, split_space. simpl.
  rewrite (@split_space_aux_word tok "" rest Hns). simpl.
  destruct Hrest as [-> | [junk ->]]; reflexivity.
Qed.

(** X1. The scheme is matched with its case and a single space; the
    token handed to [jwt.verify] is the text between the first and the
    second space of the header, and whatever follows a second space is
    ignored. *)
Theorem authenticate_reads_the_second_word :
  forall (jwt_verify : string -> Verified) (db : DB) (req : Request),
    (forall h,
       authorization req = Some h ->
       prefix "Bearer " h = false ->
       authenticate jwt_verify db req
       = NextErr (APIError
           "Authentication required. Please provide a valid token." 401)) /\
    (forall tok rest,
       authorization req = Some ("Bearer " ++ tok ++ rest) ->
       no_space tok = true ->
       tok <> "" ->
       rest = "" \/ (exists junk, rest = " " ++ junk) ->
       authenticate jwt_verify db req
       = match jwt_verify tok with
         | Payload d => authenticate_decoded db req d
         | Throw e => authenticate_catch e
         end) /\
    (forall rest,
       authorization req = Some ("Bearer  " ++ rest) ->
       authenticate jwt_verify db req
       = NextErr (APIError
           "Authentication required. Please provide a valid token." 401)).
Proof.
  intros jwt_verify db req. split; [|split].
  - intros h Hh Hp. unfold authenticate. now rewrite Hh, Hp.
  - intros tok rest Hh Hns Hne Hrest. unfold authenticate. rewrite Hh.
    assert (Hp : prefix "Bearer " ("Bearer " ++ tok ++ rest) = true)
      by (simpl; destruct (tok ++ rest); reflexivity).
    rewrite Hp, (@bearer_token_second_word tok rest Hns Hrest). simpl.
    destruct tok as [|c tok]; [congruence | reflexivity].
  - intros rest Hh. unfold authenticate. rewrite Hh. reflexivity.
Qed.

Lemma authenticate_reads_the_second_word_witness :
  authenticate Sample.jwt_verify Sample.db0
    (Sample.request (Some "bearer jwt-alice") [])
  = NextErr (APIError
      "Authentication required. Please provide a valid token." 401) /\
  authenticate Sample.jwt_verify Sample.db0
    (Sample.request (Some "Bearer jwt-alice and more") [])
  = authenticate_decoded Sample.db0
      (Sample.request (Some "Bearer jwt-alice and more") [])
      (mkDecoded "u-alice" "alice" None) /\
  authenticate Sample.jwt_verify Sample.db0
    (Sample.request (Some "Bearer  jwt-alice") [])
  = NextErr (APIError
      "Authentication required. Please provide a valid token." 401).
Proof.
  destruct (@authenticate_reads_the_second_word Sample.jwt_verify
              Sample.db0 (Sample.request (Some "bearer jwt-alice") []))
    as [H1 _].
  destruct (@authenticate_reads_the_second_word Sample.jwt_verify
              Sample.db0
              (Sample.request (Some "Bearer jwt-alice and more") []))
    as [_ [H2 _]].
  destruct (@authenticate_reads_the_second_word Sample.jwt_verify
              Sample.db0 (Sample.request (Some "Bearer  jwt-alice") []))
    as [_ [_ H3]].
  split; [|split].
  - apply (H1 "bearer jwt-alice"); reflexivity.
  - rewrite (H2 "jwt-alice" " and more"); try reflexivity.
    + discriminate.
    + right. exists "and more". reflexivity.
  - apply (H3 "jwt-alice"). reflexivity.
Defined.

Lemma populate_roles_In (ids : list ObjectId) (db : DB) (r : Role) :
  In r (Query.populate_roles ids db) <->
  In (r_id r) ids /\ Query.Role_findById (r_id r) db = Some r.
Proof.
  unfold Query.populate_roles. rewrite in_flat_map. split.
  - intros [i [Hi Hr]].
    destruct (Query.Role_findById i db) as [r'|] eqn:Hf; [|destruct Hr].
    destruct Hr as [<-|[]].
    destruct (Role_findById_id _ _ Hf) as [_ Hid]. subst i. now split.
  - intros [Hi Hf]. exists (r_id r). split; [exact Hi|].
    rewrite Hf. now left.
Qed.

Lemma UserService_findOne_In (uid : ObjectId) (sid : option ObjectId)
    (db : DB) (g : UserService) :
  Query.UserService_findOne uid sid db = Some g ->
  In g (userServices db) /\ us_userId g = uid /\ us_serviceId g = sid.
Proof.
  unfold Query.UserService_findOne. intros H. apply find_some in H.
  destruct H as [Hin Heq]. apply andb_true_iff in Heq.
  destruct Heq as [H1 H2]. apply String.eqb_eq in H1.
  apply oid_eqb_eq in H2. now repeat split.
Qed.

(** X3. Whoever [authenticate] lets through is a stored, active
    principal, and every role of the candidate set it attaches is a
    stored role that one of that principal's own grants references; the
    gate that follows never finds the role set missing. *)
Theorem authenticate_roles_come_from_own_grants :
  forall (jwt_verify : string -> Verified) (db : DB) (req req' : Request),
    authenticate jwt_verify db req = Next req' ->
    exists user userRoles,
      req_user req' = Some user /\
      In user (users db) /\
      u_status user = "active" /\
      req_userRoles req' = Some userRoles /\
      (forall r,
         In r userRoles ->
         In r (roles db) /\
         exists g, In g (userServices db) /\
                   us_userId g = u_id user /\
                   In (r_id r) (us_roles g)) /\
      (forall p,
         hasPermission p req' <> NextErr (APIError "User roles not found." 500))
      /\ body req' = body req.
Proof.
  intros jwt_verify db req req' Hres.
  destruct (authenticate_Next_verified _ _ _ Hres) as [d Hv].
  rewrite (authenticate_verified db Hv) in Hres.
  unfold authenticate_decoded in Hres.
  destruct (Query.User_findById (d_id d) db) as [user|] eqn:Hu;
    [|discriminate].
  destruct (negb (u_status user =? "active")) eqn:Hst; [discriminate|].
  apply status_active_dec in Hst.
  destruct (User_findById_id _ _ Hu) as [Hin _].
  assert (Hgate : forall rq rs p,
            req_userRoles rq = Some rs ->
            hasPermission p rq
            <> NextErr (APIError "User roles not found." 500)).
  { intros rq rs p Hrs. unfold hasPermission. rewrite Hrs.
    destruct (existsb _ rs); [discriminate|].
    destruct (negb (existsb _ rs)); discriminate. }
  destruct (truthy_id (d_serviceId d)) as [sid|].
  - destruct (Query.Service_findById sid db) as [service|]; [|discriminate].
    destruct (negb (active service)); [discriminate|].
    destruct (Query.UserService_findOne (u_id user) (Some (s_id service)) db)
      as [g|] eqn:Hg; [|discriminate].
    destruct (negb (us_status g =? "active")); [discriminate|].
    injection Hres as <-.
    exists user, (Query.populate_roles (us_roles g) db).
    repeat split; try assumption; try reflexivity.
    + apply populate_roles_In in H. destruct H as [_ Hf].
      now apply Role_findById_id in Hf.
    + apply populate_roles_In in H. destruct H as [Hi _].
      destruct (UserService_findOne_In _ _ _ Hg) as [Hgin [Hgu _]].
      exists g. now repeat split.
    + intros p. now apply (Hgate _ (Query.populate_roles (us_roles g) db)).
  - injection Hres as <-.
    exists user, (Query.Role_find_global_in
                    (Query.UserService_distinct_roles (u_id user) db) db).
    repeat split; try assumption; try reflexivity.
    + apply Role_find_global_in_In in H. tauto.
    + apply Role_find_global_in_In in H. destruct H as [_ [Hi _]].
      now apply UserService_distinct_roles_In in Hi.
    + intros p.
      now apply (Hgate _ (Query.Role_find_global_in
                    (Query.UserService_distinct_roles (u_id user) db) db)).
Qed.

Lemma authenticate_roles_come_from_own_grants_witness :
  exists req' user userRoles,
    authenticate Sample.jwt_verify Sample.db0
      (Sample.request (Some "Bearer jwt-alice-billing") []) = Next req' /\
    req_user req' = Some user /\
    In user (users Sample.db0) /\
    u_status user = "active" /\
    req_userRoles req' = Some userRoles /\
    (forall r,
       In r userRoles ->
       In r (roles Sample.db0) /\
       exists g, In g (userServices Sample.db0) /\
                 us_userId g = u_id user /\
                 In (r_id r) (us_roles g)) /\
    (forall p,
       hasPermission p req' <> NextErr (APIError "User roles not found." 500))
    /\ body req' = body (Sample.request (Some "Bearer jwt-alice-billing") []).
Proof.
  eexists.
  destruct (@authenticate_roles_come_from_own_grants Sample.jwt_verify
              Sample.db0
              (Sample.request (Some "Bearer jwt-alice-billing") []) _
              eq_refl) as [user [userRoles H]].
  exists user, userRoles. split; [reflexivity | exact H].
Defined.

(** X4. In tenant scope the candidate role set is read off the one
    grant of the pair: it holds exactly the stored roles whose id the
    grant lists (for an id, the first stored document with it), be they
    global or not and whatever service they belong to. *)
Theorem tenant_scope_candidate_roles :
  forall (jwt_verify : string -> Verified) (db : DB) (req : Request)
         (d : Decoded) (user : User) (sid : ObjectId) (service : Service)
         (grant : UserService),
    verified_request jwt_verify req d ->
    Query.User_findById (d_id d) db = Some user ->
    u_status user = "active" ->
    truthy_id (d_serviceId d) = Some sid ->
    Query.Service_findById sid db = Some service ->
    active service = true ->
    Query.UserService_findOne (u_id user) (Some (s_id service)) db
      = Some grant ->
    us_status grant = "active" ->
    exists req' userRoles,
      authenticate jwt_verify db req = Next req' /\
      req' = with_userRoles
               (with_userService (with_service (with_user req user) service)
                                 (grant, userRoles))
               userRoles /\
      req_user req' = Some user /\
      req_service req' = Some service /\
      req_userService req' = Some (grant, userRoles) /\
      req_userRoles req' = Some userRoles /\
      forall r,
        In r userRoles <->
        (In (r_id r) (us_roles grant) /\
         Query.Role_findById (r_id r) db = Some r).
Proof.
  intros jwt_verify db req d user sid service grant Hv Hu Hst Hsid Hs Hact
         Hg Hgs.
  eexists. exists (Query.populate_roles (us_roles grant) db).
  split; [|split; [reflexivity|repeat (split; [reflexivity|])]].
  - rewrite (authenticate_verified db Hv). unfold authenticate_decoded.
    rewrite Hu, Hst, Hsid, Hs, Hact. simpl. rewrite Hg, Hgs. reflexivity.
  - intros r. apply populate_roles_In.
Qed.

Lemma tenant_scope_candidate_roles_witness :
  exists req' userRoles,
    authenticate Sample.jwt_verify Sample.db0
      (Sample.request (Some "Bearer jwt-alice-billing") []) = Next req' /\
    req' = with_userRoles
             (with_userService
                (with_service
                   (with_user
                      (Sample.request (Some "Bearer jwt-alice-billing") [])
                      Sample.alice)
                   Sample.billing)
                (Sample.alice_billing, userRoles))
             userRoles /\
    req_user req' = Some Sample.alice /\
    req_service req' = Some Sample.billing /\
    req_userService req' = Some (Sample.alice_billing, userRoles) /\
    req_userRoles req' = Some userRoles /\
    forall r,
      In r userRoles <->
      (In (r_id r) (us_roles Sample.alice_billing) /\
       Query.Role_findById (r_id r) Sample.db0 = Some r).
Proof.
  apply (@tenant_scope_candidate_roles Sample.jwt_verify Sample.db0
           (Sample.request (Some "Bearer jwt-alice-billing") [])
           (mkDecoded "u-alice" "alice" (Some "s-billing"))
           Sample.alice "s-billing" Sample.billing Sample.alice_billing);
    try reflexivity.
  exists "Bearer jwt-alice-billing", "jwt-alice-billing".
  repeat split; try reflexivity. discriminate.
Defined.

(* ================================================================== *)
(** ** The gates *)
(* ================================================================== *)

Lemma includes_In (p : string) (l : list string) :
  existsb (String.eqb p) l = true <-> In p l.
Proof. exact (mem_id_In p l). Qed.

(** X5. With a role set attached, [hasPermission(p)] lets the request
    through exactly when some role of the set is named admin or lists
    [p] among its permissions; otherwise it answers 403 and names the
    missing permission. The request goes on unchanged. *)
Theorem hasPermission_decision :
  forall (p : string) (req : Request) (userRoles : list Role),
    req_userRoles req = Some userRoles ->
    (hasPermission p req = Next req <->
     exists r, In r userRoles /\
               (r_name r = "admin" \/ In p (permissions r))) /\
    (hasPermission p req = Next req \/
     hasPermission p req
     = NextErr (APIError ("Access denied. Missing permission: " ++ p) 403)).
Proof.
  intros p req userRoles Hrs. unfold hasPermission. rewrite Hrs.
  destruct (existsb (fun role => r_name role =? "admin") userRoles)
    eqn:Hadmin.
  - split; [|now left]. split; [|reflexivity]. intros _.
    apply existsb_exists in Hadmin. destruct Hadmin as [r [Hin Hn]].
    exists r. split; [exact Hin|]. left. now apply String.eqb_eq.
  - destruct (existsb (fun role => existsb (String.eqb p) (permissions role))
                      userRoles) eqn:Hperm; simpl.
    + split; [|now left]. split; [|reflexivity]. intros _.
      apply existsb_exists in Hperm. destruct Hperm as [r [Hin Hp]].
      exists r. split; [exact Hin|]. right. now apply includes_In.
    + split; [|now right]. split; [discriminate|].
      intros [r [Hin [Hn|Hp]]]; exfalso.
      * assert (H : existsb (fun role => r_name role =? "admin") userRoles
                    = true).
        { apply existsb_exists. exists r. split; [exact Hin|].
          now apply String.eqb_eq. }
        congruence.
      * assert (H : existsb (fun role => existsb (String.eqb p)
                                                 (permissions role))
                            userRoles = true).
        { apply existsb_exists. exists r. split; [exact Hin|].
          now apply includes_In. }
        congruence.
Qed.

(** Alice in billing scope (clerk, auditor): she may read invoices and
    may not delete users. *)
Lemma hasPermission_decision_witness :
  let req :=
    with_userRoles (Sample.request None [])
                   [Sample.clerk_role; Sample.auditor_role] in
  hasPermission "invoice:read" req = Next req /\
  hasPermission "user:delete" req
  = NextErr (APIError "Access denied. Missing permission: user:delete" 403).
Proof.
  intros req.
  destruct (@hasPermission_decision "invoice:read" req
              [Sample.clerk_role; Sample.auditor_role] eq_refl)
    as [[_ Hyes] _].
  destruct (@hasPermission_decision "user:delete" req
              [Sample.clerk_role; Sample.auditor_role] eq_refl)
    as [[Hno _] Hcases].
  split.
  - apply Hyes. exists Sample.clerk_role. split; [now left|].
    right. now left.
  - destruct Hcases as [Hpass|Hdeny]; [|exact Hdeny].
    exfalso. destruct (Hno Hpass) as [r [Hin [Hn|Hp]]];
      simpl in Hin; destruct Hin as [<-|[<-|[]]];
      try discriminate Hn; simpl in Hp;
      repeat (destruct Hp as [Hp|Hp]; [discriminate Hp|]); exact Hp.
Defined.

(** X6. [hasRole(name)] lets the request through exactly when a role of
    that name is in the attached set (403 naming the role otherwise);
    whoever passes [hasRole('admin')] passes [hasPermission(p)] for
    every [p]. *)
Theorem hasRole_decision :
  forall (roleName : string) (req : Request) (userRoles : list Role),
    req_userRoles req = Some userRoles ->
    (hasRole roleName req = Next req <->
     exists r, In r userRoles /\ r_name r = roleName) /\
    (hasRole roleName req = Next req \/
     hasRole roleName req
     = NextErr (APIError ("Access denied. Missing role: " ++ roleName) 403))
    /\
    (hasRole "admin" req = Next req ->
     forall p, hasPermission p req = Next req).
Proof.
  intros roleName req userRoles Hrs.
  assert (Hiff : forall n,
            hasRole n req = Next req <->
            exists r, In r userRoles /\ r_name r = n).
  { intros n. unfold hasRole. rewrite Hrs.
    destruct (existsb (fun role => r_name role =? n) userRoles) eqn:Hex;
      simpl.
    - split; [|reflexivity]. intros _. apply existsb_exists in Hex.
      destruct Hex as [r [Hin Hn]]. exists r. split; [exact Hin|].
      now apply String.eqb_eq.
    - split; [discriminate|]. intros [r [Hin Hn]]. exfalso.
      assert (H : existsb (fun role => r_name role =? n) userRoles = true).
      { apply existsb_exists. exists r. split; [exact Hin|].
        now apply String.eqb_eq. }
      congruence. }
  split; [apply Hiff|]. split.
  - unfold hasRole. rewrite Hrs.
    destruct (existsb _ userRoles); simpl; [now left | now right].
  - intros Hadmin p. apply Hiff in Hadmin. destruct Hadmin as [r [Hin Hn]].
    exact (@admin_name_bypasses p req userRoles r Hrs Hin Hn).
Qed.

Lemma hasRole_decision_witness :
  let req :=
    with_userRoles (Sample.request None []) [Sample.billing_admin_role] in
  hasRole "admin" req = Next req /\
  hasRole "clerk" req
  = NextErr (APIError "Access denied. Missing role: clerk" 403) /\
  hasPermission "service:delete" req = Next req.
Proof.
  intros req.
  destruct (@hasRole_decision "admin" req [Sample.billing_admin_role]
              eq_refl) as [[_ Hyes] [_ Hall]].
  destruct (@hasRole_decision "clerk" req [Sample.billing_admin_role]
              eq_refl) as [[Hno _] [Hcases _]].
  assert (Hadmin : hasRole "admin" req = Next req).
  { apply Hyes. exists Sample.billing_admin_role. split; [now left|].
    reflexivity. }
  split; [exact Hadmin|]. split; [|now apply Hall].
  destruct Hcases as [Hpass|Hdeny]; [|exact Hdeny].
  exfalso. destruct (Hno Hpass) as [r [[<-|[]] Hn]]. discriminate Hn.
Defined.

(* ================================================================== *)
(** ** Service credentials *)
(* ================================================================== *)

Lemma or_else_None_Some (a : option string) (s : string) :
  or_else a None = Some s <-> a = Some s /\ s <> "".
Proof.
  unfold or_else. destruct a as [x|]; [|split; [discriminate|intros [H _]; discriminate]].
  destruct (x =? "") eqn:Hx.
  - apply String.eqb_eq in Hx. subst x.
    split; [discriminate|]. intros [H Hne]. injection H as <-. congruence.
  - apply String.eqb_neq in Hx. split.
    + intros H. injection H as <-. now split.
    + intros [H _]. exact H.
Qed.

(** X7. [authenticateService] lets a request through exactly when both
    headers are present and not empty, the first stored service with
    that API key has that API secret and is active; that service is then
    attached to the request. A wrong secret is answered 401 whether the
    service is active or not. *)
Theorem authenticateService_decision :
  forall (x_api_key x_api_secret : option string) (db : DB)
         (req req' : Request),
    (authenticateService x_api_key x_api_secret db req = Next req' <->
     exists key secret service,
       x_api_key = Some key /\ key <> "" /\
       x_api_secret = Some secret /\ secret <> "" /\
       find (fun s => apiKey s =? key) (services db) = Some service /\
       apiSecret service = secret /\
       active service = true /\
       req' = with_service req service /\
       req_service req' = Some service) /\
    (forall key secret service,
       x_api_key = Some key -> key <> "" ->
       x_api_secret = Some secret -> secret <> "" ->
       find (fun s => apiKey s =? key) (services db) = Some service ->
       apiSecret service <> secret ->
       authenticateService x_api_key x_api_secret db req
       = NextErr (APIError "Invalid API secret." 401)).
Proof.
  intros x_api_key x_api_secret db req req'. split.
  - unfold authenticateService. split.
    + destruct (or_else x_api_key None) as [key|] eqn:Hk; [|discriminate].
      destruct (or_else x_api_secret None) as [secret|] eqn:Hs;
        [|discriminate].
      apply or_else_None_Some in Hk, Hs.
      destruct Hk as [-> Hkne]. destruct Hs as [-> Hsne].
      destruct (find _ (services db)) as [service|] eqn:Hf; [|discriminate].
      destruct (apiSecret service =? secret) eqn:Hsec; [|discriminate].
      destruct (active service) eqn:Hact; [|discriminate]. simpl.
      intros H. injection H as <-. apply String.eqb_eq in Hsec.
      exists key, secret, service. now repeat split.
    + intros [key [secret [service
                [-> [Hkne [-> [Hsne [Hf [Hsec [Hact [-> _]]]]]]]]]]].
      rewrite (proj2 (or_else_None_Some (Some key) key) (conj eq_refl Hkne)).
      rewrite (proj2 (or_else_None_Some (Some secret) secret)
                     (conj eq_refl Hsne)).
      rewrite Hf. subst secret. rewrite String.eqb_refl, Hact. reflexivity.
  - intros key secret service -> Hkne -> Hsne Hf Hsec.
    unfold authenticateService.
    rewrite (proj2 (or_else_None_Some (Some key) key) (conj eq_refl Hkne)).
    rewrite (proj2 (or_else_None_Some (Some secret) secret)
                   (conj eq_refl Hsne)).
    rewrite Hf. apply String.eqb_neq in Hsec. now rewrite Hsec.
Qed.

Lemma authenticateService_decision_witness :
  authenticateService (Some "toc_billing_1") (Some "toc_secret_1")
    Sample.db0 (Sample.request None [])
  = Next (with_service (Sample.request None []) Sample.billing) /\
  authenticateService (Some "toc_billing_1") (Some "guess")
    Sample.db0 (Sample.request None [])
  = NextErr (APIError "Invalid API secret." 401).
Proof.
  split.
  - apply (proj1 (@authenticateService_decision (Some "toc_billing_1")
                    (Some "toc_secret_1") Sample.db0
                    (Sample.request None [])
                    (with_service (Sample.request None []) Sample.billing))).
    exists "toc_billing_1", "toc_secret_1", Sample.billing.
    repeat split; discriminate.
  - apply (proj2 (@authenticateService_decision (Some "toc_billing_1")
                    (Some "guess") Sample.db0
                    (Sample.request None []) (Sample.request None []))
             "toc_billing_1" "guess" Sample.billing);
      try reflexivity; discriminate.
Defined.

(* ================================================================== *)
(** ** The refresh path *)
(* ================================================================== *)

Lemma same_but_tokens_refl (db : DB) : same_but_tokens db db.
Proof. unfold same_but_tokens. tauto. Qed.

Lemma authenticateRefreshToken_found_fst (now : Z) (db : DB) (req : Request)
    (found : option Token) :
  fst (authenticateRefreshToken_found now db req found) = db.
Proof.
  unfold authenticateRefreshToken_found.
  destruct found as [tokenDoc|]; [|reflexivity].
  destruct (Query.isExpired tokenDoc now); [reflexivity|].
  destruct (Query.User_findById (t_userId tokenDoc) db) as [user|];
    [|reflexivity].
  now destruct (negb (u_status user =? "active")).
Qed.

(** The credential that was found is good: the request goes on with its
    user and with the credential itself. *)
Lemma authenticateRefreshToken_found_accepts (now : Z) (db : DB)
    (req : Request) (tokenDoc : Token) (user : User) :
  (now <= expiresAt tokenDoc)%Z ->
  Query.User_findById (t_userId tokenDoc) db = Some user ->
  u_status user = "active" ->
  exists req',
    authenticateRefreshToken_found now db req (Some tokenDoc)
    = (db, Next req') /\
    req_user req' = Some user /\
    req_token req' = Some tokenDoc /\
    body req' = body req.
Proof.
  intros Hle Hu Hact. unfold authenticateRefreshToken_found.
  assert (Hexp : Query.isExpired tokenDoc now = false)
    by (unfold Query.isExpired; now apply Z.ltb_ge).
  rewrite Hexp, Hu, Hact. simpl. eexists. split; [reflexivity|].
  destruct (truthy_id (t_serviceId tokenDoc)) as [sid|];
    [|repeat split].
  destruct (Query.Service_findById sid db) as [service|]; [|repeat split].
  destruct (active service); repeat split.
Qed.

(** X8. [authenticateRefreshToken] never writes to the store, whatever
    the body. An expired credential, and one whose user is no longer
    stored, are not removed: the call that would delete them throws,
    the request ends in a TypeError that is answered 500, and the
    credential stays. A credential is still accepted at the very
    instant of its expiry, and the credential of a principal that is not
    active is refused (403). A value that is not a string is looked up
    as Mongoose reads it: when it reads a condition, the first refresh
    credential that meets the condition is accepted like a presented
    one. *)
Theorem authenticateRefreshToken_never_writes :
  forall (String_filter : Js.value -> Error + (string -> bool)) (now : Z)
         (db : DB) (req : Request),
    fst (authenticateRefreshToken String_filter now db req) = db /\
    (forall v tokenDoc,
       Js.get "refreshToken" (body req) = Some (Js.Str v) ->
       v <> "" ->
       Query.Token_findOne v "refresh" db = Some tokenDoc ->
       ((expiresAt tokenDoc < now)%Z \/
        Query.User_findById (t_userId tokenDoc) db = None ->
        authenticateRefreshToken String_filter now db req
        = (db, NextErr delete_is_not_a_function) /\
        errorHandler_status delete_is_not_a_function = 500%Z /\
        In tokenDoc (tokens db)) /\
       (forall user,
          (now <= expiresAt tokenDoc)%Z ->
          Query.User_findById (t_userId tokenDoc) db = Some user ->
          (u_status user <> "active" ->
           authenticateRefreshToken String_filter now db req
           = (db, NextErr (APIError "User account is not active." 403))) /\
          (u_status user = "active" ->
           exists req',
             authenticateRefreshToken String_filter now db req
             = (db, Next req') /\
             req_user req' = Some user /\
             req_token req' = Some tokenDoc))) /\
    (forall v p tokenDoc user,
       Js.get "refreshToken" (body req) = Some v ->
       Js.truthy v = true ->
       (forall s, v <> Js.Str s) ->
       String_filter v = inr p ->
       Query.Token_findOne_where p "refresh" db = Some tokenDoc ->
       (now <= expiresAt tokenDoc)%Z ->
       Query.User_findById (t_userId tokenDoc) db = Some user ->
       u_status user = "active" ->
       exists req',
         authenticateRefreshToken String_filter now db req
         = (db, Next req') /\
         req_user req' = Some user /\
         req_token req' = Some tokenDoc).
Proof.
  intros F now db req. split; [|split].
  - unfold authenticateRefreshToken.
    destruct (Js.get "refreshToken" (body req)) as [v|]; [|reflexivity].
    destruct (negb (Js.truthy v)); [reflexivity|].
    destruct v; try (destruct (F _); [reflexivity|]);
      apply authenticateRefreshToken_found_fst.
  - intros v tokenDoc Hb Hne Hf.
    rewrite (@authenticateRefreshToken_string F now db req v Hb Hne), Hf.
    split.
    + intros Hbad. split; [|split; [reflexivity|]].
      * unfold authenticateRefreshToken_found, Query.isExpired.
        destruct (expiresAt tokenDoc <? now)%Z eqn:Hexp; [reflexivity|].
        destruct Hbad as [Hlt|Hnone].
        -- apply Z.ltb_ge in Hexp. lia.
        -- now rewrite Hnone.
      * now apply Token_findOne_In in Hf.
    + intros user Hle Hu. split.
      * intros Hst. unfold authenticateRefreshToken_found, Query.isExpired.
        apply Z.ltb_ge in Hle. rewrite Hle, Hu.
        apply String.eqb_neq in Hst. now rewrite Hst.
      * intros Hact.
        destruct (@authenticateRefreshToken_found_accepts now db req
                    tokenDoc user Hle Hu Hact) as [req' [H1 [H2 [H3 _]]]].
        now exists req'.
  - intros v p tokenDoc user Hb Htr Hns Hp Hf Hle Hu Hact.
    destruct (@authenticateRefreshToken_found_accepts now db req
                tokenDoc user Hle Hu Hact) as [req' [H1 [H2 [H3 _]]]].
    exists req'. split; [|now split].
    unfold authenticateRefreshToken. rewrite Hb, Htr. simpl.
    destruct v; try (rewrite Hp, Hf; exact H1).
    exfalso. now apply (Hns s).
Qed.

(** Bob's refresh token at the instant of its expiry and one instant
    later; Dave, who is suspended; and a body that carries the operator
    [{ $ne: '' }] in the place of a token, which is accepted as Alice's
    first refresh credential. *)
Lemma authenticateRefreshToken_never_writes_witness :
  (exists req',
     authenticateRefreshToken SampleTokens.String_filter 1000 Sample2.db1
       (Sample.request None [("refreshToken", Js.Str "refresh-bob")])
     = (Sample2.db1, Next req') /\
     req_user req' = Some Sample.bob /\
     req_token req' = Some Sample.bob_refresh) /\
  (authenticateRefreshToken SampleTokens.String_filter 1001 Sample2.db1
     (Sample.request None [("refreshToken", Js.Str "refresh-bob")])
   = (Sample2.db1, NextErr delete_is_not_a_function) /\
   In Sample.bob_refresh (tokens Sample2.db1)) /\
  authenticateRefreshToken SampleTokens.String_filter 10 Sample2.db1
    (Sample.request None [("refreshToken", Js.Str "refresh-dave")])
  = (Sample2.db1, NextErr (APIError "User account is not active." 403)) /\
  (exists req',
     authenticateRefreshToken SampleTokens.String_filter 10 Sample2.db1
       SampleTokens.any_token
     = (Sample2.db1, Next req') /\
     req_user req' = Some Sample.alice /\
     req_token req' = Some Sample.alice_refresh).
Proof.
  pose proof (@authenticateRefreshToken_never_writes
                SampleTokens.String_filter) as H.
  split; [|split; [|split]].
  - destruct (H 1000%Z Sample2.db1
                (Sample.request None [("refreshToken", Js.Str "refresh-bob")]))
      as [_ [Hs _]].
    destruct (Hs "refresh-bob" Sample.bob_refresh eq_refl) as [_ Hgood];
      [discriminate | reflexivity |].
    destruct (Hgood Sample.bob) as [_ Hok]; [simpl; lia | reflexivity |].
    exact (Hok eq_refl).
  - destruct (H 1001%Z Sample2.db1
                (Sample.request None [("refreshToken", Js.Str "refresh-bob")]))
      as [_ [Hs _]].
    destruct (Hs "refresh-bob" Sample.bob_refresh eq_refl) as [Hbad _];
      [discriminate | reflexivity |].
    destruct Hbad as [Hrun [_ Hin]]; [left; simpl; lia|].
    now split.
  - destruct (H 10%Z Sample2.db1
                (Sample.request None [("refreshToken", Js.Str "refresh-dave")]))
      as [_ [Hs _]].
    destruct (Hs "refresh-dave" Sample2.dave_refresh eq_refl) as [_ Hgood];
      [discriminate | reflexivity |].
    destruct (Hgood Sample2.dave) as [Hno _]; [simpl; lia | reflexivity |].
    apply Hno. discriminate.
  - destruct (H 10%Z Sample2.db1 SampleTokens.any_token) as [_ [_ Hop]].
    apply (Hop (Js.Obj [("$ne", Js.Str "")])
               (fun stored => negb (stored =? ""))
               Sample.alice_refresh Sample.alice);
      try reflexivity; try discriminate.
Defined.

(** X9. The exchange of a refresh credential never consults the grants
    or the roles: with any grants and roles in the store, a stored,
    unexpired refresh credential of an active principal is exchanged
    for an access token of that principal, scoped to the tenant of the
    credential when that tenant is stored and active and to no tenant
    otherwise. (The request reaches the middleware with no service
    attached, as it does on the route.) *)
Theorem refresh_exchange_ignores_grants :
  forall (String_filter : Js.value -> Error + (string -> bool))
         (jwt_sign : Decoded -> string) (now : Z) (db : DB) (req : Request)
         (v : string) (tokenDoc : Token) (user : User)
         (grants : list UserService) (rs : list Role),
    req_service req = None ->
    Js.get "refreshToken" (body req) = Some (Js.Str v) ->
    v <> "" ->
    Query.Token_findOne v "refresh" db = Some tokenDoc ->
    (now <= expiresAt tokenDoc)%Z ->
    Query.User_findById (t_userId tokenDoc) db = Some user ->
    u_status user = "active" ->
    let db' := set_roles (set_userServices db grants) rs in
    exists req',
      authenticateRefreshToken String_filter now db' req = (db', Next req') /\
      refreshToken jwt_sign db' req'
      = (db',
         Json 200 (Js.Obj
           [("success", Js.Bool true);
            ("token",
             Js.Str (jwt_sign (mkDecoded (u_id user) (username user)
                                         (exchange_scope tokenDoc db))));
            ("user", Js.Obj [("_id", Js.Str (u_id user));
                             ("username", Js.Str (username user));
                             ("email", Js.Str (email user));
                             ("displayName", Js.Str (displayName user))])])).
Proof.
  intros F jwt_sign now db req v tokenDoc user grants rs Hrs Hb Hne Hf Hle Hu
         Hact db'.
  assert (Hf' : Query.Token_findOne v "refresh" db' = Some tokenDoc)
    by exact Hf.
  assert (Hu' : Query.User_findById (t_userId tokenDoc) db' = Some user)
    by exact Hu.
  assert (Hexp : Query.isExpired tokenDoc now = false).
  { unfold Query.isExpired. apply Z.ltb_ge. exact Hle. }
  rewrite (@authenticateRefreshToken_string F now db' req v Hb Hne).
  unfold authenticateRefreshToken_found.
  rewrite Hf', Hexp, Hu', Hact. simpl.
  eexists. split; [reflexivity|].
  unfold refreshToken, generateToken, exchange_scope, truthy_id.
  destruct (t_serviceId tokenDoc) as [sid|]; [|simpl; now rewrite Hrs].
  destruct (sid =? ""); [simpl; now rewrite Hrs|].
  change (Query.Service_findById sid db')
    with (Query.Service_findById sid db).
  destruct (Query.Service_findById sid db) as [service|];
    [|simpl; now rewrite Hrs].
  destruct (active service); [reflexivity | simpl; now rewrite Hrs].
Qed.

(** Alice's second refresh credential was issued for billing. With her
    billing grant gone it is still exchanged for a billing token. *)
Lemma refresh_exchange_ignores_grants_witness :
  let db' := set_roles (set_userServices Sample.db0 []) [] in
  exists req',
    authenticateRefreshToken SampleTokens.String_filter 50 db'
      (Sample.request None [("refreshToken", Js.Str "refresh-alice-2")])
    = (db', Next req') /\
    refreshToken Sample.jwt_sign db' req'
    = (db',
       Json 200 (Js.Obj
         [("success", Js.Bool true);
          ("token",
           Js.Str (Sample.jwt_sign
                     (mkDecoded "u-alice" "alice" (Some "s-billing"))));
          ("user", Js.Obj [("_id", Js.Str "u-alice");
                           ("username", Js.Str "alice");
                           ("email", Js.Str "alice@x.com");
                           ("displayName", Js.Str "Alice")])])).
Proof.
  apply (@refresh_exchange_ignores_grants SampleTokens.String_filter
           Sample.jwt_sign 50 Sample.db0
           (Sample.request None [("refreshToken", Js.Str "refresh-alice-2")])
           "refresh-alice-2" Sample.alice_refresh2 Sample.alice [] []);
    try reflexivity; discriminate.
Defined.

(* ================================================================== *)
(** ** Verification and password-reset credentials *)
(* ================================================================== *)

Lemma User_findById_save (u old : User) (db : DB) :
  Query.User_findById (u_id u) db = Some old ->
  Query.User_findById (u_id u) (User_save u db) = Some u.
Proof.
  unfold Query.User_findById, User_save. simpl.
  induction (users db) as [|x l IH]; simpl; [discriminate|].
  destruct (u_id x =? u_id u) eqn:Hx.
  - intros _. simpl. now rewrite String.eqb_refl.
  - intros H. simpl. rewrite Hx. now apply IH.
Qed.








(** X12. A new password shorter than eight characters is refused by the
    save (validation error, answered 400) and nothing has been written:
    the reset credential is still stored and can be used again. *)
Theorem resetPassword_short_password_keeps_credential :
  forall (bcrypt_hash : string -> string) (now : Z) (db : DB)
         (req : Request) (token : string) (tokenDoc : Token) (user : User)
         (pv : Js.value) (p : string),
    Js.get "password" (body req) = Some pv ->
    Js.truthy pv = true ->
    castString pv = Some p ->
    (js_length p < 8)%nat ->
    param "token" (params req) = Some token ->
    Query.Token_findOne token "password_reset" db = Some tokenDoc ->
    (now <= expiresAt tokenDoc)%Z ->
    Query.User_findById (t_userId tokenDoc) db = Some user ->
    exists e,
      resetPassword bcrypt_hash now db req = (db, NextErr e) /\
      errorHandler_status e = 400%Z /\
      In tokenDoc (tokens db).
Proof.
  intros bcrypt_hash now db req token tokenDoc user pv p
         Hb Htr Hcast Hlen Hp Hf Hle Hu.
  assert (Hexp : Query.isExpired tokenDoc now = false).
  { unfold Query.isExpired. now apply Z.ltb_ge. }
  assert (Hshort : (js_length p <? 8)%nat = true)
    by now apply Nat.ltb_lt.
  unfold resetPassword. rewrite Hb, Htr, Hp, Hf, Hexp, Hu, Hcast, Hshort.
  eexists. split; [reflexivity|]. split; [reflexivity|].
  now apply Token_findOne_In in Hf.
Qed.

Lemma resetPassword_short_password_keeps_credential_witness :
  exists e,
    resetPassword Sample.bcrypt_hash 100 Sample.db0
      (Sample2.link "reset-alice" [("password", Js.Str "short")])
    = (Sample.db0, NextErr e) /\
    errorHandler_status e = 400%Z /\
    In Sample.alice_reset (tokens Sample.db0).
Proof.
  apply (@resetPassword_short_password_keeps_credential Sample.bcrypt_hash
           100 Sample.db0
           (Sample2.link "reset-alice" [("password", Js.Str "short")])
           "reset-alice" Sample.alice_reset Sample.alice
           (Js.Str "short") "short");
    try reflexivity; try discriminate; simpl; lia.
Defined.

(* ================================================================== *)
(** ** Logout and account deletion *)
(* ================================================================== *)

Lemma Token_deleteOne_where_spec (p : string -> bool) (ty : string)
    (l : list Token) :
  NoDup (map t_id l) ->
  forall t,
    In t (Token_deleteOne_where p ty l) <->
    In t l /\
    (find (fun x => p (t_token x) && (t_type x =? ty)) l = Some t ->
     False).
Proof.
  induction l as [|x rest IH]; intros Hnd t; simpl; [tauto|].
  inversion Hnd as [|? ? Hnotin Hnd']; subst.
  destruct (p (t_token x) && (t_type x =? ty)) eqn:Hx.
  - split.
    + intros Hin. split; [now right|]. intros Heq. injection Heq as ->.
      apply Hnotin. now apply in_map.
    + intros [[->|Hin] Hne]; [exfalso; now apply Hne | exact Hin].
  - simpl. rewrite (IH Hnd' t). split.
    + intros [->|[Hin Hne]].
      * split; [now left|]. intros Hf. apply find_some in Hf.
        apply Hnotin. apply in_map. tauto.
      * split; [now right | exact Hne].
    + intros [[->|Hin] Hne]; [now left | right; now split].
Qed.

(** A string is the condition "equal to it". *)
Lemma Token_deleteOne_in_where (v ty : string) (l : list Token) :
  Token_deleteOne_in v ty l
  = Token_deleteOne_where (fun stored => stored =? v) ty l.
Proof.
  induction l as [|x rest IH]; simpl; [reflexivity|]. now rewrite IH.
Qed.

(** One document at most is removed, and it is a refresh credential. *)
Lemma Token_deleteOne_where_cases (p : string -> bool) (ty : string)
    (l : list Token) :
  Token_deleteOne_where p ty l = l \/
  exists before t after,
    l = (before ++ t :: after)%list /\
    Token_deleteOne_where p ty l = (before ++ after)%list /\
    t_type t = ty.
Proof.
  induction l as [|x rest IH]; simpl; [now left|].
  destruct (p (t_token x) && (t_type x =? ty)) eqn:Hx.
  - right. exists [], x, rest. repeat split.
    apply andb_true_iff in Hx. now apply String.eqb_eq.
  - destruct IH as [->|[before [t [after [Hl [Hd Hty]]]]]]; [now left|].
    right. exists (x :: before), t, after. simpl. rewrite Hd.
    repeat split; [now f_equal | exact Hty].
Qed.

(** X13. [logoutUser] changes the token collection only and removes at
    most one document, a refresh credential. With a non-empty string in
    the body it answers 200 and removes the first stored refresh
    credential of that value, whoever owns it and whoever is logged in;
    when one credential only held that value, the value is afterwards
    refused by the refresh path (401). A value that is not a string,
    which the route lets through, is handed to [Token.deleteOne] as
    Mongoose reads it: when it reads a condition, the first refresh
    credential that meets the condition is removed; when it refuses
    the value, its error is forwarded and nothing is removed. *)
Theorem logoutUser_revokes_the_presented :
  forall (String_filter : Js.value -> Error + (string -> bool)) (db : DB)
         (req : Request),
    same_but_tokens (fst (logoutUser String_filter db req)) db /\
    (tokens (fst (logoutUser String_filter db req)) = tokens db \/
     exists before t after,
       tokens db = (before ++ t :: after)%list /\
       tokens (fst (logoutUser String_filter db req))
       = (before ++ after)%list /\
       t_type t = "refresh") /\
    (forall v,
       Js.get "refreshToken" (body req) = Some (Js.Str v) ->
       v <> "" ->
       NoDup (map t_id (tokens db)) ->
       exists db',
         logoutUser String_filter db req
         = (db', Json 200 (Js.Obj (msg true "Logged out successfully"))) /\
         (forall t,
            In t (tokens db') <->
            (In t (tokens db) /\
             Query.Token_findOne v "refresh" db <> Some t)) /\
         ((forall t1 t2, In t1 (tokens db) -> In t2 (tokens db) ->
                         t_token t1 = v -> t_type t1 = "refresh" ->
                         t_token t2 = v -> t_type t2 = "refresh" ->
                         t1 = t2) ->
          forall now,
            authenticateRefreshToken String_filter now db' req
            = (db', NextErr (APIError "Invalid refresh token." 401)))) /\
    (forall v p tokenDoc,
       Js.get "refreshToken" (body req) = Some v ->
       Js.truthy v = true ->
       (forall s, v <> Js.Str s) ->
       String_filter v = inr p ->
       NoDup (map t_id (tokens db)) ->
       Query.Token_findOne_where p "refresh" db = Some tokenDoc ->
       exists db',
         logoutUser String_filter db req
         = (db', Json 200 (Js.Obj (msg true "Logged out successfully"))) /\
         ~ In tokenDoc (tokens db') /\
         forall t, In t (tokens db) -> t <> tokenDoc -> In t (tokens db')) /\
    (forall v e,
       Js.get "refreshToken" (body req) = Some v ->
       Js.truthy v = true ->
       (forall s, v <> Js.Str s) ->
       String_filter v = inl e ->
       logoutUser String_filter db req = (db, NextErr e)).
Proof.
  intros F db req. split; [|split; [|split; [|split]]].
  - unfold logoutUser.
    destruct (Js.get "refreshToken" (body req)) as [v|];
      [|apply same_but_tokens_refl].
    destruct (negb (Js.truthy v)); [apply same_but_tokens_refl|].
    destruct v; try (destruct (F _); [apply same_but_tokens_refl|]);
      unfold same_but_tokens; simpl; tauto.
  - unfold logoutUser.
    destruct (Js.get "refreshToken" (body req)) as [v|]; [|now left].
    destruct (negb (Js.truthy v)); [now left|].
    destruct v; try (destruct (F _) as [e|p]; [now left|]);
      cbn [fst tokens set_tokens];
      try apply Token_deleteOne_where_cases.
    rewrite Token_deleteOne_in_where. apply Token_deleteOne_where_cases.
  - intros v Hb Hne Hnd. unfold logoutUser.
    rewrite Hb, (truthy_Str Hne). cbn [negb].
    eexists. split; [reflexivity|].
    assert (Htok : forall t,
              In t (tokens (set_tokens db
                              (Token_deleteOne_in v "refresh" (tokens db)))) <->
              (In t (tokens db) /\
               Query.Token_findOne v "refresh" db <> Some t)).
    { intros t. cbn [tokens set_tokens]. rewrite Token_deleteOne_in_where.
      rewrite (@Token_deleteOne_where_spec _ "refresh" (tokens db) Hnd t).
      unfold Query.Token_findOne. tauto. }
    split; [exact Htok|].
    intros Huniq now.
    rewrite (@authenticateRefreshToken_string F now _ req v Hb Hne).
    rewrite Token_findOne_None; [reflexivity|].
    intros t Hin Hv Hty. apply Htok in Hin. destruct Hin as [Hin Hnot].
    apply Hnot.
    destruct (Query.Token_findOne v "refresh" db) as [t0|] eqn:Hf.
    + destruct (Token_findOne_In _ _ _ Hf) as [Hin0 [Hv0 Hty0]].
      f_equal. now apply Huniq.
    + exfalso. unfold Query.Token_findOne in Hf.
      apply (find_none _ _ Hf) in Hin. rewrite Hv, Hty in Hin.
      rewrite !String.eqb_refl in Hin. discriminate.
  - intros v p tokenDoc Hb Htr Hns Hp Hnd Hf.
    assert (Hrun : logoutUser F db req
                   = (set_tokens db
                        (Token_deleteOne_where p "refresh" (tokens db)),
                      Json 200 (Js.Obj (msg true "Logged out successfully")))).
    { unfold logoutUser. rewrite Hb, Htr. cbn [negb].
      destruct v; try (now rewrite Hp). exfalso. now apply (Hns s). }
    eexists. split; [exact Hrun|]. cbn [tokens set_tokens]. split.
    + intros Hin.
      apply (@Token_deleteOne_where_spec p "refresh" (tokens db) Hnd) in Hin.
      destruct Hin as [_ Hnot]. now apply Hnot.
    + intros t Hin Hne.
      apply (@Token_deleteOne_where_spec p "refresh" (tokens db) Hnd).
      split; [exact Hin|]. intros Hft. apply Hne.
      unfold Query.Token_findOne_where in Hf. congruence.
  - intros v e Hb Htr Hns He. unfold logoutUser. rewrite Hb, Htr. cbn [negb].
    destruct v; try (now rewrite He). exfalso. now apply (Hns s).
Qed.

(** Bob's refresh token, handed in by whoever is logged in: it is gone,
    and the refresh path refuses it. And a body with the operator
    [{ $ne: '' }] in the place of a token: the first refresh credential
    of the store, Alice's, is gone. *)
Lemma logoutUser_revokes_the_presented_witness :
  (exists db',
     logoutUser SampleTokens.String_filter Sample.db0
       (with_user
          (Sample.request None [("refreshToken", Js.Str "refresh-bob")])
          Sample.alice)
     = (db', Json 200 (Js.Obj (msg true "Logged out successfully"))) /\
     tokens db'
     = [Sample.alice_refresh; Sample.alice_refresh2; Sample.alice_reset] /\
     authenticateRefreshToken SampleTokens.String_filter 10 db'
       (with_user
          (Sample.request None [("refreshToken", Js.Str "refresh-bob")])
          Sample.alice)
     = (db', NextErr (APIError "Invalid refresh token." 401))) /\
  (exists db',
     logoutUser SampleTokens.String_filter Sample.db0
       (with_user SampleTokens.any_token Sample.bob)
     = (db', Json 200 (Js.Obj (msg true "Logged out successfully"))) /\
     ~ In Sample.alice_refresh (tokens db') /\
     In Sample.bob_refresh (tokens db')).
Proof.
  assert (Hnd : NoDup (map t_id (tokens Sample.db0))).
  { simpl. repeat constructor; simpl; intuition discriminate. }
  split.
  - destruct (@logoutUser_revokes_the_presented SampleTokens.String_filter
                Sample.db0
                (with_user
                   (Sample.request None
                      [("refreshToken", Js.Str "refresh-bob")])
                   Sample.alice))
      as [_ [_ [Hs _]]].
    destruct (Hs "refresh-bob" eq_refl) as [db' [Hrun [_ Hrefused]]];
      [discriminate | exact Hnd |].
    exists db'. split; [exact Hrun|]. split.
    + injection Hrun as <-. reflexivity.
    + apply Hrefused. intros t1 t2 H1 H2 Hv1 Hty1 Hv2 Hty2.
      in_cases H1; in_cases H2.
  - destruct (@logoutUser_revokes_the_presented SampleTokens.String_filter
                Sample.db0 (with_user SampleTokens.any_token Sample.bob))
      as [_ [_ [_ [Hop _]]]].
    destruct (Hop (Js.Obj [("$ne", Js.Str "")])
                  (fun stored => negb (stored =? ""))
                  Sample.alice_refresh eq_refl eq_refl)
      as [db' [Hrun [Hgone Hkept]]];
      [discriminate | reflexivity | exact Hnd | reflexivity |].
    exists db'. split; [exact Hrun|]. split; [exact Hgone|].
    apply Hkept; [simpl; tauto | discriminate].
Defined.

(** X14. [deleteUser] never deletes the user whose name is
    [ADMIN_USERNAME] (403, nothing written). Any other stored user is
    deleted together with all of its grants and all of its credentials,
    and with nothing else; a bearer token of that principal that still
    verifies is answered "User not found or token is invalid." (401)
    from then on. *)
Theorem deleteUser_cascades :
  forall (ADMIN_USERNAME : option string) (db : DB) (req : Request)
         (i : ObjectId) (user : User),
    param "id" (params req) = Some i ->
    Query.User_findById i db = Some user ->
    (ADMIN_USERNAME = Some (username user) ->
     deleteUser ADMIN_USERNAME db req
     = (db, NextErr (APIError "Cannot delete admin user" 403))) /\
    (ADMIN_USERNAME <> Some (username user) ->
     exists db',
       deleteUser ADMIN_USERNAME db req
       = (db', Json 200 (Js.Obj (msg true "User deleted successfully"))) /\
       (forall u, In u (users db') <-> In u (users db) /\ u_id u <> i) /\
       (forall g, In g (userServices db') <->
                  In g (userServices db) /\ us_userId g <> i) /\
       (forall t, In t (tokens db') <-> In t (tokens db) /\ t_userId t <> i)
       /\
       services db' = services db /\ roles db' = roles db /\
       auditLogs db' = auditLogs db /\
       (forall (jwt_verify : string -> Verified) (req2 : Request)
               (d : Decoded),
          verified_request jwt_verify req2 d ->
          d_id d = i ->
          authenticate jwt_verify db' req2 = NextErr PrincipalNotFound)).
Proof.
  intros ADMIN_USERNAME db req i user Hp Hu.
  destruct (User_findById_id _ _ Hu) as [_ Hid].
  unfold deleteUser. rewrite Hp, Hu. split.
  - intros ->. now rewrite String.eqb_refl.
  - intros Hna.
    assert (Hadm : match ADMIN_USERNAME with
                   | Some a => username user =? a
                   | None => false
                   end = false).
    { destruct ADMIN_USERNAME as [a|]; [|reflexivity].
      apply String.eqb_neq. congruence. }
    rewrite Hadm. eexists. split; [reflexivity|]. simpl. rewrite Hid.
    assert (Hfilter : forall (A : Type) (f : A -> ObjectId) (l : list A) x,
              In x (filter (fun y => negb (f y =? i)) l) <->
              In x l /\ f x <> i).
    { intros A f l x. rewrite filter_In, negb_true_iff, String.eqb_neq.
      tauto. }
    split; [apply Hfilter|]. split; [apply Hfilter|].
    split; [apply Hfilter|]. repeat split.
    intros jwt_verify req2 d Hv Hd.
    rewrite (authenticate_verified _ Hv). unfold authenticate_decoded.
    unfold Query.User_findById. simpl. rewrite Hd.
    destruct (find (fun u => u_id u =? i)
                (filter (fun u => negb (u_id u =? i)) (users db)))
      as [u|] eqn:Hf; [|reflexivity].
    apply find_some in Hf. destruct Hf as [Hin Heq].
    apply filter_In in Hin. destruct Hin as [_ Hneg].
    rewrite Heq in Hneg. discriminate.
Qed.

(** Dave is deleted: his grants and his credentials go with him, and
    Alice's stay. *)
Lemma deleteUser_cascades_witness :
  exists db',
    deleteUser (Some "admin") Sample2.db1 (Sample2.by_id "u-dave")
    = (db', Json 200 (Js.Obj (msg true "User deleted successfully"))) /\
    ~ In Sample2.dave_billing (userServices db') /\
    ~ In Sample2.dave_refresh (tokens db') /\
    In Sample.alice_refresh (tokens db') /\
    Query.User_findById "u-dave" db' = None.
Proof.
  destruct (@deleteUser_cascades (Some "admin") Sample2.db1
              (Sample2.by_id "u-dave") "u-dave" Sample2.dave
              eq_refl eq_refl) as [_ H].
  destruct H as [db' [Hrun [_ [Hg [Ht _]]]]]; [discriminate|].
  exists db'. split; [exact Hrun|]. split; [|split; [|split]].
  - intros Hin. apply Hg in Hin. destruct Hin as [_ Hne]. now apply Hne.
  - intros Hin. apply Ht in Hin. destruct Hin as [_ Hne]. now apply Hne.
  - apply Ht. split; [simpl; tauto | discriminate].
  - injection Hrun as <-. reflexivity.
Defined.

(* ================================================================== *)
(** ** Login *)
(* ================================================================== *)

(** X15. A login for a name no stored user has and a login with a wrong
    password for a stored user are answered alike, "Invalid
    credentials" (401), and write nothing: the password is checked
    before the status of the account or the access to the service is
    looked at. *)
Theorem loginUser_invalid_credentials_alike :
  forall (jwt_sign : Decoded -> string)
         (bcrypt_compare : string -> string -> bool)
         (username_in_filter : string -> string)
         (Date_plus_days : Z -> Z -> Z)
         (random : string) (newId : ObjectId) (now issuedAt : Z) (db : DB)
         (req : Request) (u p : string),
    Js.get "username" (body req) = Some (Js.Str u) ->
    Js.get "password" (body req) = Some (Js.Str p) ->
    (forall x,
       find (fun x => username x =? username_in_filter u) (users db)
       = Some x ->
       bcrypt_compare p (password x) = false) ->
    loginUser jwt_sign bcrypt_compare username_in_filter Date_plus_days
              random newId now issuedAt db req
    = (db, NextErr (APIError "Invalid credentials" 401)).
Proof.
  intros jwt_sign bcrypt_compare username_in_filter Date_plus_days random
         newId now issuedAt db req u p Hu Hp Hbad.
  unfold loginUser. rewrite Hu.
  destruct (find _ (users db)) as [x|]; [|reflexivity].
  rewrite Hp, (Hbad x eq_refl). reflexivity.
Qed.

Lemma loginUser_invalid_credentials_alike_witness :
  loginUser Sample.jwt_sign Sample.bcrypt_compare (fun s => s)
    Sample2.Date_plus_days "c0ffee" "t-20" 10 11 Sample2.db1
    (Sample.request None [("username", Js.Str "nobody");
                          ("password", Js.Str "old-secret")])
  = (Sample2.db1, NextErr (APIError "Invalid credentials" 401)) /\
  loginUser Sample.jwt_sign Sample.bcrypt_compare (fun s => s)
    Sample2.Date_plus_days "c0ffee" "t-20" 10 11 Sample2.db1
    (Sample.request None [("username", Js.Str "dave");
                          ("password", Js.Str "a-guess")])
  = (Sample2.db1, NextErr (APIError "Invalid credentials" 401)).
Proof.
  split.
  - apply (@loginUser_invalid_credentials_alike Sample.jwt_sign
             Sample.bcrypt_compare (fun s => s) Sample2.Date_plus_days
             "c0ffee" "t-20" 10 11 Sample2.db1 _ "nobody" "old-secret");
      try reflexivity.
    intros x Hx. discriminate Hx.
  - apply (@loginUser_invalid_credentials_alike Sample.jwt_sign
             Sample.bcrypt_compare (fun s => s) Sample2.Date_plus_days
             "c0ffee" "t-20" 10 11 Sample2.db1 _ "dave" "a-guess");
      try reflexivity.
    intros x Hx. injection Hx as <-. reflexivity.
Defined.

(** What a login that goes through returns and stores. *)
Lemma loginUser_success (jwt_sign : Decoded -> string)
    (bcrypt_compare : string -> string -> bool)
    (username_in_filter : string -> string)
    (Date_plus_days : Z -> Z -> Z)
    (random : string) (newId : ObjectId) (now issuedAt : Z) (db : DB)
    (req : Request) (u p : string) (user : User)
    (scope : option ObjectId) :
  Js.get "username" (body req) = Some (Js.Str u) ->
  Js.get "password" (body req) = Some (Js.Str p) ->
  find (fun x => username x =? username_in_filter u) (users db)
  = Some user ->
  bcrypt_compare p (password user) = true ->
  u_status user = "active" ->
  body_string "serviceId" (body req) = scope ->
  login_scope_ok user scope db ->
  loginUser jwt_sign bcrypt_compare username_in_filter Date_plus_days
            random newId now issuedAt db req
  = (set_tokens (User_save (with_lastLoginAt user now) db)
       (tokens db
        ++ [issued_refresh Date_plus_days random newId issuedAt user scope]),
     Json 200
       (login_response
          (jwt_sign (mkDecoded (u_id user) (username user) scope))
          random user now)).
Proof.
  intros Hu Hp Hf Hc Hst Hscope Hok. unfold loginUser.
  assert (Hact : negb (u_status user =? "active") = false)
    by now apply status_active_dec.
  rewrite Hu, Hf, Hp, Hc, Hact, Hscope. simpl negb. cbv iota.
  destruct scope as [sid|]; [|reflexivity].
  destruct Hok as [g [Hg Hgs]]. cbv beta iota.
  assert (Hg' : Query.UserService_findOne (u_id user) (@Some string sid) db
                = Some g) by exact Hg.
  rewrite Hg', Hgs. reflexivity.
Qed.


(** X16. A login that goes through (known name, matching password,
    active account and, when a service is asked for, an active grant
    for it) answers 200 with a signed access token and a refresh token.
    It writes two things and nothing else: the user is saved with its
    last login at the instant of the login, and exactly one refresh
    credential of that user is appended, bound to the service asked for
    and expiring seven calendar days after it was made. Neither the
    existence nor the state of the service itself is looked at. *)
Theorem loginUser_issues_one_refresh_credential :
  forall (jwt_sign : Decoded -> string)
         (bcrypt_compare : string -> string -> bool)
         (username_in_filter : string -> string)
         (Date_plus_days : Z -> Z -> Z)
         (random : string) (newId : ObjectId) (now issuedAt : Z) (db : DB)
         (req : Request) (u p : string) (user : User)
         (scope : option ObjectId) (svcs : list Service),
    Js.get "username" (body req) = Some (Js.Str u) ->
    Js.get "password" (body req) = Some (Js.Str p) ->
    find (fun x => username x =? username_in_filter u) (users db)
    = Some user ->
    bcrypt_compare p (password user) = true ->
    u_status user = "active" ->
    body_string "serviceId" (body req) = scope ->
    login_scope_ok user scope db ->
    exists db' data,
      loginUser jwt_sign bcrypt_compare username_in_filter Date_plus_days
                random newId now issuedAt db req = (db', Json 200 data) /\
      users db'
      = map (fun x => if u_id x =? u_id user
                      then with_lastLoginAt user now else x) (users db) /\
      tokens db'
      = (tokens db
         ++ [mkToken newId (u_id user) random "refresh"
                     (Date_plus_days issuedAt 7%Z) scope])%list /\
      (services db' = services db /\ roles db' = roles db /\
       userServices db' = userServices db /\
       auditLogs db' = auditLogs db) /\
      Js.get "token" (Js.spread data)
      = Some (Js.Str (jwt_sign
                        (mkDecoded (u_id user) (username user) scope))) /\
      Js.get "refreshToken" (Js.spread data) = Some (Js.Str random) /\
      snd (loginUser jwt_sign bcrypt_compare username_in_filter
                     Date_plus_days random newId now issuedAt
                     (set_services db svcs) req)
      = Json 200 data.
Proof.
  intros jwt_sign bcrypt_compare username_in_filter Date_plus_days random
         newId now issuedAt db req u p user scope svcs Hu Hp Hf Hc Hst
         Hscope Hok.
  do 2 eexists. split.
  - apply (@loginUser_success jwt_sign bcrypt_compare username_in_filter
             Date_plus_days random newId now issuedAt db req u p user
             scope); assumption.
  - split; [reflexivity|]. split; [reflexivity|].
    split; [now repeat split|].
    split; [reflexivity|]. split; [reflexivity|].
    rewrite (@loginUser_success jwt_sign bcrypt_compare username_in_filter
               Date_plus_days random newId now issuedAt
               (set_services db svcs) req u p user scope);
      try assumption; reflexivity.
Qed.

(** Alice logs in for billing, on a server that keeps UTC. *)
Lemma loginUser_issues_one_refresh_credential_witness :
  exists db' data,
    loginUser Sample.jwt_sign Sample.bcrypt_compare (fun s => s)
      Sample2.Date_plus_days "c0ffee" "t-20" 10 11 Sample.db0
      (Sample.request None [("username", Js.Str "alice");
                            ("password", Js.Str "old-secret");
                            ("serviceId", Js.Str "s-billing")])
    = (db', Json 200 data) /\
    users db' = [with_lastLoginAt Sample.alice 10%Z; Sample.bob] /\
    tokens db'
    = (tokens Sample.db0
       ++ [mkToken "t-20" "u-alice" "c0ffee" "refresh" 604800011%Z
                   (Some "s-billing")])%list /\
    Js.get "token" (Js.spread data)
    = Some (Js.Str (Sample.jwt_sign
                      (mkDecoded "u-alice" "alice" (Some "s-billing")))) /\
    Js.get "refreshToken" (Js.spread data) = Some (Js.Str "c0ffee").
Proof.
  destruct (@loginUser_issues_one_refresh_credential Sample.jwt_sign
              Sample.bcrypt_compare (fun s => s) Sample2.Date_plus_days
              "c0ffee" "t-20" 10 11 Sample.db0
              (Sample.request None [("username", Js.Str "alice");
                                    ("password", Js.Str "old-secret");
                                    ("serviceId", Js.Str "s-billing")])
              "alice" "old-secret" Sample.alice (Some "s-billing") []
              eq_refl eq_refl eq_refl eq_refl eq_refl eq_refl)
    as [db' [data [Hrun [Husers [Htok [_ [Ht [Hr _]]]]]]]].
  - exists Sample.alice_billing. split; reflexivity.
  - exists db', data. split; [exact Hrun|]. split; [exact Husers|].
    split; [exact Htok|]. split; [exact Ht | exact Hr].
Defined.

Lemma body_string_nonempty (k : string) (o : Js.object) (s : string) :
  body_string k o = Some s -> (s =? "") = false.
Proof.
  unfold body_string. destruct (Js.get k o) as [[| | |x| |]|];
    try discriminate.
  destruct (x =? "") eqn:Hx; [discriminate|].
  intros H. now injection H as <-.
Qed.

Lemma bearer_header_verified (jwt_verify : string -> Verified)
    (req : Request) (tok : string) (d : Decoded) :
  authorization req = Some ("Bearer " ++ tok) ->
  no_space tok = true ->
  tok <> "" ->
  jwt_verify tok = Payload d ->
  verified_request jwt_verify req d.
Proof.
  intros Hh Hns Hne Hv. exists ("Bearer " ++ tok), tok.
  split; [exact Hh|]. split.
  - simpl. destruct tok; reflexivity.
  - split; [|now split].
    rewrite <- (append_empty_r tok) at 1.
    apply bearer_token_second_word; [exact Hns | now left].
Qed.

Lemma User_save_with_lastLoginAt (user : User) (now : Z) (db : DB) :
  Query.User_findById (u_id user) db = Some user ->
  Query.User_findById (u_id user) (User_save (with_lastLoginAt user now) db)
  = Some (with_lastLoginAt user now).
Proof.
  intros Hu.
  exact (@User_findById_save (with_lastLoginAt user now) user db Hu).
Qed.

(** X17. The access token a login returns, presented as a bearer token
    right away (with a [jwt.verify] that reads back what [jwt.sign]
    signed, and user ids that are unique), is accepted in global scope;
    in the scope of a service it is accepted when that service is
    stored and active, and answered 401 when the service is not stored
    and 403 when it is not active, although the login itself went
    through. The user attached is the user as the login saved it. *)
Theorem loginUser_token_is_accepted :
  forall (jwt_sign : Decoded -> string) (jwt_verify : string -> Verified)
         (bcrypt_compare : string -> string -> bool)
         (username_in_filter : string -> string)
         (Date_plus_days : Z -> Z -> Z)
         (random : string) (newId : ObjectId) (now issuedAt : Z) (db : DB)
         (req req2 : Request) (u p : string) (user : User)
         (scope : option ObjectId),
    Js.get "username" (body req) = Some (Js.Str u) ->
    Js.get "password" (body req) = Some (Js.Str p) ->
    find (fun x => username x =? username_in_filter u) (users db)
    = Some user ->
    bcrypt_compare p (password user) = true ->
    u_status user = "active" ->
    body_string "serviceId" (body req) = scope ->
    login_scope_ok user scope db ->
    Query.User_findById (u_id user) db = Some user ->
    let payload := mkDecoded (u_id user) (username user) scope in
    jwt_verify (jwt_sign payload) = Payload payload ->
    no_space (jwt_sign payload) = true ->
    jwt_sign payload <> "" ->
    authorization req2 = Some ("Bearer " ++ jwt_sign payload) ->
    let db' :=
      fst (loginUser jwt_sign bcrypt_compare username_in_filter
                     Date_plus_days random newId now issuedAt db req) in
    (scope = None ->
     exists req',
       authenticate jwt_verify db' req2 = Next req' /\
       req_user req' = Some (with_lastLoginAt user now)) /\
    (forall sid service,
       scope = Some sid ->
       Query.Service_findById sid db = Some service ->
       (active service = true ->
        exists req',
          authenticate jwt_verify db' req2 = Next req' /\
          req_user req' = Some (with_lastLoginAt user now) /\
          req_service req' = Some service) /\
       (active service = false ->
        authenticate jwt_verify db' req2 = NextErr TenantInactive)) /\
    (forall sid,
       scope = Some sid ->
       Query.Service_findById sid db = None ->
       authenticate jwt_verify db' req2 = NextErr TenantNotFound).
Proof.
  intros jwt_sign jwt_verify bcrypt_compare username_in_filter
         Date_plus_days random newId now issuedAt db req req2 u p user scope
         Hu Hp Hf Hc Hst Hscope Hok Hid payload Hrt Hns Hne Hh db'.
  assert (Hv : verified_request jwt_verify req2 payload)
    by now apply (@bearer_header_verified jwt_verify req2 (jwt_sign payload)).
  assert (Hdb : db' = set_tokens (User_save (with_lastLoginAt user now) db)
                        (tokens db
                         ++ [issued_refresh Date_plus_days random newId
                                            issuedAt user scope])).
  { unfold db'.
    now rewrite (@loginUser_success jwt_sign bcrypt_compare
                   username_in_filter Date_plus_days random newId now
                   issuedAt db req u p user scope). }
  assert (Hu' : Query.User_findById (d_id payload) db'
                = Some (with_lastLoginAt user now)).
  { rewrite Hdb. exact (@User_save_with_lastLoginAt user now db Hid). }
  assert (Hact : negb (u_status user =? "active") = false)
    by now apply status_active_dec.
  rewrite (authenticate_verified db' Hv). unfold authenticate_decoded.
  rewrite Hu'. cbn [u_status with_lastLoginAt u_id]. rewrite Hact.
  split; [|split].
  - intros ->. simpl. eexists. split; reflexivity.
  - intros sid service -> Hs.
    pose proof (body_string_nonempty _ _ Hscope) as Hsid.
    destruct (Service_findById_id _ _ Hs) as [_ Hsvc].
    destruct Hok as [g [Hg Hgs]].
    assert (Hs' : Query.Service_findById sid db' = Some service)
      by (rewrite Hdb; exact Hs).
    assert (Hg' : Query.UserService_findOne (u_id user)
                    (Some (s_id service)) db' = Some g)
      by (rewrite Hdb, Hsvc; exact Hg).
    simpl. rewrite Hsid, Hs'. split.
    + intros Ha. rewrite Ha. simpl. rewrite Hg', Hgs. simpl.
      eexists. repeat split.
    + intros Ha. rewrite Ha. reflexivity.
  - intros sid -> Hs.
    pose proof (body_string_nonempty _ _ Hscope) as Hsid.
    assert (Hs' : Query.Service_findById sid db' = None)
      by (rewrite Hdb; exact Hs).
    simpl. rewrite Hsid, Hs'. reflexivity.
Qed.

(** Bob logs in for billing and presents the token he got. *)
Lemma loginUser_token_is_accepted_witness :
  exists req',
    authenticate Sample2.jwt_verify
      (fst (loginUser Sample.jwt_sign Sample.bcrypt_compare (fun s => s)
              Sample2.Date_plus_days "c0ffee" "t-20" 10 11 Sample.db0
              Sample2.bob_login))
      (Sample.request (Some "Bearer jwt(u-bob)") [])
    = Next req' /\
    req_user req' = Some (with_lastLoginAt Sample.bob 10) /\
    req_service req' = Some Sample.billing.
Proof.
  destruct (@loginUser_token_is_accepted Sample.jwt_sign Sample2.jwt_verify
              Sample.bcrypt_compare (fun s => s) Sample2.Date_plus_days
              "c0ffee" "t-20" 10 11
              Sample.db0 Sample2.bob_login
              (Sample.request (Some "Bearer jwt(u-bob)") [])
              "bob" "bobs-secret" Sample.bob (Some "s-billing"))
    as [_ [H _]]; try reflexivity; try discriminate.
  - exists Sample.bob_billing. split; reflexivity.
  - destruct (H "s-billing" Sample.billing eq_refl eq_refl) as [Hyes _].
    exact (Hyes eq_refl).
Defined.



(* ================================================================== *)
(** ** Roles: permissions list and update *)
(* ================================================================== *)

Lemma includes_iff (l : list string) (s : string) :
  includes l s = true <-> In s l.
Proof. unfold includes. apply includes_In. Qed.

Lemma push_custom_fold_In (l acc : list string) (p : string) :
  In p (fold_left push_custom l acc) <->
  In p acc \/ (In p l /\ ~ In p systemPermissions).
Proof.
  revert acc. induction l as [|x l IH]; intros acc.
  - simpl. tauto.
  - cbn [fold_left In]. rewrite IH. unfold push_custom.
    destruct (includes systemPermissions x) eqn:Hs.
    + apply includes_iff in Hs. cbn [negb andb]. split.
      * intros [H|[H Hn]]; [now left | right; split; [now right|exact Hn]].
      * intros [H|[[Hx|H] Hn]];
          [now left | subst x; contradiction | right; now split].
    + assert (Hns : ~ In x systemPermissions).
      { intros H. apply includes_iff in H. congruence. }
      cbn [negb andb].
      destruct (includes acc x) eqn:Ha; cbn [negb].
      * apply includes_iff in Ha. split.
        -- intros [H|[H Hn]]; [now left | right; split; [now right|exact Hn]].
        -- intros [H|[[Hx|H] Hn]];
             [now left | subst x; now left | right; now split].
      * rewrite in_app_iff. cbn [In]. split.
        -- intros [[H|[Hx|[]]]|[H Hn]].
           ++ now left.
           ++ subst x. right. split; [now left | exact Hns].
           ++ right. split; [now right | exact Hn].
        -- intros [H|[[Hx|H] Hn]].
           ++ left. now left.
           ++ left. right. now left.
           ++ right. now split.
Qed.

Lemma push_custom_fold_NoDup (l acc : list string) :
  NoDup acc -> NoDup (fold_left push_custom l acc).
Proof.
  revert acc. induction l as [|x l IH]; intros acc Hnd; simpl; [exact Hnd|].
  apply IH. unfold push_custom.
  destruct (includes systemPermissions x); simpl; [exact Hnd|].
  destruct (includes acc x) eqn:Ha; simpl; [exact Hnd|].
  apply NoDup_app; [exact Hnd | repeat constructor; intros [] |].
  intros y Hy [<-|[]]. apply includes_iff in Hy. congruence.
Qed.

Lemma customPermissions_of_spec (rs : list Role) :
  NoDup (customPermissions_of rs) /\
  forall p,
    In p (customPermissions_of rs) <->
    (~ In p systemPermissions /\
     exists r, In r rs /\ In p (permissions r)).
Proof.
  unfold customPermissions_of.
  assert (H : forall acc,
            NoDup acc ->
            NoDup (fold_left
                     (fun perms role =>
                        fold_left push_custom (permissions role) perms)
                     rs acc) /\
            forall p,
              In p (fold_left
                      (fun perms role =>
                         fold_left push_custom (permissions role) perms)
                      rs acc) <->
              (In p acc \/
               (~ In p systemPermissions /\
                exists r, In r rs /\ In p (permissions r)))).
  { induction rs as [|r rs IH]; intros acc Hnd; simpl.
    - split; [exact Hnd|]. intros p. split; [now left|].
      intros [H|[_ [r [[] _]]]]. exact H.
    - destruct (IH (fold_left push_custom (permissions r) acc)
                   (push_custom_fold_NoDup _ Hnd)) as [Hnd' Hin].
      split; [exact Hnd'|]. intros p. rewrite Hin, push_custom_fold_In.
      split.
      + intros [[H|[H Hn]]|[Hn [r' [Hr' Hp]]]].
        * now left.
        * right. split; [exact Hn|]. exists r. split; [now left | exact H].
        * right. split; [exact Hn|]. exists r'. split; [now right | exact Hp].
      + intros [H|[Hn [r' [[<-|Hr'] Hp]]]].
        * left. now left.
        * left. right. now split.
        * right. split; [exact Hn|]. now exists r'. }
  destruct (H [] (NoDup_nil _)) as [Hnd Hin]. split; [exact Hnd|].
  intros p. rewrite Hin. simpl. tauto.
Qed.

(** X19. [getPermissions] for a service answers with the ten system
    permissions and a list of custom permissions that has no duplicate
    and no system permission in it and that holds exactly the other
    permissions of the stored roles of that service; roles of other
    services and roles without a service contribute nothing. Without a
    service in the query the custom list is empty. *)
Theorem getPermissions_custom_list :
  forall (ObjectId_isValid : string -> bool) (db : DB) (req : Request),
    (forall sid,
       param "serviceId" (query req) = Some sid ->
       sid <> "" ->
       ObjectId_isValid sid = true ->
       exists custom,
         getPermissions ObjectId_isValid db req
         = (db, Json 200 (Js.Obj
              [("success", Js.Bool true);
               ("systemPermissions", strings_json systemPermissions);
               ("customPermissions", strings_json custom)])) /\
         NoDup custom /\
         forall p,
           In p custom <->
           (~ In p systemPermissions /\
            exists r, In r (roles db) /\ r_serviceId r = Some sid /\
                      In p (permissions r))) /\
    (param "serviceId" (query req) = None \/
     param "serviceId" (query req) = Some "" ->
     getPermissions ObjectId_isValid db req
     = (db, Json 200 (Js.Obj
          [("success", Js.Bool true);
           ("systemPermissions", strings_json systemPermissions);
           ("customPermissions", strings_json [])]))).
Proof.
  intros ObjectId_isValid db req. split.
  - intros sid Hq Hne Hvalid. unfold getPermissions.
    rewrite Hq. simpl. apply String.eqb_neq in Hne. rewrite Hne, Hvalid.
    simpl. eexists. split; [reflexivity|].
    destruct (customPermissions_of_spec
                (filter (fun r => oid_eqb (r_serviceId r) (Some sid))
                        (roles db))) as [Hnd Hin].
    split; [exact Hnd|]. intros p. rewrite Hin. split.
    + intros [Hn [r [Hr Hp]]]. split; [exact Hn|]. exists r.
      apply filter_In in Hr. destruct Hr as [Hr Hs].
      apply oid_eqb_eq in Hs. now repeat split.
    + intros [Hn [r [Hr [Hs Hp]]]]. split; [exact Hn|]. exists r.
      split; [|exact Hp]. apply filter_In. split; [exact Hr|].
      now apply oid_eqb_eq.
  - intros [Hq|Hq]; unfold getPermissions; rewrite Hq; reflexivity.
Qed.

Lemma getPermissions_custom_list_witness :
  let req :=
    mkRequest None None None None "GET" "/roles/permissions" []
              [("serviceId", "s-billing")] [] None None None None None in
  exists custom,
    getPermissions Sample.ObjectId_isValid Sample.db0 req
    = (Sample.db0,
       Json 200 (Js.Obj
         [("success", Js.Bool true);
          ("systemPermissions", strings_json systemPermissions);
          ("customPermissions", strings_json custom)])) /\
    NoDup custom /\
    forall p,
      In p custom <->
      (~ In p systemPermissions /\
       exists r, In r (roles Sample.db0) /\
                 r_serviceId r = Some "s-billing" /\
                 In p (permissions r)).
Proof.
  intros req.
  destruct (@getPermissions_custom_list Sample.ObjectId_isValid Sample.db0
              req) as [H _].
  apply (H "s-billing"); [reflexivity | discriminate | reflexivity].
Defined.

Example getPermissions_of_billing :
  customPermissions_of
    (filter (fun r => oid_eqb (r_serviceId r) (Some "s-billing"))
            (roles Sample.db0))
  = ["invoice:read"].
Proof. reflexivity. Qed.

Lemma NoDup_map_inj (A B : Type) (f : A -> B) (l : list A) (x y : A) :
  NoDup (map f l) -> In x l -> In y l -> f x = f y -> x = y.
Proof.
  induction l as [|z l IH]; simpl; intros Hnd Hx Hy Hf; [destruct Hx|].
  inversion Hnd as [|? ? Hnotin Hnd']; subst.
  destruct Hx as [->|Hx], Hy as [->|Hy].
  - reflexivity.
  - exfalso. apply Hnotin. rewrite Hf. now apply in_map.
  - exfalso. apply Hnotin. rewrite <- Hf. now apply in_map.
  - now apply IH.
Qed.

Lemma replace_role_keeps_scope (l : list Role) (role role' : Role) :
  NoDup (map r_id l) ->
  In role l ->
  role_scope role' = role_scope role ->
  map role_scope
      (map (fun r' => if r_id r' =? r_id role' then role' else r') l)
  = map role_scope l.
Proof.
  intros Hnd Hin Hscope. rewrite map_map. apply map_ext_in.
  intros x Hx. destruct (r_id x =? r_id role') eqn:Hid; [|reflexivity].
  apply String.eqb_eq in Hid.
  assert (Hrid : r_id role' = r_id role)
    by (unfold role_scope in Hscope; congruence).
  assert (x = role).
  { apply (@NoDup_map_inj _ _ r_id l); try assumption. congruence. }
  subst x. exact Hscope.
Qed.

Lemma Role_save_inr (m : bool) (r : Role) (db db' : DB) :
  Role_save m r db = inr db' ->
  db' = set_roles db
          (map (fun r' => if r_id r' =? r_id r then r else r') (roles db)).
Proof.
  unfold Role_save.
  destruct (m && (r_name r =? "")); [discriminate|].
  destruct (m && (50 <? String.length (r_name r))%nat); [discriminate|].
  destruct (m && role_name_taken _ _ _ db); [discriminate|].
  intros H. now injection H as <-.
Qed.

(** Every way [updateRole] can end: an error that leaves the database as
    it was, or a 200 after the found role was replaced by a role of the
    same id and scope. *)
Lemma updateRole_cases (trim name_in_filter : string -> string)
    (db : DB) (req : Request) :
  (exists e, updateRole trim name_in_filter db req = (db, NextErr e)) \/
  (exists i role role' data,
     param "id" (params req) = Some i /\
     Query.Role_findById i db = Some role /\
     Js.get "isGlobal" (body req) = None /\
     Js.get "serviceId" (body req) = None /\
     ((r_name role =? "admin") && isGlobal role) = false /\
     role_scope role' = role_scope role /\
     updateRole trim name_in_filter db req
     = (set_roles db
          (map (fun r' => if r_id r' =? r_id role' then role' else r')
               (roles db)),
        Json 200 data)).
Proof.
  unfold updateRole.
  destruct (param "id" (params req)) as [i|]; [|left; eexists; reflexivity].
  destruct (Query.Role_findById i db) as [role|] eqn:Hf;
    [|left; eexists; reflexivity].
  destruct (Js.get "isGlobal" (body req)); [left; eexists; reflexivity|].
  destruct (Js.get "serviceId" (body req)); [left; eexists; reflexivity|].
  destruct ((r_name role =? "admin") && isGlobal role) eqn:Hadm;
    [left; eexists; reflexivity|].
  match goal with
  | |- context [if ?c then (db, NextErr ?e) else _] =>
      destruct c; [left; eexists; reflexivity|]
  end.
  match goal with
  | |- context [match ?c with inl _ => _ | inr _ => _ end] =>
      destruct c as [e|ps]; [left; eexists; reflexivity|]
  end.
  match goal with
  | |- context [Role_save ?m ?r db] =>
      destruct (Role_save m r db) as [e|db'] eqn:Hsave;
        [left; eexists; reflexivity|];
      apply Role_save_inr in Hsave; subst db';
      right; exists i, role, r; eexists
  end.
  repeat split; try reflexivity; assumption.
Qed.

(** X20. Whatever the request, [updateRole] leaves the id, the global
    flag and the service of every stored role as they were (role ids
    being unique) and touches no other collection. A request that names
    [isGlobal] or [serviceId], and any request for the global admin
    role, is refused and nothing is written; roles other than the one
    addressed are left exactly as they were. *)
Theorem updateRole_keeps_scope :
  forall (trim name_in_filter : string -> string) (db db' : DB)
         (req : Request) (o : Outcome),
    NoDup (map r_id (roles db)) ->
    updateRole trim name_in_filter db req = (db', o) ->
    map role_scope (roles db') = map role_scope (roles db) /\
    (users db' = users db /\ services db' = services db /\
     userServices db' = userServices db /\ tokens db' = tokens db /\
     auditLogs db' = auditLogs db) /\
    (forall i role,
       param "id" (params req) = Some i ->
       Query.Role_findById i db = Some role ->
       (r_name role = "admin" /\ isGlobal role = true) \/
       Js.get "isGlobal" (body req) <> None \/
       Js.get "serviceId" (body req) <> None ->
       db' = db /\ exists e, o = NextErr e) /\
    (forall i r,
       param "id" (params req) = Some i ->
       In r (roles db) -> r_id r <> i -> In r (roles db')).
Proof.
  intros trim name_in_filter db db' req o Hnd Hrun.
  destruct (updateRole_cases trim name_in_filter db req)
    as [[e He] | [i [role [role' [data
                  [Hp [Hf [Hg [Hs [Hadm [Hscope Hok]]]]]]]]]]].
  - rewrite He in Hrun. injection Hrun as <- <-.
    repeat split; auto. now exists e.
  - rewrite Hok in Hrun. injection Hrun as <- <-.
    destruct (Role_findById_id _ _ Hf) as [Hin Hid].
    assert (Hrid : r_id role' = i)
      by (unfold role_scope in Hscope; congruence).
    split; [|split; [|split]].
    + simpl. now apply (@replace_role_keeps_scope (roles db) role role').
    + simpl. tauto.
    + intros i' role0 Hp' Hf' Hcond. exfalso.
      rewrite Hp in Hp'. injection Hp' as <-.
      rewrite Hf in Hf'. injection Hf' as <-.
      destruct Hcond as [[Hn Hgl] | [H|H]]; try contradiction.
      rewrite Hn, Hgl in Hadm. discriminate.
    + intros i' r Hp' Hr Hne. rewrite Hp in Hp'. injection Hp' as <-.
      simpl. apply in_map_iff. exists r. split; [|exact Hr].
      assert (Hx : (r_id r =? r_id role') = false)
        by (apply String.eqb_neq; congruence).
      now rewrite Hx.
Qed.

(** The clerk role is renamed and given a permission: its scope and all
    other roles stay; the global admin role cannot be touched. *)
Lemma updateRole_keeps_scope_witness :
  (exists db' data,
     updateRole (fun s => s) (fun s => s) Sample.db0 Sample2.rename_clerk
     = (db', Json 200 data) /\
     map role_scope (roles db') = map role_scope (roles Sample.db0) /\
     Query.Role_findById "r-clerk" db'
     = Some (mkRole "r-clerk" "cashier" false (Some "s-billing")
                    ["invoice:read"; "invoice:pay"]) /\
     In Sample.admin_role (roles db')) /\
  (exists e,
     updateRole (fun s => s) (fun s => s) Sample.db0
       (Sample.request_with None [("id", "r-admin")]
          [("permissions", Js.Arr [])])
     = (Sample.db0, NextErr e)).
Proof.
  assert (Hnd : NoDup (map r_id (roles Sample.db0))).
  { simpl. repeat constructor; simpl; intuition discriminate. }
  split.
  - do 2 eexists. split; [reflexivity|].
    destruct (@updateRole_keeps_scope (fun s => s) (fun s => s) Sample.db0
                _ Sample2.rename_clerk _ Hnd eq_refl)
      as [Hscope [_ [_ Hother]]].
    split; [exact Hscope|]. split; [reflexivity|].
    apply (Hother "r-clerk"); [reflexivity | simpl; tauto | discriminate].
  - destruct (@updateRole_keeps_scope (fun s => s) (fun s => s) Sample.db0
                _ (Sample.request_with None [("id", "r-admin")]
                     [("permissions", Js.Arr [])]) _ Hnd eq_refl)
      as [_ [_ [Hadmin _]]].
    destruct (Hadmin "r-admin" Sample.admin_role eq_refl eq_refl)
      as [_ [e He]]; [left; split; reflexivity|].
    exists e. simpl in He. injection He as <-. reflexivity.
Defined.




(* ================================================================== *)
(** ** Grants: role references, removal, custom data *)
(* ================================================================== *)

(** A query on roles returns documents with distinct ids. *)
Lemma Role_find_distinct_ids (p : Role -> bool) (l : list Role) :
  NoDup (map r_id l) -> NoDup (map r_id (filter p l)).
Proof.
  induction l as [|x l IH]; simpl; intros Hnd; [constructor|].
  inversion Hnd as [|? ? Hnotin Hnd']; subst.
  destruct (p x); simpl; [|now apply IH].
  constructor; [|now apply IH].
  intros Hin. apply Hnotin. apply in_map_iff in Hin.
  destruct Hin as [y [Hy Hin]]. apply filter_In in Hin.
  apply in_map_iff. exists y. tauto.
Qed.

(** When [Role.find] returns as many roles as ids were asked for, every
    id was found and no id was asked for twice. *)
Lemma valid_roles_count (ids : list ObjectId) (sid : option ObjectId)
    (db : DB) :
  NoDup (map r_id (roles db)) ->
  List.length (Query.Role_find_valid_for ids sid db) = List.length ids ->
  NoDup ids /\
  forall rid, In rid ids ->
    exists r, In r (roles db) /\ r_id r = rid /\
              (r_serviceId r = sid \/ isGlobal r = true).
Proof.
  intros Hnd Hlen.
  set (valid := Query.Role_find_valid_for ids sid db) in *.
  assert (Hvnd : NoDup (map r_id valid))
    by (apply Role_find_distinct_ids; exact Hnd).
  assert (Hincl : incl (map r_id valid) ids).
  { intros rid Hin. apply in_map_iff in Hin. destruct Hin as [r [<- Hr]].
    apply filter_In in Hr. destruct Hr as [_ Hok].
    apply andb_true_iff in Hok. destruct Hok as [Hm _].
    now apply mem_id_In. }
  assert (Hlen' : (List.length ids <= List.length (map r_id valid))%nat)
    by (rewrite length_map; lia).
  split.
  - exact (NoDup_incl_NoDup Hvnd Hlen' Hincl).
  - intros rid Hin.
    apply (NoDup_length_incl Hvnd Hlen' Hincl) in Hin.
    apply in_map_iff in Hin. destruct Hin as [r [<- Hr]].
    apply filter_In in Hr. destruct Hr as [Hr Hok].
    apply andb_true_iff in Hok. destruct Hok as [_ Hok].
    apply orb_true_iff in Hok. exists r. split; [exact Hr|].
    split; [reflexivity|].
    destruct Hok as [Hok|Hok]; [left; now apply oid_eqb_eq | now right].
Qed.

(** X22. A grant that [assignUserToService] creates (201) lists its
    roles without repetition, and each of them is a stored role that is
    global or belongs to the service of the grant (role ids being
    unique); it is appended to the grants under the new id, for the
    user and the service of the body. *)
Theorem assignUserToService_roles_are_valid :
  forall (ObjectId_isValid : string -> bool) (newId : ObjectId)
         (db db' : DB) (req : Request) (data : Js.value),
    NoDup (map r_id (roles db)) ->
    assignUserToService ObjectId_isValid newId db req
    = (db', Json 201 data) ->
    exists g sid,
      userServices db' = (userServices db ++ [g])%list /\
      us_id g = newId /\
      Js.get "userId" (body req) = Some (Js.Str (us_userId g)) /\
      Js.get "serviceId" (body req) = Some (Js.Str sid) /\
      us_serviceId g = Some sid /\
      us_roles g = body_roles (body req) /\
      NoDup (us_roles g) /\
      forall rid, In rid (us_roles g) ->
        exists r, In r (roles db) /\ r_id r = rid /\
                  (r_serviceId r = Some sid \/ isGlobal r = true).
Proof.
  intros ObjectId_isValid newId db db' req data Hnd.
  unfold assignUserToService.
  destruct (isValid ObjectId_isValid (Js.get "userId" (body req))) eqn:HvU;
    [|discriminate].
  destruct (isValid ObjectId_isValid (Js.get "serviceId" (body req)))
    eqn:HvS; [|discriminate].
  simpl.
  destruct (Js.get "userId" (body req)) as [[| | |U| |]|]; try discriminate.
  destruct (Js.get "serviceId" (body req)) as [[| | |S| |]|];
    try discriminate.
  simpl.
  destruct (Query.User_findById U db); [|discriminate].
  destruct (Query.Service_findById S db); [|discriminate].
  destruct (Query.UserService_findOne U (@Some ObjectId S) db);
    [discriminate|].
  destruct ((0 <? List.length (body_roles (body req)))%nat
            && negb (List.length
                       (Query.Role_find_valid_for (body_roles (body req))
                          (@Some ObjectId S) db)
                     =? List.length (body_roles (body req)))%nat) eqn:Hchk;
    [discriminate|].
  match goal with
  | |- context [UserService_insert ?g db] =>
      destruct (UserService_insert g db) as [e|db1] eqn:Hins;
        [discriminate|]; intros Hrun; injection Hrun as <- _;
      apply UserService_insert_inr in Hins; destruct Hins as [_ ->];
      exists g, S
  end.
  repeat split; try reflexivity.
  - simpl. apply andb_false_iff in Hchk. destruct Hchk as [Hz|Hl].
    + apply Nat.ltb_ge in Hz.
      destruct (body_roles (body req)); [constructor | simpl in Hz; lia].
    + apply negb_false_iff, Nat.eqb_eq in Hl.
      now apply (valid_roles_count _ _ _ Hnd Hl).
  - simpl. intros rid Hin. apply andb_false_iff in Hchk.
    destruct Hchk as [Hz|Hl].
    + apply Nat.ltb_ge in Hz.
      destruct (body_roles (body req)); [destruct Hin | simpl in Hz; lia].
    + apply negb_false_iff, Nat.eqb_eq in Hl.
      now apply (valid_roles_count _ _ _ Hnd Hl).
Qed.

Lemma assignUserToService_roles_are_valid_witness :
  exists db' data g sid,
    assignUserToService Sample.ObjectId_isValid "g-8" Sample2.db1
      Sample2.assign_alice_payroll = (db', Json 201 data) /\
    userServices db' = (userServices Sample2.db1 ++ [g])%list /\
    us_id g = "g-8" /\
    us_serviceId g = Some sid /\
    us_roles g = ["r-auditor"] /\
    NoDup (us_roles g) /\
    forall rid, In rid (us_roles g) ->
      exists r, In r (roles Sample2.db1) /\ r_id r = rid /\
                (r_serviceId r = Some sid \/ isGlobal r = true).
Proof.
  assert (Hnd : NoDup (map r_id (roles Sample2.db1))).
  { simpl. repeat constructor; simpl; intuition discriminate. }
  do 2 eexists.
  destruct (@assignUserToService_roles_are_valid Sample.ObjectId_isValid
              "g-8" Sample2.db1 _ Sample2.assign_alice_payroll _ Hnd
              eq_refl)
    as [g [sid [Hgs [Hid [_ [_ [Hsid [Hroles [Hnodup Hvalid]]]]]]]]].
  exists g, sid. split; [reflexivity|]. repeat split; assumption.
Defined.

Lemma grants_unique_eq (l : list UserService) (a b : UserService) :
  grants_unique l -> In a l -> In b l ->
  us_userId a = us_userId b -> us_serviceId a = us_serviceId b ->
  us_id a = us_id b.
Proof.
  induction l as [|x l IH]; simpl; intros Hu Ha Hb H1 H2; [destruct Ha|].
  destruct Hu as [Hx Hrest].
  destruct Ha as [->|Ha], Hb as [->|Hb].
  - reflexivity.
  - exfalso. apply (Hx b Hb). split; congruence.
  - exfalso. apply (Hx a Ha). now split.
  - now apply IH.
Qed.

(** X23. [removeUserFromService] deletes the grant with the given id
    and no other, and touches no other collection. With one grant per
    (principal, tenant) pair, a bearer token of that principal for that
    tenant that still verifies is answered "User does not have access
    to this service." (403) from then on. *)
Theorem removeUserFromService_revokes_access :
  forall (db : DB) (req : Request) (i : ObjectId) (g : UserService),
    param "id" (params req) = Some i ->
    find (fun x => us_id x =? i) (userServices db) = Some g ->
    grants_unique (userServices db) ->
    exists db' o,
      removeUserFromService db req = (db', o) /\
      (forall x, In x (userServices db') <->
                 In x (userServices db) /\ us_id x <> i) /\
      (users db' = users db /\ services db' = services db /\
       roles db' = roles db /\ tokens db' = tokens db /\
       auditLogs db' = auditLogs db) /\
      (forall (jwt_verify : string -> Verified) (req2 : Request)
              (d : Decoded) (user : User) (service : Service),
         verified_request jwt_verify req2 d ->
         Query.User_findById (d_id d) db = Some user ->
         u_status user = "active" ->
         truthy_id (d_serviceId d) = Some (s_id service) ->
         Query.Service_findById (s_id service) db = Some service ->
         active service = true ->
         us_userId g = u_id user ->
         us_serviceId g = Some (s_id service) ->
         authenticate jwt_verify db' req2 = NextErr NoAccess).
Proof.
  intros db req i g Hp Hf Hu.
  pose proof (find_some _ _ Hf) as [Hgin Hgid]. simpl in Hgid.
  apply String.eqb_eq in Hgid.
  set (db' := set_userServices db
                (filter (fun x => negb (us_id x =? us_id g))
                        (userServices db))).
  assert (Hrun : exists o, removeUserFromService db req = (db', o)).
  { unfold removeUserFromService. rewrite Hp, Hf.
    destruct (Query.User_findById (us_userId g) db);
      [|eexists; reflexivity].
    destruct (us_serviceId g) as [sid|]; [|eexists; reflexivity].
    destruct (Query.Service_findById sid db); eexists; reflexivity. }
  destruct Hrun as [o Hrun]. exists db', o. split; [exact Hrun|].
  assert (Hgrants : forall x, In x (userServices db') <->
                              In x (userServices db) /\ us_id x <> i).
  { intros x. unfold db'. simpl.
    rewrite filter_In, negb_true_iff, String.eqb_neq, Hgid. tauto. }
  split; [exact Hgrants|]. split; [unfold db'; simpl; tauto|].
  intros jwt_verify req2 d user service Hv Huser Hact Hsid Hs Hsa Hgu Hgs.
  rewrite (authenticate_verified db' Hv). unfold authenticate_decoded.
  change (Query.User_findById (d_id d) db')
    with (Query.User_findById (d_id d) db).
  rewrite Huser, Hact, Hsid. simpl.
  change (Query.Service_findById (s_id service) db')
    with (Query.Service_findById (s_id service) db).
  rewrite Hs, Hsa. simpl.
  destruct (Query.UserService_findOne (u_id user) (Some (s_id service)) db')
    as [x|] eqn:Hx; [|reflexivity].
  exfalso. apply UserService_findOne_In in Hx.
  destruct Hx as [Hxin [Hxu Hxs]]. apply Hgrants in Hxin.
  destruct Hxin as [Hxin Hne]. apply Hne. rewrite <- Hgid.
  apply (grants_unique_eq _ _ _ Hu Hxin Hgin); congruence.
Qed.

(** Alice's billing grant is removed: her billing token is refused. *)
Lemma removeUserFromService_revokes_access_witness :
  exists db' o,
    removeUserFromService Sample.db0 (Sample2.by_id "g-2") = (db', o) /\
    ~ In Sample.alice_billing (userServices db') /\
    In Sample.bob_billing (userServices db') /\
    authenticate Sample.jwt_verify db'
      (Sample.request (Some "Bearer jwt-alice-billing") [])
    = NextErr NoAccess.
Proof.
  destruct (@removeUserFromService_revokes_access Sample.db0
              (Sample2.by_id "g-2") "g-2" Sample.alice_billing
              eq_refl eq_refl sample_grants_unique)
    as [db' [o [Hrun [Hg [_ Hauth]]]]].
  exists db', o. split; [exact Hrun|]. split; [|split].
  - intros Hin. apply Hg in Hin. destruct Hin as [_ Hne]. now apply Hne.
  - apply Hg. split; [simpl; tauto | discriminate].
  - apply (Hauth Sample.jwt_verify _
                 (mkDecoded "u-alice" "alice" (Some "s-billing"))
                 Sample.alice Sample.billing); try reflexivity.
    exists "Bearer jwt-alice-billing", "jwt-alice-billing".
    repeat split; try reflexivity. discriminate.
Defined.

(** X24. Removing a global grant (one without a service) deletes it and
    then fails while the answer is built: the request ends in a
    TypeError that is answered 500 although the grant is gone, and the
    same request sent again is answered 404. *)
Theorem removeUserFromService_global_grant_answers_500 :
  forall (db : DB) (req : Request) (i : ObjectId) (g : UserService),
    param "id" (params req) = Some i ->
    find (fun x => us_id x =? i) (userServices db) = Some g ->
    us_serviceId g = None ->
    let db' :=
      set_userServices db
        (filter (fun x => negb (us_id x =? us_id g)) (userServices db)) in
    removeUserFromService db req
    = (db', NextErr (TypeError "Cannot read properties of null")) /\
    errorHandler_status (TypeError "Cannot read properties of null")
    = 500%Z /\
    ~ In g (userServices db') /\
    removeUserFromService db' req
    = (db', NextErr (APIError "User-service assignment not found" 404)).
Proof.
  intros db req i g Hp Hf Hs db'.
  assert (Hrun : removeUserFromService db req
                 = (db', NextErr (TypeError "Cannot read properties of null"))).
  { unfold removeUserFromService. rewrite Hp, Hf, Hs.
    destruct (Query.User_findById (us_userId g) db); reflexivity. }
  split; [exact Hrun|]. split; [reflexivity|]. split.
  - unfold db'. simpl. intros Hin. apply filter_In in Hin.
    destruct Hin as [_ Hneg]. rewrite String.eqb_refl in Hneg.
    discriminate.
  - apply find_some in Hf. destruct Hf as [_ Hid].
    apply String.eqb_eq in Hid.
    unfold removeUserFromService. rewrite Hp.
    destruct (find (fun x => us_id x =? i) (userServices db')) as [x|] eqn:Hx;
      [|reflexivity].
    exfalso. apply find_some in Hx. destruct Hx as [Hin Hxi].
    unfold db' in Hin. simpl in Hin. apply filter_In in Hin.
    destruct Hin as [_ Hneg]. rewrite Hid in Hneg.
    rewrite Hxi in Hneg. discriminate.
Qed.

(** Alice's global grant is removed. *)
Lemma removeUserFromService_global_grant_answers_500_witness :
  exists db',
    removeUserFromService Sample.db0 (Sample2.by_id "g-1")
    = (db', NextErr (TypeError "Cannot read properties of null")) /\
    ~ In Sample.alice_global (userServices db') /\
    removeUserFromService db' (Sample2.by_id "g-1")
    = (db', NextErr (APIError "User-service assignment not found" 404)).
Proof.
  destruct (@removeUserFromService_global_grant_answers_500 Sample.db0
              (Sample2.by_id "g-1") "g-1" Sample.alice_global
              eq_refl eq_refl eq_refl)
    as [Hrun [_ [Hgone Hagain]]].
  eexists. split; [exact Hrun|]. split; [exact Hgone | exact Hagain].
Defined.

Lemma Js_get_set (k k1 : string) (v : Js.value) (a : Js.object) :
  Js.get k (Js.set k1 v a) = if k1 =? k then Some v else Js.get k a.
Proof.
  induction a as [|[k' v'] a IH]; simpl.
  - reflexivity.
  - destruct (k' =? k1) eqn:H1; simpl.
    + apply String.eqb_eq in H1. subst k'.
      destruct (k1 =? k); reflexivity.
    + destruct (k' =? k) eqn:H2.
      * apply String.eqb_eq in H2. subst k'.
        rewrite String.eqb_sym in H1. now rewrite H1.
      * exact IH.
Qed.

Lemma Js_get_not_in (k : string) (o : Js.object) :
  ~ In k (map fst o) -> Js.get k o = None.
Proof.
  induction o as [|[k' v'] o IH]; simpl; intros Hn; [reflexivity|].
  destruct (k' =? k) eqn:Hk.
  - apply String.eqb_eq in Hk. exfalso. apply Hn. now left.
  - apply IH. intros H. apply Hn. now right.
Qed.

(** [{ ...a, ...b }]: a field of [b] wins, any other field of [a] stays. *)
Lemma merge_get (a b : Js.object) (k : string) :
  NoDup (map fst b) ->
  Js.get k (merge a b)
  = match Js.get k b with
    | Some v => Some v
    | None => Js.get k a
    end.
Proof.
  unfold merge. revert a. induction b as [|[k1 v1] b IH]; intros a Hnd.
  - reflexivity.
  - simpl in Hnd. inversion Hnd as [|? ? Hnotin Hnd']; subst.
    simpl. rewrite (IH _ Hnd'), Js_get_set.
    destruct (k1 =? k) eqn:Hk.
    + apply String.eqb_eq in Hk. subst k1.
      now rewrite (Js_get_not_in _ _ Hnotin).
    + reflexivity.
Qed.

Lemma UserService_findOne_replace (uid : ObjectId) (sid : option ObjectId)
    (db : DB) (g g' : UserService) :
  Query.UserService_findOne uid sid db = Some g ->
  us_id g' = us_id g -> us_userId g' = us_userId g ->
  us_serviceId g' = us_serviceId g ->
  Query.UserService_findOne uid sid (UserService_replace g' db) = Some g'.
Proof.
  intros Hf Hid Hu Hs.
  destruct (UserService_findOne_In _ _ _ Hf) as [_ [Hgu Hgs]].
  unfold Query.UserService_findOne, UserService_replace in *. simpl.
  assert (Hg' : (us_userId g' =? uid) && oid_eqb (us_serviceId g') sid
                = true).
  { rewrite Hu, Hs, Hgu, Hgs, String.eqb_refl. simpl.
    now apply oid_eqb_eq. }
  induction (userServices db) as [|x l IH]; simpl in *; [discriminate|].
  destruct (us_id x =? us_id g') eqn:Hx.
  - simpl. now rewrite Hg'.
  - simpl. destruct ((us_userId x =? uid) && oid_eqb (us_serviceId x) sid)
      eqn:Hpx.
    + injection Hf as ->. rewrite Hid, String.eqb_refl in Hx. discriminate.
    + now apply IH.
Qed.

(** X25. [updateCustomData] with an object merges it into the custom
    data of the grant of that user and service: afterwards a key of the
    request holds the value of the request and every other key holds
    what it held before. Nothing else of the grant changes, and no
    other grant is touched (grant ids being unique). *)
Theorem updateCustomData_merges :
  forall (db : DB) (req : Request) (uid sid : ObjectId)
         (g : UserService) (data : Js.object),
    Js.get "customData" (body req) = Some (Js.Obj data) ->
    NoDup (map fst data) ->
    param "userId" (params req) = Some uid ->
    param "serviceId" (params req) = Some sid ->
    Query.UserService_findOne uid (Some sid) db = Some g ->
    NoDup (map us_id (userServices db)) ->
    exists db' merged,
      updateCustomData db req
      = (db', Json 200 (Js.Obj
                (msg true "Custom data updated successfully"
                 ++ [("customData", Js.Obj merged)]))) /\
      (forall k,
         Js.get k merged
         = match Js.get k data with
           | Some v => Some v
           | None => Js.get k (customData g)
           end) /\
      Query.UserService_findOne uid (Some sid) db'
      = Some (with_customData g merged) /\
      (forall x, In x (userServices db) -> us_id x <> us_id g ->
                 In x (userServices db')) /\
      map (fun x => (us_id x, us_userId x, us_serviceId x, us_roles x,
                     us_status x)) (userServices db')
      = map (fun x => (us_id x, us_userId x, us_serviceId x, us_roles x,
                       us_status x)) (userServices db).
Proof.
  intros db req uid sid g data Hb Hnd Hpu Hps Hf Hids.
  unfold updateCustomData. rewrite Hb, Hpu, Hps. simpl.
  assert (Hf' : Query.UserService_findOne uid (@Some string sid) db = Some g)
    by exact Hf.
  rewrite Hf'. do 2 eexists.
  split; [reflexivity|]. split; [|split; [|split]].
  - intros k. now apply merge_get.
  - now apply (@UserService_findOne_replace uid (Some sid) db g).
  - intros x Hin Hne. unfold UserService_replace. simpl.
    apply in_map_iff. exists x. split; [|exact Hin].
    assert (Hx : (us_id x =? us_id g) = false) by now apply String.eqb_neq.
    simpl. now rewrite Hx.
  - unfold UserService_replace. simpl. rewrite map_map.
    apply map_ext_in. intros x Hx.
    destruct (us_id x =? us_id g) eqn:Hid; [|reflexivity].
    apply String.eqb_eq in Hid.
    destruct (UserService_findOne_In _ _ _ Hf) as [Hgin _].
    assert (x = g)
      by (apply (@NoDup_map_inj _ _ us_id (userServices db)); assumption).
    subst x. reflexivity.
Qed.

(** Dave's billing grant holds theme and seats; seats is overwritten
    and plan is added. *)
Lemma updateCustomData_merges_witness :
  exists db',
    updateCustomData Sample2.db1
      (Sample.request_with None
         [("userId", "u-dave"); ("serviceId", "s-billing")]
         [("customData",
           Js.Obj [("seats", Js.Num 5); ("plan", Js.Str "pro")])])
    = (db', Json 200 (Js.Obj
              (msg true "Custom data updated successfully"
               ++ [("customData",
                    Js.Obj [("theme", Js.Str "dark"); ("seats", Js.Num 5);
                            ("plan", Js.Str "pro")])]))) /\
    Query.UserService_findOne "u-dave" (Some "s-billing") db'
    = Some (with_customData Sample2.dave_billing
              [("theme", Js.Str "dark"); ("seats", Js.Num 5);
               ("plan", Js.Str "pro")]) /\
    In Sample2.dave_global (userServices db').
Proof.
  destruct (@updateCustomData_merges Sample2.db1
              (Sample.request_with None
                 [("userId", "u-dave"); ("serviceId", "s-billing")]
                 [("customData",
                   Js.Obj [("seats", Js.Num 5); ("plan", Js.Str "pro")])])
              "u-dave" "s-billing" Sample2.dave_billing
              [("seats", Js.Num 5); ("plan", Js.Str "pro")])
    as [db' [merged [Hrun [_ [Hfind [Hother _]]]]]];
    try reflexivity;
    try (simpl; repeat constructor; simpl; intuition discriminate).
  exists db'. injection Hrun as <- <-.
  split; [reflexivity|]. split; [exact Hfind|].
  apply Hother; [simpl; tauto | discriminate].
Defined.

(* ================================================================== *)
(** ** Services: deletion, referential integrity, credentials *)
(* ================================================================== *)

Lemma filter_length_zero (A : Type) (p : A -> bool) (l : list A) :
  (0 <? List.length (filter p l))%nat = false <->
  forall x, In x l -> p x = false.
Proof.
  rewrite Nat.ltb_ge. split.
  - intros Hz x Hin. destruct (p x) eqn:Hp; [|reflexivity]. exfalso.
    assert (Hf : In x (filter p l)) by (apply filter_In; now split).
    destruct (filter p l); [destruct Hf | simpl in Hz; lia].
  - intros Hall. destruct (filter p l) as [|y rest] eqn:Hf; [simpl; lia|].
    assert (Hy : In y (filter p l)) by (rewrite Hf; now left).
    apply filter_In in Hy. destruct Hy as [Hy Hp].
    rewrite (Hall y Hy) in Hp. discriminate.
Qed.

(** X26. [deleteService] deletes a stored service exactly when no grant
    and no role refers to it; while a grant or a role does, it answers
    400 and writes nothing. After the deletion the service is no longer
    stored and everything else is as it was. *)
Theorem deleteService_only_when_unused :
  forall (db : DB) (req : Request) (i : ObjectId) (service : Service),
    param "id" (params req) = Some i ->
    Query.Service_findById i db = Some service ->
    ((exists g, In g (userServices db) /\ us_serviceId g = Some i) \/
     (exists r, In r (roles db) /\ r_serviceId r = Some i) ->
     exists message,
       deleteService db req = (db, NextErr (APIError message 400))) /\
    ((forall g, In g (userServices db) -> us_serviceId g <> Some i) ->
     (forall r, In r (roles db) -> r_serviceId r <> Some i) ->
     exists db',
       deleteService db req
       = (db', Json 200 (Js.Obj (msg true "Service deleted successfully")))
       /\
       Query.Service_findById i db' = None /\
       (forall s, In s (services db') <-> In s (services db) /\ s_id s <> i)
       /\
       users db' = users db /\ roles db' = roles db /\
       userServices db' = userServices db /\ tokens db' = tokens db /\
       auditLogs db' = auditLogs db).
Proof.
  intros db req i service Hp Hf.
  destruct (Service_findById_id _ _ Hf) as [_ Hid].
  unfold deleteService. rewrite Hp, Hf, Hid.
  set (grantsOf := filter (fun g => oid_eqb (us_serviceId g) (Some i))
                          (userServices db)).
  set (rolesOf := filter (fun r => oid_eqb (r_serviceId r) (Some i))
                         (roles db)).
  split.
  - intros Hused.
    destruct (0 <? List.length grantsOf)%nat eqn:Hg;
      [eexists; reflexivity|].
    destruct (0 <? List.length rolesOf)%nat eqn:Hr;
      [eexists; reflexivity|].
    exfalso. unfold grantsOf in Hg. unfold rolesOf in Hr.
    rewrite filter_length_zero in Hg, Hr.
    destruct Hused as [[g [Hin Hs]] | [r [Hin Hs]]].
    + specialize (Hg g Hin). rewrite Hs in Hg. simpl in Hg.
      rewrite String.eqb_refl in Hg. discriminate.
    + specialize (Hr r Hin). rewrite Hs in Hr. simpl in Hr.
      rewrite String.eqb_refl in Hr. discriminate.
  - intros Hng Hnr.
    assert (Hg : (0 <? List.length grantsOf)%nat = false).
    { apply filter_length_zero. intros g Hin.
      destruct (oid_eqb (us_serviceId g) (Some i)) eqn:Heq;
        [|reflexivity].
      apply oid_eqb_eq in Heq. now apply Hng in Hin. }
    assert (Hr : (0 <? List.length rolesOf)%nat = false).
    { apply filter_length_zero. intros r Hin.
      destruct (oid_eqb (r_serviceId r) (Some i)) eqn:Heq; [|reflexivity].
      apply oid_eqb_eq in Heq. now apply Hnr in Hin. }
    rewrite Hg, Hr. eexists. split; [reflexivity|]. simpl.
    split; [|split; [|repeat split]].
    + unfold Query.Service_findById. simpl.
      destruct (find _ (filter _ (services db))) as [s|] eqn:Hfs;
        [|reflexivity].
      apply find_some in Hfs. destruct Hfs as [Hin Heq].
      apply filter_In in Hin. destruct Hin as [_ Hneg].
      rewrite Heq in Hneg. discriminate.
    + intros s. rewrite filter_In, negb_true_iff, String.eqb_neq. tauto.
Qed.

Lemma deleteService_only_when_unused_witness :
  (exists message,
     deleteService Sample2.db1 (Sample2.by_id "s-billing")
     = (Sample2.db1, NextErr (APIError message 400))) /\
  (exists db',
     deleteService Sample2.db1 (Sample2.by_id "s-payroll")
     = (db', Json 200 (Js.Obj (msg true "Service deleted successfully"))) /\
     Query.Service_findById "s-payroll" db' = None /\
     services db' = [Sample.billing]).
Proof.
  split.
  - destruct (@deleteService_only_when_unused Sample2.db1
                (Sample2.by_id "s-billing") "s-billing" Sample.billing
                eq_refl eq_refl) as [H _].
    apply H. left. exists Sample.alice_billing. split; [|reflexivity].
    simpl. tauto.
  - destruct (@deleteService_only_when_unused Sample2.db1
                (Sample2.by_id "s-payroll") "s-payroll" Sample2.payroll
                eq_refl eq_refl) as [_ H].
    destruct H as [db' [Hrun [Hgone _]]].
    + intros g Hin. in_cases Hin.
    + intros r Hin. in_cases Hin.
    + exists db'. split; [exact Hrun|]. split; [exact Hgone|].
      injection Hrun as <-. reflexivity.
Defined.

Lemma refs_ok_shrink (db db' : DB) :
  refs_ok db ->
  (forall g, In g (userServices db') -> In g (userServices db)) ->
  (forall r, In r (roles db') -> In r (roles db)) ->
  (forall t, In t (tokens db') -> In t (tokens db)) ->
  (forall g u, In g (userServices db') -> In u (users db) ->
               u_id u = us_userId g -> In u (users db')) ->
  (forall t u, In t (tokens db') -> In u (users db) ->
               u_id u = t_userId t -> In u (users db')) ->
  (forall g s, In g (userServices db') -> In s (services db) ->
               us_serviceId g = Some (s_id s) -> In s (services db')) ->
  (forall r s, In r (roles db') -> In s (services db) ->
               r_serviceId r = Some (s_id s) -> In s (services db')) ->
  (forall g r, In g (userServices db') -> In r (roles db) ->
               In (r_id r) (us_roles g) -> In r (roles db')) ->
  refs_ok db'.
Proof.
  intros [Hg [Hr Ht]] Sg Sr St Ugu Utu Ugs Urs Ugr.
  split; [|split].
  - intros g Hin. destruct (Hg g (Sg g Hin)) as [[u [Hu Hid]] [Hs Hrs]].
    split; [|split].
    + exists u. split; [now apply (Ugu g u)|exact Hid].
    + intros sid Hsid. destruct (Hs sid Hsid) as [s [Hins Heq]].
      exists s. split; [|exact Heq].
      apply (Ugs g s Hin Hins). now rewrite Heq.
    + intros rid Hrid. destruct (Hrs rid Hrid) as [r [Hinr Heq]].
      exists r. split; [|exact Heq].
      apply (Ugr g r Hin Hinr). now rewrite Heq.
  - intros r Hin sid Hsid.
    destruct (Hr r (Sr r Hin) sid Hsid) as [s [Hins Heq]].
    exists s. split; [|exact Heq].
    apply (Urs r s Hin Hins). now rewrite Heq.
  - intros t Hin. destruct (Ht t (St t Hin)) as [u [Hu Hid]].
    exists u. split; [now apply (Utu t u)|exact Hid].
Qed.

(** X27. The three deletions keep the references of the store whole:
    when every grant, role and token of the store points at stored
    documents, the same holds after [deleteUser], after [deleteService]
    and after [deleteRole], whatever the request and whatever they
    answer. *)
Theorem deletions_keep_references :
  forall (ADMIN_USERNAME : option string) (db : DB) (req : Request),
    refs_ok db ->
    refs_ok (fst (deleteUser ADMIN_USERNAME db req)) /\
    refs_ok (fst (deleteService db req)) /\
    refs_ok (fst (deleteRole db req)).
Proof.
  intros adm db req Hok. split; [|split].
  - unfold deleteUser.
    destruct (match param "id" (params req) with
              | Some i => Query.User_findById i db
              | None => None
              end) as [user|]; [|exact Hok].
    destruct (match adm with Some a => username user =? a | None => false end);
      [exact Hok|].
    cbn [fst]. apply (@refs_ok_shrink db _ Hok); simpl.
    + intros g Hin. now apply filter_In in Hin.
    + tauto.
    + intros t Hin. now apply filter_In in Hin.
    + intros g u Hin Hu Hid. apply filter_In in Hin. destruct Hin as [_ Hne].
      apply filter_In. split; [exact Hu|]. now rewrite Hid.
    + intros t u Hin Hu Hid. apply filter_In in Hin. destruct Hin as [_ Hne].
      apply filter_In. split; [exact Hu|]. now rewrite Hid.
    + tauto.
    + tauto.
    + tauto.
  - unfold deleteService.
    destruct (match param "id" (params req) with
              | Some i => Query.Service_findById i db
              | None => None
              end) as [service|]; [|exact Hok].
    destruct (0 <? List.length
                (filter (fun g => oid_eqb (us_serviceId g)
                                          (Some (s_id service)))
                        (userServices db)))%nat eqn:Hg; [exact Hok|].
    destruct (0 <? List.length
                (filter (fun r => oid_eqb (r_serviceId r)
                                          (Some (s_id service)))
                        (roles db)))%nat eqn:Hr; [exact Hok|].
    rewrite filter_length_zero in Hg, Hr.
    cbn [fst]. apply (@refs_ok_shrink db _ Hok); simpl; try tauto.
    + intros g s Hin Hs Hsid. apply filter_In. split; [exact Hs|].
      specialize (Hg g Hin). rewrite Hsid in Hg. simpl in Hg. now rewrite Hg.
    + intros r s Hin Hs Hsid. apply filter_In. split; [exact Hs|].
      specialize (Hr r Hin). rewrite Hsid in Hr. simpl in Hr. now rewrite Hr.
  - unfold deleteRole.
    destruct (match param "id" (params req) with
              | Some i => Query.Role_findById i db
              | None => None
              end) as [role|]; [|exact Hok].
    destruct ((r_name role =? "admin") && isGlobal role); [exact Hok|].
    destruct ((r_name role =? "user") && isGlobal role); [exact Hok|].
    destruct (0 <? Query.UserService_count_with_role (r_id role) db)%nat
      eqn:Hc; [exact Hok|].
    unfold Query.UserService_count_with_role in Hc.
    rewrite filter_length_zero in Hc.
    cbn [fst]. apply (@refs_ok_shrink db _ Hok); simpl; try tauto.
    + intros r Hin. now apply filter_In in Hin.
    + intros g r Hin Hr Hrid. apply filter_In. split; [exact Hr|].
      specialize (Hc g Hin).
      destruct (r_id r =? r_id role) eqn:Heq; [|reflexivity].
      apply String.eqb_eq in Heq. rewrite Heq in Hrid.
      apply mem_id_In in Hrid. rewrite Hrid in Hc. discriminate.
Qed.

Ltac pick_member :=
  vm_compute; repeat first [left; reflexivity | right].

Ltac stored_user :=
  match goal with
  | |- exists u, In u (users ?d) /\ u_id u = ?i =>
      let r := eval vm_compute in (Query.User_findById i d) in
      match r with
      | Some ?u => exists u; split; [pick_member | reflexivity]
      end
  end.

Ltac stored_service sid :=
  match goal with
  | |- exists s, In s (services ?d) /\ s_id s = _ =>
      let r := eval vm_compute in (Query.Service_findById sid d) in
      match r with
      | Some ?s => exists s; split; [pick_member | reflexivity]
      end
  end.

Ltac stored_role rid :=
  match goal with
  | |- exists r, In r (roles ?d) /\ r_id r = _ =>
      let r := eval vm_compute in (Query.Role_findById rid d) in
      match r with
      | Some ?x => exists x; split; [pick_member | reflexivity]
      end
  end.

Lemma sample_refs_ok : refs_ok Sample2.db1.
Proof.
  split; [|split].
  - intros g Hin. simpl in Hin.
    repeat (destruct Hin as [<-|Hin];
            [split; [stored_user|split];
             [intros sid Hsid; simpl in Hsid;
              first [discriminate
                    | injection Hsid as <-; stored_service "s-billing"]
             |intros rid Hrid; simpl in Hrid;
              repeat (destruct Hrid as [<-|Hrid];
                      [first [stored_role "r-admin" | stored_role "r-user"
                             | stored_role "r-billing-admin"
                             | stored_role "r-clerk"
                             | stored_role "r-auditor"
                             | stored_role "r-intern"]|]);
              destruct Hrid]|]).
    destruct Hin.
  - intros r Hin sid Hsid. simpl in Hin.
    repeat (destruct Hin as [<-|Hin];
            [simpl in Hsid;
             first [discriminate
                   | injection Hsid as <-; stored_service "s-billing"]|]).
    destruct Hin.
  - intros t Hin. simpl in Hin.
    repeat (destruct Hin as [<-|Hin]; [stored_user|]).
    destruct Hin.
Qed.

Lemma deletions_keep_references_witness :
  refs_ok (fst (deleteUser (Some "alice") Sample2.db1 (Sample2.by_id "u-bob")))
  /\
  refs_ok (fst (deleteService Sample2.db1 (Sample2.by_id "s-payroll"))) /\
  refs_ok (fst (deleteRole Sample2.db1 (Sample2.by_id "r-intern"))).
Proof.
  split; [|split].
  - exact (proj1 (@deletions_keep_references (Some "alice") Sample2.db1
                    (Sample2.by_id "u-bob") sample_refs_ok)).
  - exact (proj1 (proj2 (@deletions_keep_references None Sample2.db1
                           (Sample2.by_id "s-payroll") sample_refs_ok))).
  - exact (proj2 (proj2 (@deletions_keep_references None Sample2.db1
                           (Sample2.by_id "r-intern") sample_refs_ok))).
Defined.

Lemma find_replaced (q : Service -> bool) (i : ObjectId) (fresh : Service)
    (l : list Service) :
  (forall s, In s l -> s_id s <> i -> q s = false) ->
  find q (map (fun s' => if s_id s' =? i then fresh else s') l)
  = if q fresh && existsb (fun s => s_id s =? i) l then Some fresh else None.
Proof.
  induction l as [|s l IH]; intros Hq; simpl.
  - now rewrite andb_false_r.
  - destruct (s_id s =? i) eqn:Hs; simpl.
    + rewrite andb_true_r. destruct (q fresh) eqn:Hf; [reflexivity|].
      rewrite IH by (intros; apply Hq; [now right | assumption]).
      try rewrite Hf. reflexivity.
    + apply String.eqb_neq in Hs. rewrite (Hq s (or_introl eq_refl) Hs).
      apply IH. intros; apply Hq; [now right | assumption].
Qed.

Lemma regenerateCredentials_run (slug : string -> string) (r8 r16 : string)
    (db : DB) (req : Request) (i : ObjectId) (service : Service) :
  param "id" (params req) = Some i ->
  Query.Service_findById i db = Some service ->
  (forall s, In s (services db) ->
             apiKey s <> apiKey (regenerated slug r8 r16 service)) ->
  regenerateCredentials slug r8 r16 db req
  = (set_services db
       (map (fun s' => if s_id s' =? i
                       then regenerated slug r8 r16 service else s')
            (services db)),
     Json 200 (Js.Obj
       (msg true "API credentials regenerated successfully"
        ++ [("service",
             Js.Obj [("_id", Js.Str i);
                     ("name", Js.Str (s_name service));
                     ("apiKey",
                      Js.Str (apiKey (regenerated slug r8 r16 service)));
                     ("apiSecret",
                      Js.Str (apiSecret
                                (regenerated slug r8 r16 service)))])])%list)).
Proof.
  intros Hp Hf Hnew.
  destruct (Service_findById_id _ _ Hf) as [Hin Hid].
  set (fresh := regenerated slug r8 r16 service) in *.
  assert (Hfid : s_id fresh = i) by exact Hid.
  assert (Hex : existsb (fun s => s_id s =? i) (services db) = true).
  { apply existsb_exists. exists service. split; [exact Hin|].
    now apply String.eqb_eq. }
  set (l' := map (fun s' => if s_id s' =? i then fresh else s')
                 (services db)).
  assert (Hsave : Service_save fresh db = inr (set_services db l')).
  { unfold Service_save.
    replace (existsb _ (services db)) with false; [now rewrite Hfid|].
    symmetry. apply not_true_is_false. intros Hx.
    apply existsb_exists in Hx. destruct Hx as [s [Hs Hb]].
    apply andb_true_iff in Hb. destruct Hb as [Hk _].
    apply String.eqb_eq in Hk. exact (Hnew s Hs Hk). }
  assert (Hfind : Query.Service_findById i (set_services db l') = Some fresh).
  { unfold Query.Service_findById, l'. simpl.
    rewrite find_replaced.
    - now rewrite Hfid, String.eqb_refl, Hex.
    - intros s _ Hne. now apply String.eqb_neq. }
  unfold regenerateCredentials. rewrite Hp, Hf. fold fresh.
  rewrite Hsave, Hid, Hfind. rewrite Hfid. reflexivity.
Qed.

Lemma new_pair_accepted (slug : string -> string) (r8 r16 : string)
    (db db' : DB) (i : ObjectId) (service : Service) (req2 : Request) :
  Query.Service_findById i db = Some service ->
  (forall s, In s (services db) ->
             apiKey s <> apiKey (regenerated slug r8 r16 service)) ->
  services db'
  = map (fun s' => if s_id s' =? i
                   then regenerated slug r8 r16 service else s')
        (services db) ->
  authenticateService
    (Some (apiKey (regenerated slug r8 r16 service)))
    (Some (apiSecret (regenerated slug r8 r16 service))) db' req2
  = if active service
    then Next (with_service req2 (regenerated slug r8 r16 service))
    else NextErr (APIError "Service is not active." 403).
Proof.
  intros Hf Hnew Hl.
  destruct (Service_findById_id _ _ Hf) as [Hin Hid].
  set (fresh := regenerated slug r8 r16 service) in *.
  assert (Hex : existsb (fun s => s_id s =? i) (services db) = true).
  { apply existsb_exists. exists service. split; [exact Hin|].
    now apply String.eqb_eq. }
  unfold authenticateService.
  assert (Hk : apiKey fresh <> "") by (simpl; discriminate).
  assert (Hs : apiSecret fresh <> "") by (simpl; discriminate).
  unfold or_else.
  apply String.eqb_neq in Hk, Hs. rewrite Hk, Hs.
  rewrite Hl, find_replaced.
  - rewrite String.eqb_refl, Hex. simpl.
    rewrite String.eqb_refl. simpl.
    now destruct (active service).
  - intros s Hs' _. apply String.eqb_neq. now apply Hnew.
Qed.

(** X28. [regenerateCredentials] replaces the key pair of the service:
    when the new key is not in use, the call answers 200 and stores the
    service with the new pair; from then on [authenticateService] lets
    the new pair through (for an active service), answers 401 to the old
    key whatever secret comes with it, and the other services are
    stored as before. *)
Theorem regenerateCredentials_replaces_the_pair :
  forall (slug : string -> string) (r8 r16 : string) (db : DB)
         (req : Request) (i : ObjectId) (service : Service),
    param "id" (params req) = Some i ->
    Query.Service_findById i db = Some service ->
    NoDup (map apiKey (services db)) ->
    (forall s, In s (services db) ->
               apiKey s <> apiKey (regenerated slug r8 r16 service)) ->
    exists db' data,
      regenerateCredentials slug r8 r16 db req = (db', Json 200 data) /\
      Query.Service_findById i db' = Some (regenerated slug r8 r16 service)
      /\
      (forall req2,
         authenticateService
           (Some (apiKey (regenerated slug r8 r16 service)))
           (Some (apiSecret (regenerated slug r8 r16 service))) db' req2
         = if active service
           then Next (with_service req2 (regenerated slug r8 r16 service))
           else NextErr (APIError "Service is not active." 403)) /\
      (active service = true ->
       forall req2,
       exists req',
         authenticateService
           (Some (apiKey (regenerated slug r8 r16 service)))
           (Some (apiSecret (regenerated slug r8 r16 service))) db' req2
         = Next req' /\
         req_service req' = Some (regenerated slug r8 r16 service)) /\
      (forall secret req2,
       exists message,
         authenticateService (Some (apiKey service)) secret db' req2
         = NextErr (APIError message 401)) /\
      (forall s, s_id s <> i ->
                 (In s (services db') <-> In s (services db))) /\
      users db' = users db /\ roles db' = roles db /\
      userServices db' = userServices db /\ tokens db' = tokens db /\
      auditLogs db' = auditLogs db.
Proof.
  intros slug r8 r16 db req i service Hp Hf Hnd Hnew.
  destruct (Service_findById_id _ _ Hf) as [Hin Hid].
  set (fresh := regenerated slug r8 r16 service) in *.
  assert (Hfid : s_id fresh = i) by exact Hid.
  assert (Hex : existsb (fun s => s_id s =? i) (services db) = true).
  { apply existsb_exists. exists service. split; [exact Hin|].
    now apply String.eqb_eq. }
  set (l' := map (fun s' => if s_id s' =? i then fresh else s')
                 (services db)).
  exists (set_services db l'). eexists.
  split; [exact (@regenerateCredentials_run slug r8 r16 db req i service
                  Hp Hf Hnew)|].
  split; [|split; [|split; [|split; [|split; [|repeat split]]]]].
  - unfold Query.Service_findById, l'. simpl.
    rewrite find_replaced.
    + now rewrite Hfid, String.eqb_refl, Hex.
    + intros s _ Hne. now apply String.eqb_neq.
  - intros req2.
    exact (@new_pair_accepted slug r8 r16 db (set_services db l') i service
             req2 Hf Hnew eq_refl).
  - intros Hact req2. exists (with_service req2 fresh).
    split; [|reflexivity].
    transitivity (if active service
                  then Next (with_service req2 fresh)
                  else NextErr (APIError "Service is not active." 403)).
    + exact (@new_pair_accepted slug r8 r16 db (set_services db l') i
               service req2 Hf Hnew eq_refl).
    + now rewrite Hact.
  - intros secret req2. unfold authenticateService.
    destruct (or_else (Some (apiKey service)) None) as [key|] eqn:Hkey;
      [|eexists; reflexivity].
    destruct (or_else secret None) as [sec|]; [|eexists; reflexivity].
    assert (key = apiKey service) as ->.
    { unfold or_else in Hkey. destruct (apiKey service =? "");
        [discriminate | now injection Hkey]. }
    simpl services. unfold l'. rewrite find_replaced.
    + replace (apiKey fresh =? apiKey service) with false;
        [eexists; reflexivity|].
      symmetry. apply String.eqb_neq. intros Heq.
      exact (Hnew service Hin (eq_sym Heq)).
    + intros s Hs Hne. apply String.eqb_neq. intros Heq.
      apply Hne. rewrite <- Hid.
      now rewrite (@NoDup_map_inj _ _ apiKey (services db) s service Hnd Hs
                     Hin Heq).
  - intros s Hne. simpl. unfold l'. rewrite in_map_iff. split.
    + intros [x [Hx Hinx]]. destruct (s_id x =? i) eqn:Hxi.
      * subst s. now elim Hne.
      * now subst x.
    + intros Hs. exists s. split; [|exact Hs].
      apply String.eqb_neq in Hne. now rewrite Hne.
Qed.

Lemma regenerateCredentials_replaces_the_pair_witness :
  exists db' data,
    regenerateCredentials (fun name => name) "0a1b2c3d4e5f6071"
      "00112233445566778899aabbccddeeff" Sample2.db1
      (Sample2.by_id "s-billing") = (db', Json 200 data) /\
    (forall req2,
       authenticateService (Some "toc_billing_0a1b2c3d4e5f6071")
         (Some "toc_00112233445566778899aabbccddeeff") db' req2
       = Next (with_service req2
                 (mkService "s-billing" "billing"
                    "toc_billing_0a1b2c3d4e5f6071"
                    "toc_00112233445566778899aabbccddeeff" true))) /\
    (forall req2,
     exists message,
       authenticateService (Some "toc_billing_1") (Some "toc_secret_1")
         db' req2 = NextErr (APIError message 401)).
Proof.
  destruct (@regenerateCredentials_replaces_the_pair (fun name => name)
              "0a1b2c3d4e5f6071" "00112233445566778899aabbccddeeff"
              Sample2.db1 (Sample2.by_id "s-billing") "s-billing"
              Sample.billing eq_refl eq_refl)
    as [db' [data [Hrun [_ [Hnew [_ [Hold _]]]]]]].
  - simpl. repeat constructor; simpl; intuition discriminate.
  - intros s Hs. in_cases Hs.
  - exists db', data. split; [exact Hrun|]. split.
    + exact Hnew.
    + intros req2. exact (Hold (Some "toc_secret_1") req2).
Defined.
